(** * Optimum GPU-optimisation notebooks: a shallow embedding

    The repository holds two tutorial notebooks.  Each one is a list of
    code cells that call into onnxruntime, optimum, transformers, datasets,
    numpy and the Python standard library.  The embedding below keeps the
    notebooks' own code (the cells, [evaluate], [measure_latency]) as
    programs over a signature of external calls; what the libraries answer
    is left to a handler, so every theorem holds for all library
    behaviours.

    Numbers: a finite Python float is read as the rational it holds
    ([Q]).  Clock readings, latencies and what numpy computes from them are
    handled exactly.  The retention figures, where rounding to two decimals
    makes the last bit of a quotient visible, are computed as Python
    computes them, in binary64: a division, a [round] and a multiplication
    each give the binary64 number nearest to the exact result, ties to
    even.  [round] and the [.2f] format round half to even on the exact
    value of their argument, as Python 3 does.  Infinities, NaN and the
    sign of zero are not represented. *)

From Stdlib Require Import List String Ascii ZArith QArith Qround Qpower Lia Lqa Bool.
From Stdlib Require Import DecimalString.
Import ListNotations.

Set Implicit Arguments.

(** * The embedding *)

(** ** Python values used by the cells *)

Module Py.

Local Open Scope Z_scope.

(** Exceptions the notebooks' own statements can raise. *)
Inductive exn : Type :=
| AssertionError (msg : option string)
| ZeroDivisionError.

(** *** Strings: [in], [==] and [>] *)

(** [x in l] for a list of strings. *)
Definition str_in (x : string) (l : list string) : bool :=
  existsb (String.eqb x) l.

(** [a < b] on [str]: code points are compared left to right and a proper
    prefix is smaller. *)
Fixpoint str_lt (a b : string) : bool :=
  match a, b with
  | EmptyString, EmptyString => false
  | EmptyString, String _ _ => true
  | String _ _, EmptyString => false
  | String x a', String y b' =>
      if (nat_of_ascii x <? nat_of_ascii y)%nat then true
      else if (nat_of_ascii y <? nat_of_ascii x)%nat then false
      else str_lt a' b'
  end.

(** [a > b] is [b < a]. *)
Definition str_gt (a b : string) : bool := str_lt b a.

(** The lexicographic order on strings, as a relation: the first
    difference decides, and a proper prefix comes first. *)
Inductive lex_lt : string -> string -> Prop :=
| lex_prefix : forall y b, lex_lt EmptyString (String y b)
| lex_head : forall x y a b,
    (nat_of_ascii x < nat_of_ascii y)%nat -> lex_lt (String x a) (String y b)
| lex_tail : forall x a b, lex_lt a b -> lex_lt (String x a) (String x b).

(** *** Numbers: binary64, true division, [round] and fixed-point formatting *)

(** Nearest integer, ties to the even neighbour. *)
Definition round_half_even (x : Q) : Z :=
  let f := Qfloor x in
  match (x - inject_Z f ?= 1 # 2)%Q with
  | Lt => f
  | Gt => f + 1
  | Eq => if Z.even f then f else f + 1
  end.

(** The position of the leading bit of a positive [x]: the [l] with
    [2 ^ l <= x < 2 ^ (l + 1)]. *)
Definition ilog2 (x : Q) : Z :=
  if Qle_bool 1 x then Z.log2 (Qfloor x) else - Z.log2_up (Qceiling (/ x)).

(** The binary64 numbers around a positive [a] are the multiples of
    [2 ^ e], with [e] 52 places below the leading bit of [a] and not below
    -1074 (the subnormal numbers). *)
Definition last_place (a : Q) : Z := Z.max (ilog2 a) (-1022) - 52.

(** The binary64 number nearest to [a], for [a] not negative, ties to the
    even significand. *)
Definition nearest (a : Q) : Q :=
  let e := last_place a in
  (inject_Z (round_half_even (a / 2 ^ e)) * 2 ^ e)%Q.

(** The float a decimal literal or an exact result becomes. *)
Definition float (x : Q) : Q :=
  if Qle_bool 0 x then nearest x else (- nearest (- x))%Q.

(** [a * b] on floats. *)
Definition fmul (a b : Q) : Q := float (a * b).

(** [a / b] on floats raises when the divisor is zero. *)
Definition truediv (a b : Q) : exn + Q :=
  if Qeq_bool b 0 then inl ZeroDivisionError else inr (float (a / b)).

Definition pow10 (n : nat) : Z := 10 ^ Z.of_nat n.

(** [round(x, ndigits)]: the decimal with [ndigits] places nearest to the
    exact value of [x], as a float. *)
Definition round (x : Q) (ndigits : nat) : Q :=
  float (inject_Z (round_half_even (x * inject_Z (pow10 ndigits))) / inject_Z (pow10 ndigits)).

(** Decimal digits of a natural number. *)
Definition digits (n : Z) : string :=
  NilZero.string_of_uint (N.to_uint (Z.to_N n)).

(** [s] padded on the left with zeros up to [width] characters. *)
Fixpoint zeros (n : nat) : string :=
  match n with
  | O => EmptyString
  | S n' => String "0" (zeros n')
  end.

Definition zfill (width : nat) (s : string) : string :=
  (zeros (width - String.length s) ++ s)%string.

(** [format(x, '.<d>f')]: [x] rounded to [d] decimals, written with a sign,
    an integer part, and [d] fractional digits. *)
Definition format_fixed (d : nat) (x : Q) : string :=
  let k := Z.abs (round_half_even (x * inject_Z (pow10 d))) in
  let sign := if Qlt_le_dec x 0 then "-"%string else ""%string in
  let int_part := digits (k / pow10 d) in
  match d with
  | O => (sign ++ int_part)%string
  | S _ => (sign ++ int_part ++ "." ++ zfill d (digits (k mod pow10 d)))%string
  end.

(** The parts of an f-string after evaluation of its replacement fields:
    literal text, an interpolated [str], an [int], a float written by
    [repr], and a float written with [:.<d>f]. *)
Inductive piece : Type :=
| Lit (s : string)
| Interp (s : string)
| Int (n : Z)
| Repr (x : Q)
| Fixed (d : nat) (x : Q).

Definition fstring := list piece.

(** [str(n)] for an [int]. *)
Definition format_int (n : Z) : string :=
  ((if (n <? 0)%Z then "-" else "") ++ digits (Z.abs n))%string.

(** The text of an f-string; the digits [repr] writes for a float are not
    modelled, so a string with such a part has no text here. *)
Definition piece_text (p : piece) : option string :=
  match p with
  | Lit s => Some s
  | Interp s => Some s
  | Int n => Some (format_int n)
  | Repr _ => None
  | Fixed d x => Some (format_fixed d x)
  end.

Fixpoint text (l : fstring) : option string :=
  match l with
  | [] => Some EmptyString
  | p :: l' =>
      match piece_text p, text l' with
      | Some a, Some b => Some (a ++ b)%string
      | _, _ => None
      end
  end.

End Py.

(** ** The external interface *)

(** External objects (models, tokenizers, pipelines, optimizers, metrics)
    are opaque to the notebooks: only their identity is kept. *)
Definition ref := nat.

(** What a question-answering pipeline returns. *)
Record Response : Type := {
  score : Q;
  start : Z;
  end_ : Z;
  answer : string
}.

(** A SQuAD example. *)
Record Answers : Type := {
  answers_text : list string;
  answers_start : list Z
}.

Record Example : Type := {
  ex_id : string;
  ex_title : string;
  ex_context : string;
  ex_question : string;
  ex_answers : Answers
}.

Definition Dataset := list Example.

(** [load_dataset(...)] returns the splits by name. *)
Record DatasetDict : Type := {
  train : Dataset;
  validation : Dataset
}.

(** The dictionaries [evaluate] builds. *)
Record Reference : Type := {
  ref_id : string;
  ref_answers : Answers
}.

Record Prediction : Type := {
  pred_id : string;
  prediction_text : string;
  no_answer_probability : option Q
}.

Record EvalRecord : Type := {
  reference : Reference;
  default : Prediction;
  optimized : Prediction
}.

(** What [metric.compute] returns: the exact-match score (key
    ['exact_match'] for squad, ['exact'] for squad_v2) and the F1 score. *)
Record MetricResult : Type := {
  exact : Q;
  f1 : Q
}.

(** The [model=] argument of [pipeline]: a loaded model or a model id. *)
Inductive model_arg : Type :=
| ModelObj (m : ref)
| ModelName (model_id : string).

(** Keyword arguments that were passed; [None] leaves the library default. *)
Record OptimizationConfig : Type := {
  optimization_level : Z;
  optimize_for_gpu : option bool;
  fp16 : option bool
}.

(** [AutoQuantizationConfig.avx512_vnni(is_static=..., per_channel=...)]. *)
Record QuantizationConfig : Type := {
  is_static : bool;
  per_channel : bool
}.

(** A label and its score, as a text-classification pipeline returns them. *)
Record Classification : Type := {
  label : string;
  cls_score : Q
}.

(** The external calls the notebooks make, each with the type of its
    answer. *)
Inductive extE : Type -> Type :=
(* shell *)
| pip_install (requirement : string) : extE unit
(* onnxruntime *)
| get_available_providers : extE (list string)
| get_device : extE string
| onnxruntime_version : extE string
(* optimum, transformers *)
| ORTModelForQuestionAnswering_from_pretrained
    (src : string) (from_transformers : option bool) (file_name : option string) : extE ref
| AutoTokenizer_from_pretrained (src : string) : extE ref
| save_pretrained (obj : ref) (dir : string) : extE unit
| tokenizer_pair (tokenizer : ref) (a b : string) (return_tensors : string) : extE ref
| tokenizer_input_ids (tokenizer : ref) (a : string) : extE (list Z)
| pipeline (task : string) (model : model_arg) (tokenizer : option ref) (device : option Z) : extE ref
| pipeline_model_device (pipe : ref) : extE string
| model_pipeline_task (model : ref) : extE string
| qa_call (pipe : ref) (question context : string) : extE Response
| text_call (pipe : ref) (payload : string) : extE (list Classification)
| ORTOptimizer_from_pretrained (model_id : string) (feature : string) : extE ref
| optimizer_export (optimizer : ref) (onnx_model_path onnx_optimized_model_output_path : string)
    (optimization_config : OptimizationConfig) : extE string
| ORTQuantizer_from_pretrained (model_id : string) (feature : string) : extE ref
| quantizer_export (quantizer : ref) (onnx_model_path onnx_quantized_model_output_path : string)
    (quantization_config : QuantizationConfig) : extE string
(* datasets *)
| load_metric (name : string) : extE ref
| load_dataset (name : string) : extE DatasetDict
| metric_compute (metric : ref) (predictions : list Prediction) (references : list Reference)
    : extE MetricResult
(* standard library and builtins *)
| os_path_getsize (path : string) : extE Z
| perf_counter : extE Q
| print (line : list Py.piece) : extE unit
| print_response (r : Response) : extE unit.

(** numpy's functions are pure; the notebooks use these. *)
Record numpy : Type := {
  np_mean : list Q -> Q;
  np_std : list Q -> Q;
  np_percentile : list Q -> Q -> Q;
  np_truediv : Q -> Q -> Q;
  np_round : Q -> nat -> Q
}.

(** ** Programs over the interface *)

(** A cell is a tree of external calls that ends by returning a value or
    raising an exception. *)
Inductive Prog (A : Type) : Type :=
| Ret (a : A)
| Raise (e : Py.exn)
| Vis {X : Type} (c : extE X) (k : X -> Prog A).

Arguments Ret {A} a.
Arguments Raise {A} e.
Arguments Vis {A X} c k.

Fixpoint bind {A B : Type} (m : Prog A) (f : A -> Prog B) : Prog B :=
  match m with
  | Ret a => f a
  | Raise e => Raise e
  | Vis c k => Vis c (fun x => bind (k x) f)
  end.

Definition trigger {X : Type} (c : extE X) : Prog X := Vis c Ret.

Declare Scope prog_scope.
Delimit Scope prog_scope with prog.
Notation "x <- m ;; k" := (bind m (fun x => k))
  (at level 61, m at next level, right associativity) : prog_scope.
Notation "' p <- m ;; k" := (bind m (fun x => let p := x in k))
  (at level 61, p pattern, m at next level, right associativity) : prog_scope.
Notation "m ;; k" := (bind m (fun _ => k))
  (at level 61, right associativity) : prog_scope.
Local Open Scope prog_scope.

(** [assert cond, msg]. *)
Definition py_assert (cond : bool) (msg : option string) : Prog unit :=
  if cond then Ret tt else Raise (Py.AssertionError msg).

(** A value or the exception its evaluation raised. *)
Definition lift {A : Type} (r : Py.exn + A) : Prog A :=
  match r with
  | inl e => Raise e
  | inr a => Ret a
  end.

(** [for _ in range(n): body], with the variables the body updates passed
    from one round to the next. *)
Fixpoint for_range {St : Type} (n : nat) (body : St -> Prog St) (s : St) : Prog St :=
  match n with
  | O => Ret s
  | S n' => s' <- body s ;; for_range n' body s'
  end.

(** [Dataset.map(f)] on a dataset that is not empty: [f] is applied to the
    examples in order and its results are collected.  (On an empty dataset
    the library adds no column, and reading one raises; the splits these
    notebooks load are not empty.) *)
Fixpoint Dataset_map {A B : Type} (f : A -> Prog B) (ds : list A) : Prog (list B) :=
  match ds with
  | [] => Ret []
  | x :: ds' => y <- f x ;; ys <- Dataset_map f ds' ;; Ret (y :: ys)
  end.

(** [Dataset.select(range(n))] on a dataset of at least [n] examples: the
    first [n] examples.  (On a shorter one the library raises; the split the
    second notebook selects from is longer.) *)
Definition Dataset_select_range {A : Type} (n : nat) (ds : list A) : list A :=
  firstn n ds.

(** ** Running a program *)

(** One external call together with its answer. *)
Inductive entry : Type :=
| Called {X : Type} (c : extE X) (x : X).

Definition trace := list entry.

Inductive outcome (A : Type) : Type :=
| Returned (a : A)
| Raised (e : Py.exn).

Arguments Returned {A} a.
Arguments Raised {A} e.

Section Run.

(** The state of everything outside the notebook, and how each external
    call answers and changes it. *)
Variable W : Type.
Definition handler := forall X : Type, extE X -> W -> X * W.
Variable h : handler.

Fixpoint run {A : Type} (p : Prog A) (w : W) : outcome A * W * trace :=
  match p with
  | Ret a => (Returned a, w, [])
  | Raise e => (Raised e, w, [])
  | Vis c k =>
      let (x, w1) := h c w in
      let '(r, w2, t) := run (k x) w1 in
      (r, w2, Called c x :: t)
  end.

End Run.

(** [Path(a) / b]. *)
Definition path_join (a b : string) : string := (a ++ "/" ++ b)%string.

(** The payload both notebooks use for their sanity calls. *)
Definition context : string :=
  "Hello, my name is Philipp and I live in Nuremberg, Germany. Currently I am working as a Technical Lead at Hugging Face to democratize artificial intelligence through open source and open science. In the past I designed and implemented cloud-native machine learning architectures for fin-tech and insurance companies. I found my passion for cloud concepts and machine learning 5 years ago. Since then I never stopped learning. Currently, I am focusing myself in the area NLP and how to leverage models like BERT, Roberta, T5, ViT, and GPT2 to generate business value.".
Definition question : string := "As what is Philipp working?".

(** The string [measure_latency] returns beside the P95 value. *)
Definition latency_report (time_p95_ms time_avg_ms time_std_ms : Q) : Py.fstring :=
  [Py.Lit "P95 latency (ms) - "; Py.Repr time_p95_ms;
   Py.Lit "; Average latency (ms) - "; Py.Fixed 2 time_avg_ms;
   Py.Lit " +\- "; Py.Fixed 2 time_std_ms; Py.Lit ";"].

(** ** First notebook: DistilBERT, graph optimisation and fp16 *)

Module Notebook1.

Local Open Scope string_scope.

Definition model_id : string := "distilbert-base-cased-distilled-squad".
Definition onnx_path : string := "onnx".

Definition install_cell : Prog unit :=
  trigger (pip_install "optimum[onnxruntime-gpu]==1.3.0").

Definition setup_cell : Prog unit :=
  providers <- trigger get_available_providers ;;
  py_assert (Py.str_in "CUDAExecutionProvider" providers)
    (Some "ONNX Runtime GPU provider not found. Make sure onnxruntime-gpu is installed and onnxruntime is uninstalled.") ;;
  device <- trigger get_device ;;
  py_assert (String.eqb "GPU" device) None ;;
  version <- trigger onnxruntime_version ;;
  py_assert (Py.str_gt version "1.11.1") (Some "you need a newer version of ONNX Runtime").

Definition export_cell : Prog (ref * ref) :=
  model <- trigger (ORTModelForQuestionAnswering_from_pretrained model_id (Some true) None) ;;
  tokenizer <- trigger (AutoTokenizer_from_pretrained model_id) ;;
  trigger (save_pretrained model onnx_path) ;;
  trigger (save_pretrained tokenizer onnx_path) ;;
  Ret (model, tokenizer).

Definition pipeline_cell (model tokenizer : ref) : Prog ref :=
  vanilla_qa <- trigger (pipeline "question-answering" (ModelObj model) (Some tokenizer) (Some 0%Z)) ;;
  device <- trigger (pipeline_model_device vanilla_qa) ;;
  trigger (print [Py.Lit "pipeline is loaded on device "; Py.Interp device]) ;;
  r <- trigger (qa_call vanilla_qa question context) ;;
  trigger (print_response r) ;;
  Ret vanilla_qa.

Definition optimize_cell (model : ref) : Prog unit :=
  feature <- trigger (model_pipeline_task model) ;;
  optimizer <- trigger (ORTOptimizer_from_pretrained model_id feature) ;;
  let optimization_config :=
    {| optimization_level := 99; optimize_for_gpu := Some true; fp16 := Some true |} in
  trigger (optimizer_export optimizer
             (path_join onnx_path "model.onnx")
             (path_join onnx_path "model-optimized.onnx")
             optimization_config) ;;
  Ret tt.

Definition reload_cell (tokenizer : ref) : Prog ref :=
  model <- trigger (ORTModelForQuestionAnswering_from_pretrained onnx_path None
                      (Some "model-optimized.onnx")) ;;
  optimized_qa <- trigger (pipeline "question-answering" (ModelObj model) (Some tokenizer) (Some 0%Z)) ;;
  r <- trigger (qa_call optimized_qa question context) ;;
  trigger (print_response r) ;;
  Ret optimized_qa.

Definition trfs_cell : Prog ref :=
  trigger (pipeline "question-answering" (ModelName model_id) None (Some 0%Z)).

Definition dataset_cell : Prog (ref * Dataset) :=
  trigger (load_metric "squad_v2") ;;
  metric <- trigger (load_metric "squad") ;;
  splits <- trigger (load_dataset "squad") ;;
  let eval_dataset := validation splits in
  Ret (metric, eval_dataset).

Definition evaluate (vanilla_qa optimized_qa : ref) (example : Example) : Prog EvalRecord :=
  default <- trigger (qa_call vanilla_qa (ex_question example) (ex_context example)) ;;
  optimized <- trigger (qa_call optimized_qa (ex_question example) (ex_context example)) ;;
  Ret {| reference := {| ref_id := ex_id example; ref_answers := ex_answers example |};
         default := {| pred_id := ex_id example; prediction_text := answer default;
                       no_answer_probability := None |};
         optimized := {| pred_id := ex_id example; prediction_text := answer optimized;
                         no_answer_probability := None |} |}.

Definition evaluation_cell (vanilla_qa optimized_qa metric : ref) (eval_dataset : Dataset)
  : Prog unit :=
  result <- Dataset_map (evaluate vanilla_qa optimized_qa) eval_dataset ;;
  default_acc <- trigger (metric_compute metric (map default result) (map reference result)) ;;
  optimized <- trigger (metric_compute metric (map optimized result) (map reference result)) ;;
  trigger (print [Py.Lit "vanilla model: f1="; Py.Repr (f1 default_acc); Py.Lit "%"]) ;;
  trigger (print [Py.Lit "optimized model: f1="; Py.Repr (f1 optimized); Py.Lit "%"]) ;;
  ratio <- lift (Py.truediv (f1 optimized) (f1 default_acc)) ;;
  trigger (print [Py.Lit "The optimized model achieves ";
                  Py.Fixed 2 (Py.fmul (Py.round ratio 2) 100);
                  Py.Lit "% accuracy of the fp32 model"]).

Definition measure_latency (np : numpy) (pipe : ref) : Prog (Py.fstring * Q) :=
  let latencies : list Q := [] in
  (* warm up *)
  for_range 10 (fun _ => trigger (qa_call pipe question context) ;; Ret tt) tt ;;
  (* Timed run *)
  latencies <- for_range 300 (fun latencies =>
      start_time <- trigger perf_counter ;;
      trigger (qa_call pipe question context) ;;
      now <- trigger perf_counter ;;
      let latency := (now - start_time)%Q in
      Ret (latencies ++ [latency])%list) latencies ;;
  (* Compute run statistics *)
  let time_avg_ms := (1000 * np_mean np latencies)%Q in
  let time_std_ms := (1000 * np_std np latencies)%Q in
  let time_p95_ms := (1000 * np_percentile np latencies 95)%Q in
  Ret (latency_report time_p95_ms time_avg_ms time_std_ms, time_p95_ms).

Definition benchmark_cell (np : numpy) (vanilla_qa optimized_qa : ref) : Prog unit :=
  vanilla_model <- measure_latency np vanilla_qa ;;
  optimized_model <- measure_latency np optimized_qa ;;
  trigger (print (Py.Lit "Vanilla model: " :: fst vanilla_model)) ;;
  trigger (print (Py.Lit "Optimized model: " :: fst optimized_model)) ;;
  trigger (print [Py.Lit "Improvement through optimization: ";
                  Py.Repr (np_round np (np_truediv np (snd vanilla_model) (snd optimized_model)) 2);
                  Py.Lit "x"]).

(** The cells from top to bottom; an exception ends the run. *)
Definition notebook (np : numpy) : Prog unit :=
  install_cell ;;
  setup_cell ;;
  '(model, tokenizer) <- export_cell ;;
  vanilla_qa <- pipeline_cell model tokenizer ;;
  optimize_cell model ;;
  optimized_qa <- reload_cell tokenizer ;;
  trfs_qa <- trfs_cell ;;
  '(metric, eval_dataset) <- dataset_cell ;;
  evaluation_cell vanilla_qa optimized_qa metric eval_dataset ;;
  benchmark_cell np vanilla_qa optimized_qa.

End Notebook1.

(** ** Second notebook: RoBERTa, graph optimisation and dynamic quantisation *)

Module Notebook2.

Local Open Scope string_scope.

Definition model_id : string := "deepset/roberta-base-squad2".
Definition onnx_path : string := "onnx".

Section Cells.

(** Names the cells read that no cell of this notebook binds: they are
    looked up in the kernel's namespace.  The cells are embedded for a
    kernel that binds them; in one that does not, the run stops with a
    NameError at the first of these reads. *)
Variables (text task : string).
Variables (optimum_qa opt_optimum_qa clx : ref).
Variable quantized : MetricResult.
Variable results_accuracy : Q.

Definition install_cell : Prog unit :=
  trigger (pip_install "optimum[onnxruntime-gpu]==1.2.3").

Definition export_cell : Prog (ref * ref) :=
  model <- trigger (ORTModelForQuestionAnswering_from_pretrained model_id (Some true) None) ;;
  tokenizer <- trigger (AutoTokenizer_from_pretrained model_id) ;;
  trigger (save_pretrained model onnx_path) ;;
  trigger (save_pretrained tokenizer onnx_path) ;;
  Ret (model, tokenizer).

Definition payload_cell (tokenizer : ref) : Prog ref :=
  trigger (tokenizer_pair tokenizer question text "pt").

Definition pipeline_cell (model tokenizer : ref) : Prog ref :=
  vanilla_qa <- trigger (pipeline "question-answering" (ModelObj model) (Some tokenizer) None) ;;
  trigger (qa_call vanilla_qa question context) ;;
  Ret vanilla_qa.

Definition optimize_cell : Prog unit :=
  optimizer <- trigger (ORTOptimizer_from_pretrained model_id task) ;;
  let optimization_config :=
    {| optimization_level := 99; optimize_for_gpu := None; fp16 := None |} in
  trigger (optimizer_export optimizer
             (path_join onnx_path "model.onnx")
             (path_join onnx_path "model-optimized.onnx")
             optimization_config) ;;
  Ret tt.

Definition reload_cell (tokenizer : ref) : Prog (ref * ref) :=
  model <- trigger (ORTModelForQuestionAnswering_from_pretrained model_id None
                      (Some "model-optimized.onnx")) ;;
  optimized_qa <- trigger (pipeline "question-answering" (ModelObj model) (Some tokenizer) None) ;;
  trigger (qa_call optimized_qa question context) ;;
  Ret (model, optimized_qa).

Definition quantize_cell (model : ref) : Prog string :=
  feature <- trigger (model_pipeline_task model) ;;
  dynamic_quantizer <- trigger (ORTQuantizer_from_pretrained model_id feature) ;;
  let dqconfig := {| is_static := false; per_channel := false |} in
  trigger (quantizer_export dynamic_quantizer
             (path_join onnx_path "model-optimized.onnx")
             (path_join onnx_path "model-quantized.onnx")
             dqconfig).

Definition size_cell : Prog unit :=
  bytes <- trigger (os_path_getsize (path_join onnx_path "model-optimized.onnx")) ;;
  let size := (inject_Z bytes / inject_Z (1024 * 1024))%Q in
  bytes <- trigger (os_path_getsize (path_join onnx_path "model-quantized.onnx")) ;;
  let quantized_model := (inject_Z bytes / inject_Z (1024 * 1024))%Q in
  trigger (print [Py.Lit "Model file size: "; Py.Fixed 2 size; Py.Lit " MB"]) ;;
  trigger (print [Py.Lit "Quantized Model file size: "; Py.Fixed 2 quantized_model; Py.Lit " MB"]).

Definition reload_again_cell : Prog (ref * ref) :=
  model <- trigger (ORTModelForQuestionAnswering_from_pretrained model_id None
                      (Some "model-optimized.onnx")) ;;
  tokenizer <- trigger (AutoTokenizer_from_pretrained onnx_path) ;;
  optimized_qa <- trigger (pipeline "question-answering" (ModelObj model) (Some tokenizer) None) ;;
  trigger (qa_call optimized_qa question context) ;;
  Ret (tokenizer, optimized_qa).

Definition dataset_cell : Prog (ref * Dataset) :=
  metric <- trigger (load_metric "squad_v2") ;;
  splits <- trigger (load_dataset "squad_v2") ;;
  let eval_dataset := validation splits in
  let eval_dataset := Dataset_select_range 1000 eval_dataset in
  Ret (metric, eval_dataset).

Definition evaluate (example : Example) : Prog EvalRecord :=
  default <- trigger (qa_call optimum_qa (ex_question example) (ex_context example)) ;;
  optimized <- trigger (qa_call opt_optimum_qa (ex_question example) (ex_context example)) ;;
  Ret {| reference := {| ref_id := ex_id example; ref_answers := ex_answers example |};
         default := {| pred_id := ex_id example; prediction_text := answer default;
                       no_answer_probability := Some 0%Q |};
         optimized := {| pred_id := ex_id example; prediction_text := answer optimized;
                         no_answer_probability := Some 0%Q |} |}.

Definition evaluate_cell (eval_dataset : Dataset) : Prog (list EvalRecord) :=
  Dataset_map evaluate eval_dataset.

Definition metrics_cell (metric : ref) (result : list EvalRecord) : Prog unit :=
  default_acc <- trigger (metric_compute metric (map default result) (map reference result)) ;;
  optimized <- trigger (metric_compute metric (map optimized result) (map reference result)) ;;
  trigger (print [Py.Lit "vanilla model: exact="; Py.Repr (exact default_acc);
                  Py.Lit "% f1="; Py.Repr (f1 default_acc); Py.Lit "%"]) ;;
  trigger (print [Py.Lit "optimized model: exact="; Py.Repr (exact optimized);
                  Py.Lit "% f1="; Py.Repr (f1 optimized); Py.Lit "%"]) ;;
  trigger (print [Py.Lit "quantized model: exact="; Py.Repr (exact quantized);
                  Py.Lit "% f1="; Py.Repr (f1 quantized); Py.Lit "%"]) ;;
  trigger (print [Py.Lit "Vanilla model: 92.5%"]) ;;
  trigger (print [Py.Lit "Quantized model: "; Py.Fixed 2 (Py.fmul results_accuracy 100);
                  Py.Lit "%"]) ;;
  ratio <- lift (Py.truediv results_accuracy (Py.float 0.925)) ;;
  trigger (print [Py.Lit "The quantized model achieves ";
                  Py.Fixed 2 (Py.fmul (Py.round ratio 4) 100);
                  Py.Lit "% accuracy of the fp32 model"]).

Definition payload : string :=
  let once := "Hello my name is Philipp. I am getting in touch with you because i didn't get a response from you. What do I need to do to get my new card which I have requested 2 weeks ago? Please help me and answer this email in the next 7 days. Best regards and have a nice weekend " in
  once ++ once.

Definition measure_latency (np : numpy) (pipe : ref) : Prog (Py.fstring * Q) :=
  let latencies : list Q := [] in
  (* warm up *)
  for_range 10 (fun _ => trigger (text_call pipe payload) ;; Ret tt) tt ;;
  (* Timed run *)
  latencies <- for_range 300 (fun latencies =>
      start_time <- trigger perf_counter ;;
      trigger (text_call pipe payload) ;;
      now <- trigger perf_counter ;;
      let latency := (now - start_time)%Q in
      Ret (latencies ++ [latency])%list) latencies ;;
  (* Compute run statistics *)
  let time_avg_ms := (1000 * np_mean np latencies)%Q in
  let time_std_ms := (1000 * np_std np latencies)%Q in
  let time_p95_ms := (1000 * np_percentile np latencies 95)%Q in
  Ret (latency_report time_p95_ms time_avg_ms time_std_ms, time_p95_ms).

Definition benchmark_cell (np : numpy) (tokenizer : ref) : Prog unit :=
  input_ids <- trigger (tokenizer_input_ids tokenizer payload) ;;
  trigger (print [Py.Lit "Payload sequence length: "; Py.Int (Z.of_nat (List.length input_ids))]) ;;
  vanilla_clx <- trigger (pipeline "text-classification" (ModelName model_id) None None) ;;
  vanilla_model <- measure_latency np vanilla_clx ;;
  quantized_model <- measure_latency np clx ;;
  trigger (print (Py.Lit "Vanilla model: " :: fst vanilla_model)) ;;
  trigger (print (Py.Lit "Quantized model: " :: fst quantized_model)) ;;
  trigger (print [Py.Lit "Improvement through quantization: ";
                  Py.Repr (np_round np (np_truediv np (snd vanilla_model) (snd quantized_model)) 2);
                  Py.Lit "x"]).

(** The cells from top to bottom; an exception ends the run. *)
Definition notebook (np : numpy) : Prog unit :=
  install_cell ;;
  '(model, tokenizer) <- export_cell ;;
  inputs <- payload_cell tokenizer ;;
  vanilla_qa <- pipeline_cell model tokenizer ;;
  optimize_cell ;;
  '(model, optimized_qa) <- reload_cell tokenizer ;;
  model_quantized_path <- quantize_cell model ;;
  size_cell ;;
  '(tokenizer, optimized_qa) <- reload_again_cell ;;
  '(metric, eval_dataset) <- dataset_cell ;;
  result <- evaluate_cell eval_dataset ;;
  metrics_cell metric result ;;
  benchmark_cell np tokenizer.

End Cells.

End Notebook2.

(** * Vocabulary of the statements *)

(** ** Reading a trace *)

(** The value a [perf_counter()] call returned. *)
Definition perf_reading (en : entry) : option Q :=
  match en with
  | Called c x =>
      match c in extE X return X -> option Q with
      | perf_counter => fun t => Some t
      | _ => fun _ => None
      end x
  end.

Fixpoint filter_map {A B : Type} (f : A -> option B) (l : list A) : list B :=
  match l with
  | [] => []
  | a :: l' =>
      match f a with
      | Some b => b :: filter_map f l'
      | None => filter_map f l'
      end
  end.

Definition perf_readings (t : trace) : list Q := filter_map perf_reading t.

(** Clock readings taken two by two: second minus first. *)
Fixpoint pair_differences (l : list Q) : list Q :=
  match l with
  | t1 :: t2 :: l' => (t2 - t1)%Q :: pair_differences l'
  | _ => []
  end.

(** The latencies a trace records: one per pair of clock readings. *)
Definition timed_latencies (t : trace) : list Q := pair_differences (perf_readings t).

(** A warm-up round is one call of [c]; a timed round is one call of [c]
    between two clock readings. *)
Definition warmup_trace {X : Type} (c : extE X) (answers : list X) : trace :=
  map (Called c) answers.

Definition timed_round {X : Type} (c : extE X) (r : Q * X * Q) : trace :=
  let '(t1, x, t2) := r in [Called perf_counter t1; Called c x; Called perf_counter t2].

Definition timed_trace {X : Type} (c : extE X) (rounds : list (Q * X * Q)) : trace :=
  flat_map (timed_round c) rounds.

Definition round_latency {X : Type} (r : Q * X * Q) : Q :=
  let '(t1, _, t2) := r in (t2 - t1)%Q.

(** ** Rounds of the evaluation loop *)

(** One round of [evaluate]: the example and what the two pipelines
    answered. *)
Definition eval_round := (Example * Response * Response)%type.

Definition round_example (r : eval_round) : Example := fst (fst r).

(** The two calls [evaluate] makes for an example, with their answers. *)
Definition eval_round_trace (first second : ref) (r : eval_round) : trace :=
  let '(example, d, o) := r in
  [Called (qa_call first (ex_question example) (ex_context example)) d;
   Called (qa_call second (ex_question example) (ex_context example)) o].

(** The record kept for a round; [nap] is the ['no_answer_probability']
    entry, present in the second notebook only. *)
Definition eval_record (nap : option Q) (r : eval_round) : EvalRecord :=
  let '(example, d, o) := r in
  {| reference := {| ref_id := ex_id example; ref_answers := ex_answers example |};
     default := {| pred_id := ex_id example; prediction_text := answer d;
                   no_answer_probability := nap |};
     optimized := {| pred_id := ex_id example; prediction_text := answer o;
                     no_answer_probability := nap |} |}.

(** ** Steps *)

(** The notebooks' named steps, and the call that marks each of them. *)
Inductive Step : Type := Export | Optimize | Reload | Evaluate | Benchmark.

Definition Step_eqb (a b : Step) : bool :=
  match a, b with
  | Export, Export | Optimize, Optimize | Reload, Reload
  | Evaluate, Evaluate | Benchmark, Benchmark => true
  | _, _ => false
  end.

(** Export is [from_pretrained(..., from_transformers=True)], optimisation
    is [optimizer.export], the reload is [from_pretrained] with
    [file_name="model-optimized.onnx"], evaluation is [metric.compute] and
    benchmarking is a clock reading. *)
Definition step_of (en : entry) : option Step :=
  match en with
  | Called c _ =>
      match c with
      | ORTModelForQuestionAnswering_from_pretrained _ (Some true) _ => Some Export
      | ORTModelForQuestionAnswering_from_pretrained _ _ (Some file) =>
          if String.eqb file "model-optimized.onnx" then Some Reload else None
      | optimizer_export _ _ _ _ => Some Optimize
      | metric_compute _ _ _ => Some Evaluate
      | perf_counter => Some Benchmark
      | _ => None
      end
  end.

Definition steps (t : trace) : list Step := filter_map step_of t.

(** Runs of the same step merged into one. *)
Fixpoint squash (l : list Step) : list Step :=
  match l with
  | [] => []
  | a :: l' =>
      match l' with
      | b :: _ => if Step_eqb a b then squash l' else a :: squash l'
      | [] => [a]
      end
  end.

Definition all_steps : list Step := [Export; Optimize; Reload; Evaluate; Benchmark].

(** [n] copies of [l], one after the other. *)
Fixpoint repeat_list {A : Type} (n : nat) (l : list A) : list A :=
  match n with
  | O => []
  | S n' => l ++ repeat_list n' l
  end.

(** Where a run of the first notebook can end, and the steps it has made
    by then. *)
Definition first_notebook_steps (r : outcome unit) (o : list Step) : Prop :=
  match r with
  | Returned _ => squash o = all_steps
  | Raised (Py.AssertionError _) => o = []
  | Raised Py.ZeroDivisionError => squash o = [Export; Optimize; Reload; Evaluate]
  end.

(** ** Scores and printed lines *)

(** The scores [metric.compute] returned and the lines given to [print]. *)
Inductive Report : Type :=
| Computed (m : MetricResult)
| Printed (line : Py.fstring).

Definition report_of (en : entry) : option Report :=
  match en with
  | Called c x =>
      match c in extE X return X -> option Report with
      | metric_compute _ _ _ => fun m => Some (Computed m)
      | print line => fun _ => Some (Printed line)
      | _ => fun _ => None
      end x
  end.

Definition reports (t : trace) : list Report := filter_map report_of t.

(** The lines of the first notebook's evaluation cell. *)
Definition f1_line (model : string) (m : MetricResult) : Py.fstring :=
  [Py.Lit (model ++ " model: f1="); Py.Repr (f1 m); Py.Lit "%"].

Definition retention_line_1 (vanilla optimised : MetricResult) : Py.fstring :=
  [Py.Lit "The optimized model achieves ";
   Py.Fixed 2 (Py.fmul (Py.round (Py.float (f1 optimised / f1 vanilla)) 2) 100);
   Py.Lit "% accuracy of the fp32 model"].

(** The lines of the second notebook's metrics cell. *)
Definition exact_f1_line (model : string) (m : MetricResult) : Py.fstring :=
  [Py.Lit (model ++ " model: exact="); Py.Repr (exact m);
   Py.Lit "% f1="; Py.Repr (f1 m); Py.Lit "%"].

Definition retention_line_2 (accuracy : Q) : Py.fstring :=
  [Py.Lit "The quantized model achieves ";
   Py.Fixed 2 (Py.fmul (Py.round (Py.float (accuracy / Py.float 0.925)) 4) 100);
   Py.Lit "% accuracy of the fp32 model"].

(** The lines of a benchmark cell, from the latencies of its two runs. *)
Definition benchmark_lines (np : numpy) (second_title improvement_title : string)
           (first_run second_run : list Q) : list Report :=
  let p95 := fun l => (1000 * np_percentile np l 95)%Q in
  let report := fun l =>
    latency_report (p95 l) (1000 * np_mean np l) (1000 * np_std np l) in
  [Printed (Py.Lit "Vanilla model: " :: report first_run);
   Printed (Py.Lit second_title :: report second_run);
   Printed [Py.Lit improvement_title;
            Py.Repr (np_round np (np_truediv np (p95 first_run) (p95 second_run)) 2);
            Py.Lit "x"]].

(** The lines given to [print], and the scores computed, in order. *)
Definition printed_lines (t : trace) : list Py.fstring :=
  filter_map (fun r => match r with Printed line => Some line | Computed _ => None end)
             (reports t).

Definition computed_scores (t : trace) : list MetricResult :=
  filter_map (fun r => match r with Computed m => Some m | Printed _ => None end)
             (reports t).

(** The calls of [print] that write the lines of [o]. *)
Definition printing (o : list Report) : trace :=
  flat_map (fun r => match r with
                     | Printed line => [Called (print line) tt]
                     | Computed _ => []
                     end) o.

(** The trace of a benchmark: [measure_latency] on the call [c1] and then
    on the call [c2], each with its warm-up calls and its timed rounds, and
    then the three lines about the latencies of these rounds. *)
Definition benchmark_trace {X : Type} (np : numpy) (second_title improvement_title : string)
           (c1 c2 : extE X) (answers1 answers2 : list X)
           (rounds1 rounds2 : list (Q * X * Q)) : trace :=
  warmup_trace c1 answers1 ++ timed_trace c1 rounds1 ++
  warmup_trace c2 answers2 ++ timed_trace c2 rounds2 ++
  printing (benchmark_lines np second_title improvement_title
                            (map round_latency rounds1) (map round_latency rounds2)).

(** Ten warm-up calls and three hundred timed rounds for each. *)
Definition benchmark_sizes {X : Type} (answers1 answers2 : list X)
           (rounds1 rounds2 : list (Q * X * Q)) : Prop :=
  List.length answers1 = 10%nat /\ List.length rounds1 = 300%nat /\
  List.length answers2 = 10%nat /\ List.length rounds2 = 300%nat.

(** The first notebook's evaluation cell: two scores are computed, their
    F1 values are printed, and the retention line follows unless the
    vanilla F1 is zero. *)
Definition evaluation_report (r : outcome unit) (o : list Report) : Prop :=
  exists vanilla optimised : MetricResult,
    (Qeq_bool (f1 vanilla) 0 = false /\ r = Returned tt /\
     o = [Computed vanilla; Computed optimised;
          Printed (f1_line "vanilla" vanilla); Printed (f1_line "optimized" optimised);
          Printed (retention_line_1 vanilla optimised)]) \/
    (Qeq_bool (f1 vanilla) 0 = true /\ r = Raised Py.ZeroDivisionError /\
     o = [Computed vanilla; Computed optimised;
          Printed (f1_line "vanilla" vanilla); Printed (f1_line "optimized" optimised)]).

(** The second notebook's metrics cell: two scores are computed and their
    exact-match and F1 values are printed, then the lines about the
    namespace's [quantized] and [results]. *)
Definition metrics_report (quantized : MetricResult) (results_accuracy : Q)
           (r : outcome unit) (o : list Report) : Prop :=
  r = Returned tt /\
  exists vanilla optimised : MetricResult,
    o = [Computed vanilla; Computed optimised;
         Printed (exact_f1_line "vanilla" vanilla);
         Printed (exact_f1_line "optimized" optimised);
         Printed (exact_f1_line "quantized" quantized);
         Printed [Py.Lit "Vanilla model: 92.5%"];
         Printed [Py.Lit "Quantized model: "; Py.Fixed 2 (Py.fmul results_accuracy 100);
                  Py.Lit "%"];
         Printed (retention_line_2 results_accuracy)].

(** ** Files *)

(** What happens to files on disk: a library call writes a checkpoint (the
    directory or file it is given), and [os.path.getsize] reads the size
    of a file.  Downloads and caches inside the libraries are not
    counted. *)
Inductive FileEvent : Type :=
| LibraryWrites (path : string)
| ReadsSize (path : string).

Definition file_event_of (en : entry) : option FileEvent :=
  match en with
  | Called c _ =>
      match c with
      | save_pretrained _ dir => Some (LibraryWrites dir)
      | optimizer_export _ _ out _ => Some (LibraryWrites out)
      | quantizer_export _ _ out _ => Some (LibraryWrites out)
      | os_path_getsize path => Some (ReadsSize path)
      | _ => None
      end
  end.

Definition file_events (t : trace) : list FileEvent := filter_map file_event_of t.

(** The files of a run of the first notebook, by the way it ends. *)
Definition first_notebook_files (r : outcome unit) (o : list FileEvent) : Prop :=
  match r with
  | Raised (Py.AssertionError _) => o = []
  | _ => o = [LibraryWrites "onnx"; LibraryWrites "onnx";
              LibraryWrites "onnx/model-optimized.onnx"]
  end.

(** ** Requests *)

(** What is sent to a pipeline: a question with its context, or one text. *)
Inductive Request : Type :=
| QARequest (question context : string)
| TextRequest (payload : string).

Definition request_of (en : entry) : option Request :=
  match en with
  | Called c _ =>
      match c with
      | qa_call _ q c => Some (QARequest q c)
      | text_call _ payload => Some (TextRequest payload)
      | _ => None
      end
  end.

Definition requests (t : trace) : list Request := filter_map request_of t.

Definition is_qa_request (r : Request) : bool :=
  match r with
  | QARequest _ _ => true
  | TextRequest _ => false
  end.

(** A request with a question and a context. *)
Definition qa_only (r : Request) : Prop := is_qa_request r = true.

(** The questions put to pipeline [p]. *)
Definition questions_put_to (p : ref) (t : trace) : list string :=
  filter_map (fun en =>
                match en with
                | Called c _ =>
                    match c with
                    | qa_call pipe q _ => if Nat.eqb pipe p then Some q else None
                    | _ => None
                    end
                end) t.

(** The requests whose latency is taken: those made between two readings
    of the clock. *)
Fixpoint timed_requests (t : trace) : list Request :=
  match t with
  | [] => []
  | start :: t' =>
      match perf_reading start, t' with
      | Some _, en :: stop :: _ =>
          match request_of en, perf_reading stop with
          | Some r, Some _ => r :: timed_requests t'
          | _, _ => timed_requests t'
          end
      | _, _ => timed_requests t'
      end
  end.

(** The two requests [evaluate] makes for an example. *)
Definition example_requests (example : Example) : list Request :=
  [QARequest (ex_question example) (ex_context example);
   QARequest (ex_question example) (ex_context example)].

(** ** Version numbers *)

(** The numeric reading of a dotted version string, for comparison with
    the string order the setup cell uses: the components as numbers. *)
Fixpoint version_components (s : string) (current : N) : list N :=
  match s with
  | EmptyString => [current]
  | String c s' =>
      if Ascii.eqb c "." then current :: version_components s' 0%N
      else version_components s' (10 * current + (N_of_ascii c - 48))%N
  end.

Fixpoint components_lt (a b : list N) : bool :=
  match a, b with
  | [], [] => false
  | [], _ :: _ => true
  | _ :: _, [] => false
  | x :: a', y :: b' =>
      if (x <? y)%N then true else if (y <? x)%N then false else components_lt a' b'
  end.

(** [a] is an older version than [b], read as numbers. *)
Definition version_older (a b : string) : bool :=
  components_lt (version_components a 0%N) (version_components b 0%N).

(** ** What the loops do, call by call *)

Section Rounds.

Variable W : Type.
Variable h : handler W.

(** The answers of [n] warm-up calls of [c] from world [w], and the world
    they leave. *)
Fixpoint warmup_answers {X : Type} (c : extE X) (n : nat) (w : W) : list X * W :=
  match n with
  | O => ([], w)
  | S n' =>
      let (x, w1) := h c w in
      let (xs, w2) := warmup_answers c n' w1 in
      (x :: xs, w2)
  end.

(** The rounds of [n] timed calls of [c] from world [w]. *)
Fixpoint timed_rounds {X : Type} (c : extE X) (n : nat) (w : W) : list (Q * X * Q) * W :=
  match n with
  | O => ([], w)
  | S n' =>
      let (t1, w1) := h perf_counter w in
      let (x, w2) := h c w1 in
      let (t2, w3) := h perf_counter w2 in
      let (rs, w4) := timed_rounds c n' w3 in
      ((t1, x, t2) :: rs, w4)
  end.

(** The rounds of a pass over [ds] from world [w]. *)
Fixpoint evaluation_rounds (first second : ref) (ds : list Example) (w : W)
  : list eval_round * W :=
  match ds with
  | [] => ([], w)
  | example :: ds' =>
      let (d, w1) := h (qa_call first (ex_question example) (ex_context example)) w in
      let (o, w2) := h (qa_call second (ex_question example) (ex_context example)) w1 in
      let (rs, w3) := evaluation_rounds first second ds' w2 in
      ((example, d, o) :: rs, w3)
  end.

End Rounds.

Section Statistics.

Variable W : Type.
Variable h : handler W.
Variable np : numpy.

(** What [measure_latency] returns for a list of latencies. *)
Definition run_statistics (latencies : list Q) : Py.fstring * Q :=
  (latency_report (1000 * np_percentile np latencies 95)
                  (1000 * np_mean np latencies)
                  (1000 * np_std np latencies),
   (1000 * np_percentile np latencies 95)%Q).

(** A run of the benchmark on call [c] from world [w]: ten warm-up calls,
    then three hundred timed rounds. *)
Definition benchmark_run {X : Type} (c : extE X) (w : W)
  : outcome (Py.fstring * Q) * W * trace :=
  let (xs, w1) := warmup_answers h c 10 w in
  let (rs, w2) := timed_rounds h c 300 w1 in
  (Returned (run_statistics (map round_latency rs)), w2,
   warmup_trace c xs ++ timed_trace c rs).

End Statistics.

(** ** Statements about all runs *)

Section Observing.

Variable W : Type.
Variable h : handler W.
Variable O : Type.
Variable f : entry -> option O.

(** From every world, [p] ends with an outcome and observations that
    satisfy [P]. *)
Definition yields {A : Type} (p : Prog A) (P : outcome A -> list O -> Prop) : Prop :=
  forall w : W, P (fst (fst (run h p w))) (filter_map f (snd (run h p w))).

(** [p] always returns, and what is observed of it is [obs]. *)
Definition returns {A : Type} (p : Prog A) (obs : list O) : Prop :=
  yields p (fun r o => (exists a, r = Returned a) /\ o = obs).

Variable Inv : O -> Prop.

(** Every observation of every run of [p] satisfies [Inv]. *)
Definition always {A : Type} (p : Prog A) : Prop :=
  yields p (fun _ o => Forall Inv o).

End Observing.

(** ** A simulated environment, for running the notebooks on examples *)

Module Sim.

Local Open Scope string_scope.

(** What the libraries answer in a scenario. *)
Record Scenario : Type := {
  providers : list string;
  device : string;
  version : string;
  splits : DatasetDict;
  scores : MetricResult;
  response : Response;
  file_size : string -> Z
}.

(** The world is a counter: it numbers the objects the libraries create
    and is the clock. *)
Definition handle (s : Scenario) : handler nat :=
  fun X c w =>
    match c in extE X return X * nat with
    | pip_install _ => (tt, S w)
    | get_available_providers => (providers s, S w)
    | get_device => (device s, S w)
    | onnxruntime_version => (version s, S w)
    | ORTModelForQuestionAnswering_from_pretrained _ _ _ => (w, S w)
    | AutoTokenizer_from_pretrained _ => (w, S w)
    | save_pretrained _ _ => (tt, S w)
    | tokenizer_pair _ _ _ _ => (w, S w)
    | tokenizer_input_ids _ _ => (repeat 0%Z 128, S w)
    | pipeline _ _ _ _ => (w, S w)
    | pipeline_model_device _ => ("cuda:0", S w)
    | model_pipeline_task _ => ("question-answering", S w)
    | qa_call _ _ _ => (response s, S w)
    | text_call _ _ => ([{| label := "exchange_rate"; cls_score := 0.9802021384239197 |}], S w)
    | ORTOptimizer_from_pretrained _ _ => (w, S w)
    | optimizer_export _ _ out _ => (out, S w)
    | ORTQuantizer_from_pretrained _ _ => (w, S w)
    | quantizer_export _ _ out _ => (out, S w)
    | load_metric _ => (w, S w)
    | load_dataset _ => (splits s, S w)
    | metric_compute _ _ _ => (scores s, S w)
    | os_path_getsize path => (file_size s path, S w)
    | perf_counter => (inject_Z (Z.of_nat w), S w)
    | print _ => (tt, S w)
    | print_response _ => (tt, S w)
    end.

(** A stand-in for numpy, so that example runs can be evaluated: the mean,
    zero for the deviation, and the largest sample for the percentile. *)
Definition np_stub : numpy := {|
  np_mean := fun l => Qred (fold_right Qplus 0 l / inject_Z (Z.of_nat (List.length l)));
  np_std := fun _ => 0%Q;
  np_percentile := fun l _ => fold_right (fun a b => if Qle_bool b a then a else b) 0%Q l;
  np_truediv := fun a b => Qred (a / b);
  np_round := Py.round
|}.

(** [n] examples, numbered from [0]. *)
Definition example_number (i : nat) : Example := {|
  ex_id := Py.digits (Z.of_nat i);
  ex_title := "title";
  ex_context := "context " ++ Py.digits (Z.of_nat i);
  ex_question := "question " ++ Py.digits (Z.of_nat i);
  ex_answers := {| answers_text := ["answer"]; answers_start := [0%Z] |}
|}.

Definition examples (n : nat) : Dataset := map example_number (seq 0 n).

(** The answer recorded in the first notebook's output. *)
Definition recorded_response : Response := {|
  score := 0.6575328707695007;
  start := 88;
  end_ := 102;
  answer := "Technical Lead"
|}.

(** A machine with a GPU build of ONNX Runtime, and the scores the first
    notebook's output shows for the optimised model. *)
Definition gpu_machine : Scenario := {|
  providers := ["TensorrtExecutionProvider"; "CUDAExecutionProvider"; "CPUExecutionProvider"];
  device := "GPU";
  version := "1.12.0";
  splits := {| train := examples 2; validation := examples 3 |};
  scores := {| exact := 79.06; f1 := 86.8536859246896 |};
  response := recorded_response;
  file_size := fun _ => 268100000%Z
|}.

(** A scenario with other scores, another version, or another validation
    split. *)
Definition with_scores (s : Scenario) (m : MetricResult) : Scenario := {|
  providers := providers s; device := device s; version := version s;
  splits := splits s; scores := m; response := response s; file_size := file_size s
|}.

Definition with_version (s : Scenario) (v : string) : Scenario := {|
  providers := providers s; device := device s; version := v;
  splits := splits s; scores := scores s; response := response s; file_size := file_size s
|}.

Definition with_validation (s : Scenario) (ds : Dataset) : Scenario := {|
  providers := providers s; device := device s; version := version s;
  splits := {| train := train (splits s); validation := ds |};
  scores := scores s; response := response s; file_size := file_size s
|}.

Definition with_sizes (s : Scenario) (size : string -> Z) : Scenario := {|
  providers := providers s; device := device s; version := version s;
  splits := splits s; scores := scores s; response := response s; file_size := size
|}.

(** The same machine with a metric that gives two scores in turn: [first]
    when asked in an even world, [second] in an odd one. *)
Definition scored_in_turn (s : Scenario) (first second : MetricResult) : handler nat :=
  fun X c w =>
    match c in extE X return X * nat with
    | metric_compute _ _ _ => (if Nat.even w then first else second, S w)
    | c' => handle s c' w
    end.

(** The same, without the CUDA provider. *)
Definition cpu_machine : Scenario := {|
  providers := ["CPUExecutionProvider"];
  device := "CPU";
  version := "1.12.0";
  splits := splits gpu_machine;
  scores := scores gpu_machine;
  response := recorded_response;
  file_size := file_size gpu_machine
|}.

End Sim.

(** The machine of [Sim.gpu_machine] with another exact-match score and
    the same F1. *)
Definition other_exact_match : Sim.Scenario :=
  Sim.with_scores Sim.gpu_machine {| exact := 50; f1 := f1 (Sim.scores Sim.gpu_machine) |}.

(** The second notebook in a kernel whose namespace binds the names it
    reads, and a machine whose validation split has 1001 examples. *)
Definition second_notebook_example : Prog unit :=
  Notebook2.notebook "text" "question-answering" 100%nat 101%nat 102%nat
                     (Sim.scores Sim.gpu_machine) 0.9224025974025974 Sim.np_stub.

Definition long_validation : Sim.Scenario :=
  Sim.with_validation Sim.gpu_machine (Sim.examples 1001).

(** ** Clocks *)

(** A clock that never goes back: [clock] gives the time of a world, no
    call leaves the time before where it was, and a reading of
    [perf_counter] lies between the time before and the time after the
    call that reads it. *)
Definition monotone_clock {W : Type} (h : handler W) (clock : W -> Q) : Prop :=
  (forall (X : Type) (c : extE X) (w : W), clock w <= clock (snd (h X c w))) /\
  (forall w : W,
      clock w <= fst (h _ perf_counter w) /\
      fst (h _ perf_counter w) <= clock (snd (h _ perf_counter w))).

(** [l] is in order and lies between [lo] and [hi]. *)
Fixpoint in_order (lo : Q) (l : list Q) (hi : Q) : Prop :=
  match l with
  | [] => lo <= hi
  | a :: l' => lo <= a /\ in_order a l' hi
  end.

(** ** Scoring *)

(** What a run loads to score the models, and what it gives to
    [metric.compute]. *)
Inductive Scoring : Type :=
| LoadsMetric (name : string) (metric : ref)
| LoadsDataset (name : string) (splits : DatasetDict)
| Scores (metric : ref) (predictions : list Prediction) (references : list Reference).

Definition scoring_of (en : entry) : option Scoring :=
  match en with
  | Called c x =>
      match c in extE X return X -> option Scoring with
      | load_metric name => fun metric => Some (LoadsMetric name metric)
      | load_dataset name => fun splits => Some (LoadsDataset name splits)
      | metric_compute metric predictions references =>
          fun _ => Some (Scores metric predictions references)
      | _ => fun _ => None
      end x
  end.

Definition scoring (t : trace) : list Scoring := filter_map scoring_of t.

(** Predictions and references that follow the examples of [ds] one for
    one: the same ids in the same order, the examples' answers in the
    references, and [nap] as ['no_answer_probability'] of every
    prediction. *)
Definition aligned (nap : option Q) (ds : Dataset)
           (predictions : list Prediction) (references : list Reference) : Prop :=
  map pred_id predictions = map ex_id ds /\
  map ref_id references = map ex_id ds /\
  map ref_answers references = map ex_answers ds /\
  Forall (fun p => no_answer_probability p = nap) predictions.

(** Two calls of [metric.compute] on [metric], over the same references. *)
Definition scores_both (nap : option Q) (metric : ref) (ds : Dataset) (o : list Scoring) : Prop :=
  exists (vanilla optimised : list Prediction) (references : list Reference),
    o = [Scores metric vanilla references; Scores metric optimised references] /\
    aligned nap ds vanilla references /\
    aligned nap ds optimised references.

Definition first_notebook_scoring (r : outcome unit) (o : list Scoring) : Prop :=
  match r with
  | Raised (Py.AssertionError _) => o = []
  | _ =>
      exists (unused metric : ref) (splits : DatasetDict) (o' : list Scoring),
        o = LoadsMetric "squad_v2" unused :: LoadsMetric "squad" metric ::
            LoadsDataset "squad" splits :: o' /\
        scores_both None metric (validation splits) o'
  end.

Definition second_notebook_scoring (o : list Scoring) : Prop :=
  exists (metric : ref) (splits : DatasetDict) (o' : list Scoring),
    o = LoadsMetric "squad_v2" metric :: LoadsDataset "squad_v2" splits :: o' /\
    scores_both (Some 0) metric (firstn 1000 (validation splits)) o'.

(** ** Models, pipelines and who is asked *)

(** The library answers [load_dataset name] with a validation split of at
    least [n] examples. *)
Definition validation_at_least {W : Type} (h : handler W) (name : string) (n : nat) : Prop :=
  forall w : W, (n <= List.length (validation (fst (h _ (load_dataset name) w))))%nat.






(** ** Files that are read *)

(** How a call uses the files on disk: [save_pretrained] writes into a
    directory, an export reads one file and writes another, and
    [os.path.getsize] reads a file's size. *)
Inductive FileUse : Type :=
| Saves (dir : string)
| Converts (input output : string)
| Measures (path : string).

Definition file_use_of (en : entry) : option FileUse :=
  match en with
  | Called c _ =>
      match c with
      | save_pretrained _ dir => Some (Saves dir)
      | optimizer_export _ input output _ => Some (Converts input output)
      | quantizer_export _ input output _ => Some (Converts input output)
      | os_path_getsize path => Some (Measures path)
      | _ => None
      end
  end.

Definition file_uses (t : trace) : list FileUse := filter_map file_use_of t.

(** [path] is one of the [written] paths, or lies in a written
    directory. *)
Definition available (written : list string) (path : string) : bool :=
  existsb (fun p => String.eqb p path || String.prefix (p ++ "/") path) written.

(** Every file that is read was written, or lies in a directory that was
    written, earlier in the list. *)
Fixpoint reads_follow_writes (written : list string) (uses : list FileUse) : bool :=
  match uses with
  | [] => true
  | Saves dir :: rest => reads_follow_writes (dir :: written) rest
  | Converts input output :: rest =>
      available written input && reads_follow_writes (output :: written) rest
  | Measures path :: rest => available written path && reads_follow_writes written rest
  end.

(** An export that does not write over the file it reads. *)
Definition keeps_its_input (u : FileUse) : bool :=
  match u with
  | Converts input output => negb (String.eqb input output)
  | _ => true
  end.

(** * Proofs *)

(** The literal [0.925] is not zero as a float. *)
Lemma truediv_by_literal (a : Q) :
  Py.truediv a (Py.float 0.925) = inr (Py.float (a / Py.float 0.925)).
Proof.
  unfold Py.truediv.
  replace (Qeq_bool (Py.float 0.925) 0) with false by (vm_compute; reflexivity).
  reflexivity.
Qed.

(** ** Facts about [run] *)

Section RunFacts.

Variable W : Type.
Variable h : handler W.

Lemma run_bind (A B : Type) (m : Prog A) (f : A -> Prog B) (w : W) :
  run h (bind m f) w =
  match run h m w with
  | (Returned a, w1, t1) => let '(r, w2, t2) := run h (f a) w1 in (r, w2, t1 ++ t2)
  | (Raised e, w1, t1) => (Raised e, w1, t1)
  end.
Proof.
  revert w. induction m as [a | e | X c k IH]; intros w; simpl.
  - destruct (run h (f a) w) as [[r w2] t2]. reflexivity.
  - reflexivity.
  - destruct (h c w) as [x w1]. rewrite IH.
    destruct (run h (k x) w1) as [[[a | e] w2] t1]; [ | reflexivity ].
    destruct (run h (f a) w2) as [[r w3] t2]. reflexivity.
Qed.

Lemma run_trigger (X : Type) (c : extE X) (w : W) :
  run h (trigger c) w = (Returned (fst (h c w)), snd (h c w), [Called c (fst (h c w))]).
Proof.
  unfold trigger. simpl. destruct (h c w) as [x w1]. reflexivity.
Qed.

Lemma warmup_answers_length (X : Type) (c : extE X) (n : nat) (w : W) :
  List.length (fst (warmup_answers h c n w)) = n.
Proof.
  revert w. induction n as [| n IH]; intros w; simpl; [ reflexivity | ].
  destruct (h c w) as [x w1]. specialize (IH w1).
  destruct (warmup_answers h c n w1) as [xs w2]. simpl in *. now rewrite IH.
Qed.

Lemma timed_rounds_length (X : Type) (c : extE X) (n : nat) (w : W) :
  List.length (fst (timed_rounds h c n w)) = n.
Proof.
  revert w. induction n as [| n IH]; intros w; simpl; [ reflexivity | ].
  destruct (h perf_counter w) as [t1 w1]. destruct (h c w1) as [x w2].
  destruct (h perf_counter w2) as [t2 w3]. specialize (IH w3).
  destruct (timed_rounds h c n w3) as [rs w4]. simpl in *. now rewrite IH.
Qed.

(** The warm-up loop calls [c] and keeps nothing. *)
Lemma run_warmup_loop (X : Type) (c : extE X) (n : nat) (w : W) :
  run h (for_range n (fun _ : unit => trigger c ;; Ret tt) tt) w =
  (Returned tt, snd (warmup_answers h c n w), warmup_trace c (fst (warmup_answers h c n w))).
Proof.
  revert w. induction n as [| n IH]; intros w; simpl; [ reflexivity | ].
  destruct (h c w) as [x w1]. rewrite IH.
  destruct (warmup_answers h c n w1) as [xs w2]. reflexivity.
Qed.

(** The timed loop appends one latency per round to the list it was
    given. *)
Lemma run_timed_loop (X : Type) (c : extE X) (n : nat) (acc : list Q) (w : W) :
  run h (for_range n (fun latencies : list Q =>
           start_time <- trigger perf_counter ;;
           trigger c ;;
           now <- trigger perf_counter ;;
           Ret (latencies ++ [(now - start_time)%Q])) acc) w =
  (Returned (acc ++ map round_latency (fst (timed_rounds h c n w))),
   snd (timed_rounds h c n w),
   timed_trace c (fst (timed_rounds h c n w))).
Proof.
  revert acc w. induction n as [| n IH]; intros acc w; simpl.
  - now rewrite app_nil_r.
  - destruct (h perf_counter w) as [t1 w1]. destruct (h c w1) as [x w2].
    destruct (h perf_counter w2) as [t2 w3]. rewrite IH.
    destruct (timed_rounds h c n w3) as [rs w4]. simpl.
    now rewrite <- app_assoc.
Qed.

End RunFacts.

(** Reading the clock values back from a benchmark trace. *)
Lemma filter_map_app (A B : Type) (f : A -> option B) (l1 l2 : list A) :
  filter_map f (l1 ++ l2) = filter_map f l1 ++ filter_map f l2.
Proof.
  induction l1 as [| a l1 IH]; simpl; [ reflexivity | ].
  destruct (f a); simpl; now rewrite IH.
Qed.

Lemma perf_readings_warmup (X : Type) (c : extE X) (answers : list X) :
  (forall x, perf_reading (Called c x) = None) ->
  perf_readings (warmup_trace c answers) = [].
Proof.
  intros Hc. unfold perf_readings, warmup_trace.
  induction answers as [| x xs IH]; [ reflexivity | ].
  cbn [map filter_map]. rewrite Hc. exact IH.
Qed.

Lemma timed_latencies_timed_trace (X : Type) (c : extE X) (rounds : list (Q * X * Q)) :
  (forall x, perf_reading (Called c x) = None) ->
  pair_differences (perf_readings (timed_trace c rounds)) = map round_latency rounds.
Proof.
  intros Hc. unfold perf_readings, timed_trace.
  induction rounds as [| [[t1 x] t2] rs IH]; [ reflexivity | ].
  cbn [flat_map timed_round app filter_map].
  change (perf_reading (Called perf_counter t1)) with (Some t1).
  change (perf_reading (Called perf_counter t2)) with (Some t2).
  rewrite Hc. cbn [pair_differences map round_latency]. now rewrite IH.
Qed.

Lemma timed_latencies_benchmark (X : Type) (c : extE X) (answers : list X)
      (rounds : list (Q * X * Q)) :
  (forall x, perf_reading (Called c x) = None) ->
  timed_latencies (warmup_trace c answers ++ timed_trace c rounds) = map round_latency rounds.
Proof.
  intros Hc. unfold timed_latencies, perf_readings.
  rewrite filter_map_app.
  change (filter_map perf_reading (warmup_trace c answers))
    with (perf_readings (warmup_trace c answers)).
  rewrite (perf_readings_warmup _ _ Hc). simpl.
  exact (timed_latencies_timed_trace _ _ Hc).
Qed.

(** ** [measure_latency] *)

Section MeasureLatency.

Variable W : Type.
Variable h : handler W.
Variable np : numpy.

Ltac run_benchmark :=
  unfold benchmark_run;
  rewrite run_bind, run_warmup_loop;
  match goal with
  | |- context [warmup_answers h ?c 10 ?w] =>
      destruct (warmup_answers h c 10 w) as [xs w1]
  end;
  cbn [fst snd];
  rewrite run_bind, run_timed_loop;
  match goal with
  | |- context [timed_rounds h ?c 300 ?w] =>
      destruct (timed_rounds h c 300 w) as [rs w2]
  end;
  cbn [fst snd run app];
  rewrite app_nil_r;
  reflexivity.

Lemma run_measure_latency_1 (pipe : ref) (w : W) :
  run h (Notebook1.measure_latency np pipe) w =
  benchmark_run h np (qa_call pipe question context) w.
Proof. unfold Notebook1.measure_latency. run_benchmark. Qed.

Lemma run_measure_latency_2 (pipe : ref) (w : W) :
  run h (Notebook2.measure_latency np pipe) w =
  benchmark_run h np (text_call pipe Notebook2.payload) w.
Proof. unfold Notebook2.measure_latency. run_benchmark. Qed.

Lemma benchmark_run_statistics (X : Type) (c : extE X) (w : W) :
  (forall x, perf_reading (Called c x) = None) ->
  fst (fst (benchmark_run h np c w)) =
  Returned (run_statistics np (timed_latencies (snd (benchmark_run h np c w)))).
Proof.
  intros Hc. unfold benchmark_run.
  destruct (warmup_answers h c 10 w) as [xs w1].
  destruct (timed_rounds h c 300 w1) as [rs w2].
  cbn [fst snd]. now rewrite (timed_latencies_benchmark _ _ _ Hc).
Qed.

Lemma benchmark_run_shape (X : Type) (c : extE X) (w : W) :
  exists (answers : list X) (rounds : list (Q * X * Q)),
    List.length answers = 10%nat /\
    List.length rounds = 300%nat /\
    snd (benchmark_run h np c w) = warmup_trace c answers ++ timed_trace c rounds /\
    fst (fst (benchmark_run h np c w)) = Returned (run_statistics np (map round_latency rounds)).
Proof.
  unfold benchmark_run.
  pose proof (warmup_answers_length h c 10 w) as Hx.
  destruct (warmup_answers h c 10 w) as [xs w1].
  pose proof (timed_rounds_length h c 300 w1) as Hr.
  destruct (timed_rounds h c 300 w1) as [rs w2].
  exists xs, rs. cbn [fst snd] in *. auto.
Qed.

End MeasureLatency.

(** C1. For every pipeline and every behaviour of the libraries,
    [measure_latency] (in both notebooks) returns statistics of exactly the
    latencies its run recorded: the average is 1000 times numpy's mean of
    them, the deviation 1000 times numpy's std, the P95 1000 times numpy's
    95th percentile, and the second component of the pair is that P95
    value. *)
Theorem measure_latency_statistics :
  forall (W : Type) (h : handler W) (np : numpy) (pipe : ref) (w : W),
    (let '(result, _, t) := run h (Notebook1.measure_latency np pipe) w in
     let samples := timed_latencies t in
     result = Returned (latency_report (1000 * np_percentile np samples 95)
                                       (1000 * np_mean np samples)
                                       (1000 * np_std np samples),
                        (1000 * np_percentile np samples 95)%Q)) /\
    (let '(result, _, t) := run h (Notebook2.measure_latency np pipe) w in
     let samples := timed_latencies t in
     result = Returned (latency_report (1000 * np_percentile np samples 95)
                                       (1000 * np_mean np samples)
                                       (1000 * np_std np samples),
                        (1000 * np_percentile np samples 95)%Q)).
Proof.
  intros W h np pipe w. split.
  - rewrite run_measure_latency_1.
    pose proof (@benchmark_run_statistics W h np _ (qa_call pipe question context) w
                  (fun _ => eq_refl)) as H.
    destruct (benchmark_run h np (qa_call pipe question context) w) as [[result w'] t].
    exact H.
  - rewrite run_measure_latency_2.
    pose proof (@benchmark_run_statistics W h np _ (text_call pipe Notebook2.payload) w
                  (fun _ => eq_refl)) as H.
    destruct (benchmark_run h np (text_call pipe Notebook2.payload) w) as [[result w'] t].
    exact H.
Qed.

(** C3. For every pipeline, a run of [measure_latency] is ten warm-up calls
    followed by three hundred timed rounds, each round being one clock
    reading, one pipeline call and one more clock reading.  The latencies
    are the three hundred differences of the rounds' two readings, the
    statistics returned are those of these latencies, and the warm-up calls
    read no clock and add no sample. *)
Theorem measure_latency_fixed_sample :
  forall (W : Type) (h : handler W) (np : numpy) (pipe : ref) (w : W),
    (exists (answers : list Response) (rounds : list (Q * Response * Q)),
        List.length answers = 10%nat /\
        List.length rounds = 300%nat /\
        snd (run h (Notebook1.measure_latency np pipe) w) =
          warmup_trace (qa_call pipe question context) answers ++
          timed_trace (qa_call pipe question context) rounds /\
        timed_latencies (snd (run h (Notebook1.measure_latency np pipe) w)) =
          map round_latency rounds /\
        perf_readings (warmup_trace (qa_call pipe question context) answers) = [] /\
        fst (fst (run h (Notebook1.measure_latency np pipe) w)) =
          Returned (run_statistics np (map round_latency rounds))) /\
    (exists (answers : list (list Classification)) (rounds : list (Q * list Classification * Q)),
        List.length answers = 10%nat /\
        List.length rounds = 300%nat /\
        snd (run h (Notebook2.measure_latency np pipe) w) =
          warmup_trace (text_call pipe Notebook2.payload) answers ++
          timed_trace (text_call pipe Notebook2.payload) rounds /\
        timed_latencies (snd (run h (Notebook2.measure_latency np pipe) w)) =
          map round_latency rounds /\
        perf_readings (warmup_trace (text_call pipe Notebook2.payload) answers) = [] /\
        fst (fst (run h (Notebook2.measure_latency np pipe) w)) =
          Returned (run_statistics np (map round_latency rounds))).
Proof.
  intros W h np pipe w. split.
  - rewrite run_measure_latency_1.
    destruct (benchmark_run_shape h np (qa_call pipe question context) w)
      as (answers & rounds & Ha & Hr & Ht & Hres).
    exists answers, rounds. rewrite Ht, Hres.
    repeat split; auto.
    + apply timed_latencies_benchmark. reflexivity.
    + apply perf_readings_warmup. reflexivity.
  - rewrite run_measure_latency_2.
    destruct (benchmark_run_shape h np (text_call pipe Notebook2.payload) w)
      as (answers & rounds & Ha & Hr & Ht & Hres).
    exists answers, rounds. rewrite Ht, Hres.
    repeat split; auto.
    + apply timed_latencies_benchmark. reflexivity.
    + apply perf_readings_warmup. reflexivity.
Qed.

(** ** The evaluation loop *)

Section Evaluation.

Variable W : Type.
Variable h : handler W.

Lemma evaluation_rounds_examples (first second : ref) (ds : list Example) (w : W) :
  map round_example (fst (evaluation_rounds h first second ds w)) = ds.
Proof.
  revert w. induction ds as [| example ds IH]; intros w; simpl; [ reflexivity | ].
  destruct (h (qa_call first (ex_question example) (ex_context example)) w) as [d w1].
  destruct (h (qa_call second (ex_question example) (ex_context example)) w1) as [o w2].
  specialize (IH w2).
  destruct (evaluation_rounds h first second ds w2) as [rs w3].
  simpl in *. now rewrite IH.
Qed.

Lemma run_map_evaluate_1 (vanilla_qa optimized_qa : ref) (ds : list Example) (w : W) :
  run h (Dataset_map (Notebook1.evaluate vanilla_qa optimized_qa) ds) w =
  (Returned (map (eval_record None) (fst (evaluation_rounds h vanilla_qa optimized_qa ds w))),
   snd (evaluation_rounds h vanilla_qa optimized_qa ds w),
   flat_map (eval_round_trace vanilla_qa optimized_qa)
            (fst (evaluation_rounds h vanilla_qa optimized_qa ds w))).
Proof.
  revert w. induction ds as [| example ds IH]; intros w; [ reflexivity | ].
  cbn [Dataset_map]. rewrite run_bind. unfold Notebook1.evaluate at 1.
  cbn [bind trigger run evaluation_rounds].
  destruct (h (qa_call vanilla_qa (ex_question example) (ex_context example)) w) as [d w1].
  destruct (h (qa_call optimized_qa (ex_question example) (ex_context example)) w1) as [o w2].
  rewrite run_bind, IH.
  destruct (evaluation_rounds h vanilla_qa optimized_qa ds w2) as [rs w3].
  cbn [fst snd run app map flat_map eval_round_trace eval_record].
  now rewrite app_nil_r.
Qed.

Lemma run_map_evaluate_2 (optimum_qa opt_optimum_qa : ref) (ds : list Example) (w : W) :
  run h (Dataset_map (Notebook2.evaluate optimum_qa opt_optimum_qa) ds) w =
  (Returned (map (eval_record (Some 0%Q)) (fst (evaluation_rounds h optimum_qa opt_optimum_qa ds w))),
   snd (evaluation_rounds h optimum_qa opt_optimum_qa ds w),
   flat_map (eval_round_trace optimum_qa opt_optimum_qa)
            (fst (evaluation_rounds h optimum_qa opt_optimum_qa ds w))).
Proof.
  revert w. induction ds as [| example ds IH]; intros w; [ reflexivity | ].
  cbn [Dataset_map]. rewrite run_bind. unfold Notebook2.evaluate at 1.
  cbn [bind trigger run evaluation_rounds].
  destruct (h (qa_call optimum_qa (ex_question example) (ex_context example)) w) as [d w1].
  destruct (h (qa_call opt_optimum_qa (ex_question example) (ex_context example)) w1) as [o w2].
  rewrite run_bind, IH.
  destruct (evaluation_rounds h optimum_qa opt_optimum_qa ds w2) as [rs w3].
  cbn [fst snd run app map flat_map eval_round_trace eval_record].
  now rewrite app_nil_r.
Qed.

End Evaluation.

(** C9. Whatever the pipelines answer, the record [evaluate] returns for
    an example carries the example's id in its reference, default and
    optimized entries, and the example's answers, unchanged, in the
    reference entry (both notebooks). *)
Theorem evaluate_id_consistent :
  forall (W : Type) (h : handler W) (first second : ref) (example : Example) (w : W),
    (exists r : EvalRecord,
        fst (fst (run h (Notebook1.evaluate first second example) w)) = Returned r /\
        ref_id (reference r) = ex_id example /\
        pred_id (default r) = ex_id example /\
        pred_id (optimized r) = ex_id example /\
        ref_answers (reference r) = ex_answers example) /\
    (exists r : EvalRecord,
        fst (fst (run h (Notebook2.evaluate first second example) w)) = Returned r /\
        ref_id (reference r) = ex_id example /\
        pred_id (default r) = ex_id example /\
        pred_id (optimized r) = ex_id example /\
        ref_answers (reference r) = ex_answers example).
Proof.
  intros W h first second example w. split.
  - unfold Notebook1.evaluate. cbn [bind trigger run].
    destruct (h _ (qa_call first (ex_question example) (ex_context example)) w) as [d w1].
    destruct (h _ (qa_call second (ex_question example) (ex_context example)) w1) as [o w2].
    eexists. cbn. repeat split.
  - unfold Notebook2.evaluate. cbn [bind trigger run].
    destruct (h _ (qa_call first (ex_question example) (ex_context example)) w) as [d w1].
    destruct (h _ (qa_call second (ex_question example) (ex_context example)) w1) as [o w2].
    eexists. cbn. repeat split.
Qed.

(** ** Observing runs *)

Section Yields.

Variable W : Type.
Variable h : handler W.
Variable O : Type.
Variable f : entry -> option O.

Lemma yields_ret (A : Type) (a : A) (P : outcome A -> list O -> Prop) :
  P (Returned a) [] -> yields h f (Ret a) P.
Proof. intros H w. exact H. Qed.

Lemma yields_raise (A : Type) (e : Py.exn) (P : outcome A -> list O -> Prop) :
  P (Raised e) [] -> yields h f (Raise e) P.
Proof. intros H w. exact H. Qed.

Lemma yields_vis (A X : Type) (c : extE X) (k : X -> Prog A)
      (P : outcome A -> list O -> Prop) :
  (forall x, yields h f (k x) (fun r o => P r (filter_map f [Called c x] ++ o))) ->
  yields h f (Vis c k) P.
Proof.
  intros H w. cbn [run]. destruct (h c w) as [x w1]. specialize (H x w1).
  destruct (run h (k x) w1) as [[r w2] t]. cbn [fst snd] in *.
  change (Called c x :: t) with ([Called c x] ++ t).
  now rewrite filter_map_app.
Qed.

Lemma yields_bind (A B : Type) (m : Prog A) (k : A -> Prog B)
      (Q : outcome A -> list O -> Prop) (P : outcome B -> list O -> Prop) :
  yields h f m Q ->
  (forall a o1, Q (Returned a) o1 -> yields h f (k a) (fun r o2 => P r (o1 ++ o2))) ->
  (forall e o1, Q (Raised e) o1 -> P (Raised e) o1) ->
  yields h f (bind m k) P.
Proof.
  intros Hm Hk He w. rewrite run_bind. specialize (Hm w).
  destruct (run h m w) as [[[a | e] w1] t1]; cbn [fst snd] in *.
  - specialize (Hk a _ Hm w1).
    destruct (run h (k a) w1) as [[r w2] t2]. cbn [fst snd] in *.
    now rewrite filter_map_app.
  - now apply He.
Qed.

Lemma yields_weaken (A : Type) (p : Prog A) (P Q : outcome A -> list O -> Prop) :
  yields h f p P -> (forall r o, P r o -> Q r o) -> yields h f p Q.
Proof. intros Hp HPQ w. apply HPQ, Hp. Qed.

(** Sequencing after a program that always returns. *)
Lemma yields_after (A B : Type) (m : Prog A) (k : A -> Prog B) (obs : list O)
      (P : outcome B -> list O -> Prop) :
  returns h f m obs ->
  (forall a, yields h f (k a) (fun r o => P r (obs ++ o))) ->
  yields h f (bind m k) P.
Proof.
  intros Hm Hk. apply yields_bind with (Q := fun r o => (exists a, r = Returned a) /\ o = obs).
  - exact Hm.
  - intros a o1 [_ ->]. apply Hk.
  - intros e o1 [[a Ha] _]. discriminate Ha.
Qed.

Lemma returns_ret (A : Type) (a : A) : returns h f (Ret a) [].
Proof. apply yields_ret. split; [ now exists a | reflexivity ]. Qed.

Lemma returns_trigger (X : Type) (c : extE X) (obs : list O) :
  (forall x, filter_map f [Called c x] = obs) -> returns h f (trigger c) obs.
Proof.
  intros Hc. apply yields_vis. intros x. apply yields_ret.
  split; [ now exists x | ]. now rewrite app_nil_r.
Qed.

Lemma returns_bind (A B : Type) (m : Prog A) (k : A -> Prog B) (o1 o2 : list O) :
  returns h f m o1 -> (forall a, returns h f (k a) o2) -> returns h f (bind m k) (o1 ++ o2).
Proof.
  intros Hm Hk. apply yields_after with (obs := o1); [ exact Hm | ].
  intros a. apply yields_weaken with (1 := Hk a).
  intros r o [Hr ->]. now split.
Qed.

(** A loop whose body is observed the same way in every round. *)
Lemma returns_for_range (St : Type) (body : St -> Prog St) (obs : list O) (n : nat) (s : St) :
  (forall s', returns h f (body s') obs) ->
  returns h f (for_range n body s) (repeat_list n obs).
Proof.
  intros Hb. revert s. induction n as [| n IH]; intros s; cbn [for_range repeat_list].
  - apply returns_ret.
  - apply returns_bind; [ apply Hb | apply IH ].
Qed.

Lemma returns_Dataset_map (A B : Type) (g : A -> Prog B) (obs : list O) (ds : list A) :
  (forall a, returns h f (g a) obs) ->
  returns h f (Dataset_map g ds) (repeat_list (List.length ds) obs).
Proof.
  intros Hg. induction ds as [| a ds IH]; cbn [Dataset_map List.length repeat_list].
  - apply returns_ret.
  - apply returns_bind; [ apply Hg | ].
    intros y. rewrite <- (app_nil_r (repeat_list _ _)).
    apply returns_bind; [ exact IH | ]. intros ys. apply returns_ret.
Qed.

(** The same, when what is observed of a round depends on its example. *)
Lemma returns_Dataset_map_each (A B : Type) (g : A -> Prog B) (obs : A -> list O)
      (ds : list A) :
  (forall a, returns h f (g a) (obs a)) ->
  returns h f (Dataset_map g ds) (flat_map obs ds).
Proof.
  intros Hg. induction ds as [| a ds IH]; cbn [Dataset_map flat_map].
  - apply returns_ret.
  - apply returns_bind; [ apply Hg | ].
    intros y. rewrite <- (app_nil_r (flat_map obs ds)).
    apply returns_bind; [ exact IH | ]. intros ys. apply returns_ret.
Qed.

End Yields.

(** ** The order of the steps *)

Lemma repeat_list_nil (A : Type) (n : nat) : repeat_list n (@nil A) = [].
Proof. induction n as [| n IH]; [ reflexivity | exact IH ]. Qed.

(** Straight-line code: follow the calls one by one. *)
Ltac follow_calls :=
  repeat (apply yields_vis; intros ?);
  apply yields_ret; cbn;
  try (split; [ eexists; reflexivity | reflexivity ]).

Section StepOrder.

Variable W : Type.
Variable h : handler W.
Variable np : numpy.

Lemma steps_measure_latency_1 (pipe : ref) :
  returns h step_of (Notebook1.measure_latency np pipe) (repeat_list 300 [Benchmark; Benchmark]).
Proof.
  unfold Notebook1.measure_latency.
  change (repeat_list 300 [Benchmark; Benchmark])
    with ([] ++ (repeat_list 300 [Benchmark; Benchmark] ++ [])).
  apply returns_bind.
  - rewrite <- (repeat_list_nil Step 10). apply returns_for_range.
    intros []. cbn [bind trigger]. follow_calls.
  - intros _. apply returns_bind.
    + apply returns_for_range. intros latencies. cbn [bind trigger]. follow_calls.
    + intros latencies. apply returns_ret.
Qed.

Lemma steps_measure_latency_2 (pipe : ref) :
  returns h step_of (Notebook2.measure_latency np pipe) (repeat_list 300 [Benchmark; Benchmark]).
Proof.
  unfold Notebook2.measure_latency.
  change (repeat_list 300 [Benchmark; Benchmark])
    with ([] ++ (repeat_list 300 [Benchmark; Benchmark] ++ [])).
  apply returns_bind.
  - rewrite <- (repeat_list_nil Step 10). apply returns_for_range.
    intros []. cbn [bind trigger]. follow_calls.
  - intros _. apply returns_bind.
    + apply returns_for_range. intros latencies. cbn [bind trigger]. follow_calls.
    + intros latencies. apply returns_ret.
Qed.

Lemma steps_setup_cell :
  yields h step_of Notebook1.setup_cell
         (fun r o => o = [] /\ (r = Returned tt \/ exists msg, r = Raised (Py.AssertionError msg))).
Proof.
  unfold Notebook1.setup_cell. cbn [bind trigger].
  apply yields_vis. intros providers.
  destruct (Py.str_in "CUDAExecutionProvider" providers); cbn [py_assert bind];
    [ | apply yields_raise; cbn; eauto ].
  apply yields_vis. intros device.
  destruct (String.eqb "GPU" device); cbn [py_assert bind];
    [ | apply yields_raise; cbn; eauto ].
  apply yields_vis. intros version.
  destruct (Py.str_gt version "1.11.1"); cbn [py_assert];
    [ apply yields_ret | apply yields_raise ]; cbn; eauto.
Qed.

Lemma steps_evaluation_cell (vanilla_qa optimized_qa metric : ref) (ds : Dataset) :
  yields h step_of (Notebook1.evaluation_cell vanilla_qa optimized_qa metric ds)
         (fun r o => o = [Evaluate; Evaluate] /\
                     (r = Returned tt \/ r = Raised Py.ZeroDivisionError)).
Proof.
  unfold Notebook1.evaluation_cell.
  apply yields_after with (obs := @nil Step).
  - rewrite <- (repeat_list_nil Step (List.length ds)). apply returns_Dataset_map.
    intros example. unfold Notebook1.evaluate. cbn [bind trigger]. follow_calls.
  - intros result. cbn [bind trigger].
    apply yields_vis. intros default_acc. apply yields_vis. intros optimised.
    apply yields_vis. intros []. apply yields_vis. intros [].
    unfold Py.truediv. destruct (Qeq_bool (f1 default_acc) 0); cbn [lift bind].
    + apply yields_raise. cbn. auto.
    + apply yields_vis. intros []. apply yields_ret. cbn. auto.
Qed.

Lemma steps_notebook_1 : yields h step_of (Notebook1.notebook np) first_notebook_steps.
Proof.
  unfold Notebook1.notebook.
  apply yields_after with (obs := @nil Step).
  { unfold Notebook1.install_cell. now apply returns_trigger. }
  intros _.
  apply yields_bind with (1 := steps_setup_cell).
  2: { intros e o1 [-> [Hr | [msg Hr]]]; [ discriminate Hr | ].
       injection Hr as ->. reflexivity. }
  intros _ o1 [-> _].
  apply yields_after with (obs := [Export]).
  { unfold Notebook1.export_cell. cbn [bind trigger]. follow_calls. }
  intros [model tokenizer].
  apply yields_after with (obs := @nil Step).
  { unfold Notebook1.pipeline_cell. cbn [bind trigger]. follow_calls. }
  intros vanilla_qa.
  apply yields_after with (obs := [Optimize]).
  { unfold Notebook1.optimize_cell. cbn [bind trigger]. follow_calls. }
  intros _.
  apply yields_after with (obs := [Reload]).
  { unfold Notebook1.reload_cell. cbn [bind trigger]. follow_calls. }
  intros optimized_qa.
  apply yields_after with (obs := @nil Step).
  { unfold Notebook1.trfs_cell. now apply returns_trigger. }
  intros trfs_qa.
  apply yields_after with (obs := @nil Step).
  { unfold Notebook1.dataset_cell. cbn [bind trigger]. follow_calls. }
  intros [metric eval_dataset].
  apply yields_bind with (1 := steps_evaluation_cell vanilla_qa optimized_qa metric eval_dataset).
  2: { intros e o1 [-> [Hr | Hr]]; [ discriminate Hr | ].
       injection Hr as ->. reflexivity. }
  intros _ o1 [-> _].
  unfold Notebook1.benchmark_cell.
  apply yields_after with (1 := steps_measure_latency_1 vanilla_qa). intros vanilla_model.
  apply yields_after with (1 := steps_measure_latency_1 optimized_qa). intros optimized_model.
  cbn [bind trigger]. repeat (apply yields_vis; intros ?). apply yields_ret.
  vm_compute. reflexivity.
Qed.

End StepOrder.

Section StepOrder2.

Variable W : Type.
Variable h : handler W.
Variable np : numpy.
Variables (text task : string) (optimum_qa opt_optimum_qa clx : ref).
Variable quantized : MetricResult.
Variable results_accuracy : Q.

Lemma steps_metrics_cell (metric : ref) (result : list EvalRecord) :
  returns h step_of (Notebook2.metrics_cell quantized results_accuracy metric result)
          [Evaluate; Evaluate].
Proof.
  unfold Notebook2.metrics_cell. cbn [bind trigger].
  do 7 (apply yields_vis; intros ?).
  rewrite truediv_by_literal.
  cbn [lift bind]. follow_calls.
Qed.

Lemma steps_notebook_2 :
  yields h step_of
         (Notebook2.notebook text task optimum_qa opt_optimum_qa clx quantized results_accuracy np)
         (fun r o => r = Returned tt /\ squash o = all_steps).
Proof.
  unfold Notebook2.notebook.
  apply yields_after with (obs := @nil Step).
  { unfold Notebook2.install_cell. now apply returns_trigger. }
  intros _.
  apply yields_after with (obs := [Export]).
  { unfold Notebook2.export_cell. cbn [bind trigger]. follow_calls. }
  intros [model tokenizer].
  apply yields_after with (obs := @nil Step).
  { unfold Notebook2.payload_cell. now apply returns_trigger. }
  intros inputs.
  apply yields_after with (obs := @nil Step).
  { unfold Notebook2.pipeline_cell. cbn [bind trigger]. follow_calls. }
  intros vanilla_qa.
  apply yields_after with (obs := [Optimize]).
  { unfold Notebook2.optimize_cell. cbn [bind trigger]. follow_calls. }
  intros _.
  apply yields_after with (obs := [Reload]).
  { unfold Notebook2.reload_cell. cbn [bind trigger]. follow_calls. }
  intros [model' optimized_qa].
  apply yields_after with (obs := @nil Step).
  { unfold Notebook2.quantize_cell. cbn [bind trigger]. follow_calls. }
  intros model_quantized_path.
  apply yields_after with (obs := @nil Step).
  { unfold Notebook2.size_cell. cbn [bind trigger]. follow_calls. }
  intros _.
  apply yields_after with (obs := [Reload]).
  { unfold Notebook2.reload_again_cell. cbn [bind trigger]. follow_calls. }
  intros [tokenizer' optimized_qa'].
  apply yields_after with (obs := @nil Step).
  { unfold Notebook2.dataset_cell. cbn [bind trigger]. follow_calls. }
  intros [metric eval_dataset].
  apply yields_after with (obs := @nil Step).
  { unfold Notebook2.evaluate_cell.
    rewrite <- (repeat_list_nil Step (List.length eval_dataset)). apply returns_Dataset_map.
    intros example. unfold Notebook2.evaluate. cbn [bind trigger]. follow_calls. }
  intros result.
  apply yields_after with (1 := steps_metrics_cell metric result). intros _.
  unfold Notebook2.benchmark_cell. cbn [bind trigger].
  apply yields_vis. intros input_ids. apply yields_vis. intros [].
  apply yields_vis. intros vanilla_clx.
  apply yields_after with (1 := steps_measure_latency_2 h np vanilla_clx). intros vanilla_model.
  apply yields_after with (1 := steps_measure_latency_2 h np clx). intros quantized_model.
  cbn [bind trigger]. do 3 (apply yields_vis; intros []). apply yields_ret.
  split; [ reflexivity | vm_compute; reflexivity ].
Qed.

End StepOrder2.

(** C7, amended.  Each notebook makes its steps in one fixed order: export,
    optimisation, reload, evaluation, benchmarking.  A run of the first
    notebook that returns has made all of them in that order; one that
    stops on a failed setup assertion has made none, and one that stops on
    the division of the two F1 scores has made the steps up to evaluation.
    The second notebook always returns, having made all of them in that
    order. *)
Theorem notebook_steps_in_order :
  forall (W : Type) (h : handler W) (np : numpy)
         (text task : string) (optimum_qa opt_optimum_qa clx : ref)
         (quantized : MetricResult) (results_accuracy : Q) (w : W),
    (let '(r, _, t) := run h (Notebook1.notebook np) w in
     match r with
     | Returned _ => squash (steps t) = all_steps
     | Raised (Py.AssertionError _) => steps t = []
     | Raised Py.ZeroDivisionError => squash (steps t) = [Export; Optimize; Reload; Evaluate]
     end) /\
    (let '(r, _, t) :=
       run h (Notebook2.notebook text task optimum_qa opt_optimum_qa clx
                                 quantized results_accuracy np) w in
     r = Returned tt /\ squash (steps t) = all_steps).
Proof.
  intros W h np text task optimum_qa opt_optimum_qa clx quantized results_accuracy w. split.
  - pose proof (steps_notebook_1 h np w) as H.
    destruct (run h (Notebook1.notebook np) w) as [[r w'] t]. exact H.
  - pose proof (steps_notebook_2 h np text task optimum_qa opt_optimum_qa clx
                                 quantized results_accuracy w) as H.
    destruct (run h _ w) as [[r w'] t]. exact H.
Qed.

(** C7 as stated fails: on a machine without the CUDA provider the first
    notebook stops in its setup cell, and none of the steps is made. *)
Lemma steps_not_made_without_cuda :
  fst (fst (run (Sim.handle Sim.cpu_machine) (Notebook1.notebook Sim.np_stub) 0%nat)) =
    Raised (Py.AssertionError
              (Some "ONNX Runtime GPU provider not found. Make sure onnxruntime-gpu is installed and onnxruntime is uninstalled."%string)) /\
  steps (snd (run (Sim.handle Sim.cpu_machine) (Notebook1.notebook Sim.np_stub) 0%nat)) = [].
Proof. split; vm_compute; reflexivity. Qed.

(** On a machine with it, the run returns and all the steps are made. *)
Lemma steps_made_with_cuda :
  fst (fst (run (Sim.handle Sim.gpu_machine) (Notebook1.notebook Sim.np_stub) 0%nat)) =
    Returned tt /\
  squash (steps (snd (run (Sim.handle Sim.gpu_machine) (Notebook1.notebook Sim.np_stub) 0%nat))) =
    all_steps.
Proof. split; vm_compute; reflexivity. Qed.

(** ** The setup cell *)

Lemma str_lt_lex (a b : string) : Py.str_lt a b = true <-> Py.lex_lt a b.
Proof.
  revert b. induction a as [| x a IH]; intros [| y b]; simpl.
  - split; [ discriminate | inversion 1 ].
  - split; [ constructor | reflexivity ].
  - split; [ discriminate | inversion 1 ].
  - destruct (Nat.ltb_spec (nat_of_ascii x) (nat_of_ascii y)) as [Hxy | Hxy].
    + split; [ intros _; now constructor | reflexivity ].
    + destruct (Nat.ltb_spec (nat_of_ascii y) (nat_of_ascii x)) as [Hyx | Hyx].
      * split; [ discriminate | ]. inversion 1; subst; lia.
      * assert (x = y) as ->.
        { rewrite <- (ascii_nat_embedding x), <- (ascii_nat_embedding y).
          f_equal. lia. }
        rewrite IH. split; [ now constructor | ].
        inversion 1; subst; [ lia | assumption ].
Qed.

Lemma str_in_In (x : string) (l : list string) : Py.str_in x l = true <-> In x l.
Proof.
  unfold Py.str_in. rewrite existsb_exists. split.
  - intros (y & Hy & Heq). apply String.eqb_eq in Heq. now subst.
  - intros Hx. exists x. split; [ exact Hx | apply String.eqb_refl ].
Qed.

(** The three assertions, in the order the cell makes them. *)
Lemma run_setup_cell (W : Type) (h : handler W) (w : W) :
  fst (fst (run h Notebook1.setup_cell w)) =
  let (providers, w1) := h _ get_available_providers w in
  let (device, w2) := h _ get_device w1 in
  let (version, _) := h _ onnxruntime_version w2 in
  if Py.str_in "CUDAExecutionProvider" providers then
    if String.eqb "GPU" device then
      if Py.str_gt version "1.11.1" then Returned tt
      else Raised (Py.AssertionError (Some "you need a newer version of ONNX Runtime"%string))
    else Raised (Py.AssertionError None)
  else Raised (Py.AssertionError
                 (Some "ONNX Runtime GPU provider not found. Make sure onnxruntime-gpu is installed and onnxruntime is uninstalled."%string)).
Proof.
  unfold Notebook1.setup_cell. cbn [bind trigger run].
  destruct (h _ get_available_providers w) as [providers w1].
  destruct (h _ get_device w1) as [device w2] eqn:Hdev.
  destruct (h _ onnxruntime_version w2) as [version w3] eqn:Hver.
  destruct (Py.str_in "CUDAExecutionProvider" providers); cbn [py_assert bind run fst];
    [ | reflexivity ].
  rewrite Hdev.
  destruct (String.eqb "GPU" device); cbn [py_assert bind run fst]; [ | reflexivity ].
  rewrite Hver.
  destruct (Py.str_gt version "1.11.1"); reflexivity.
Qed.

(** C5. The setup cell of the first notebook raises an AssertionError
    exactly when 'CUDAExecutionProvider' is not among the providers, or the
    device is not the string "GPU", or the version string is not greater
    than "1.11.1" in the order on strings; otherwise it returns.  The
    order is the one on strings, not on version numbers: "1.9.0" comes
    after "1.11.1" as a string although it is the older version. *)
Theorem setup_cell_assertions :
  forall (W : Type) (h : handler W) (w : W),
    let (providers, w1) := h _ get_available_providers w in
    let (device, w2) := h _ get_device w1 in
    let (version, _) := h _ onnxruntime_version w2 in
    let r := fst (fst (run h Notebook1.setup_cell w)) in
    ((exists msg, r = Raised (Py.AssertionError msg)) <->
     (~ In "CUDAExecutionProvider"%string providers \/
      device <> "GPU"%string \/
      ~ Py.lex_lt "1.11.1" version)) /\
    (r = Returned tt \/ exists msg, r = Raised (Py.AssertionError msg)) /\
    (Py.lex_lt "1.11.1" "1.9.0" /\ version_older "1.9.0" "1.11.1" = true).
Proof.
  intros W h w. pose proof (run_setup_cell h w) as Hrun.
  destruct (h _ get_available_providers w) as [providers w1].
  destruct (h _ get_device w1) as [device w2].
  destruct (h _ onnxruntime_version w2) as [version w3].
  cbv zeta. rewrite Hrun. clear Hrun.
  pose proof (str_in_In "CUDAExecutionProvider" providers) as Hin.
  pose proof (String.eqb_eq "GPU" device) as Hdev.
  pose proof (str_lt_lex "1.11.1" version) as Hver.
  fold (Py.str_gt version "1.11.1") in Hver.
  destruct (Py.str_in "CUDAExecutionProvider" providers).
  - destruct (String.eqb "GPU" device).
    + destruct (Py.str_gt version "1.11.1").
      * split; [ | split ].
        -- split.
           ++ intros [msg Hmsg]. discriminate Hmsg.
           ++ intros [H | [H | H]]; exfalso.
              ** apply H, Hin. reflexivity.
              ** apply H. symmetry. apply Hdev. reflexivity.
              ** apply H, Hver. reflexivity.
        -- now left.
        -- split; [ apply str_lt_lex | ]; reflexivity.
      * split; [ | split ].
        -- split; [ intros _ | eauto ].
           right. right. intros H. apply Hver in H. discriminate H.
        -- right. eauto.
        -- split; [ apply str_lt_lex | ]; reflexivity.
    + split; [ | split ].
      * split; [ intros _ | eauto ].
        right. left. intros H. symmetry in H. apply Hdev in H. discriminate H.
      * right. eauto.
      * split; [ apply str_lt_lex | ]; reflexivity.
  - split; [ | split ].
    + split; [ intros _ | eauto ].
      left. intros H. apply Hin in H. discriminate H.
    + right. eauto.
    + split; [ apply str_lt_lex | ]; reflexivity.
Qed.

(** A run of the cell on a machine whose ONNX Runtime is the older
    version 1.9.0: the cell accepts it. *)
Lemma setup_cell_accepts_1_9_0 :
  fst (fst (run (Sim.handle (Sim.with_version Sim.gpu_machine "1.9.0"))
                Notebook1.setup_cell 0%nat)) = Returned tt.
Proof. vm_compute. reflexivity. Qed.

(** ** What the notebooks compute and print *)

Section Reports.

Variable W : Type.
Variable h : handler W.
Variable np : numpy.

Lemma quiet_benchmark_trace (O X : Type) (f : entry -> option O) (c : extE X)
      (answers : list X) (rounds : list (Q * X * Q)) :
  (forall x, f (Called c x) = None) ->
  (forall t, f (Called perf_counter t) = None) ->
  filter_map f (warmup_trace c answers ++ timed_trace c rounds) = [].
Proof.
  intros Hc Hp. rewrite filter_map_app.
  assert (filter_map f (warmup_trace c answers) = []) as ->.
  { unfold warmup_trace. induction answers as [| x xs IH]; [ reflexivity | ].
    cbn [map filter_map]. now rewrite Hc. }
  unfold timed_trace. induction rounds as [| [[t1 x] t2] rs IH]; [ reflexivity | ].
  cbn [flat_map timed_round app filter_map]. now rewrite !Hp, Hc.
Qed.

Lemma report_evaluation_cell (vanilla_qa optimized_qa metric : ref) (ds : Dataset) :
  yields h report_of (Notebook1.evaluation_cell vanilla_qa optimized_qa metric ds)
         evaluation_report.
Proof.
  unfold Notebook1.evaluation_cell.
  apply yields_after with (obs := @nil Report).
  - rewrite <- (repeat_list_nil Report (List.length ds)). apply returns_Dataset_map.
    intros example. unfold Notebook1.evaluate. cbn [bind trigger]. follow_calls.
  - intros result. cbn [bind trigger].
    apply yields_vis. intros vanilla. apply yields_vis. intros optimised.
    apply yields_vis. intros []. apply yields_vis. intros [].
    unfold Py.truediv. destruct (Qeq_bool (f1 vanilla) 0) eqn:Hzero; cbn [lift bind].
    + apply yields_raise. exists vanilla, optimised. right. repeat split. exact Hzero.
    + apply yields_vis. intros []. apply yields_ret.
      exists vanilla, optimised. left. repeat split. exact Hzero.
Qed.

Lemma report_metrics_cell (quantized : MetricResult) (results_accuracy : Q)
      (metric : ref) (result : list EvalRecord) :
  yields h report_of (Notebook2.metrics_cell quantized results_accuracy metric result)
         (metrics_report quantized results_accuracy).
Proof.
  unfold Notebook2.metrics_cell. cbn [bind trigger].
  apply yields_vis. intros vanilla. apply yields_vis. intros optimised.
  do 5 (apply yields_vis; intros []).
  rewrite truediv_by_literal.
  cbn [lift bind]. apply yields_vis. intros []. apply yields_ret.
  split; [ reflexivity | ]. exists vanilla, optimised. reflexivity.
Qed.

Lemma trace_benchmark_cell_1 (vanilla_qa optimized_qa : ref) (w : W) :
  fst (fst (run h (Notebook1.benchmark_cell np vanilla_qa optimized_qa) w)) = Returned tt /\
  exists (answers1 answers2 : list Response) (rounds1 rounds2 : list (Q * Response * Q)),
    benchmark_sizes answers1 answers2 rounds1 rounds2 /\
    snd (run h (Notebook1.benchmark_cell np vanilla_qa optimized_qa) w) =
    benchmark_trace np "Optimized model: " "Improvement through optimization: "
                    (qa_call vanilla_qa question context)
                    (qa_call optimized_qa question context)
                    answers1 answers2 rounds1 rounds2.
Proof.
  unfold Notebook1.benchmark_cell. rewrite run_bind, run_measure_latency_1.
  destruct (benchmark_run_shape h np (qa_call vanilla_qa question context) w)
    as (answers1 & rounds1 & La1 & Lr1 & Ht1 & Hres1).
  destruct (benchmark_run h np (qa_call vanilla_qa question context) w) as [[res1 w1] t1].
  cbn [fst snd] in Ht1, Hres1. subst res1 t1.
  rewrite run_bind, run_measure_latency_1.
  destruct (benchmark_run_shape h np (qa_call optimized_qa question context) w1)
    as (answers2 & rounds2 & La2 & Lr2 & Ht2 & Hres2).
  destruct (benchmark_run h np (qa_call optimized_qa question context) w1) as [[res2 w2] t2].
  cbn [fst snd] in Ht2, Hres2. subst res2 t2.
  cbn [bind trigger run].
  destruct (h (print _) w2) as [[] w3]. destruct (h (print _) w3) as [[] w4].
  destruct (h (print _) w4) as [[] w5]. cbn [fst snd].
  split; [ reflexivity | ].
  exists answers1, answers2, rounds1, rounds2. split; [ repeat split; assumption | ].
  unfold benchmark_trace. rewrite <- !app_assoc. reflexivity.
Qed.

Lemma trace_benchmark_cell_2 (clx tokenizer : ref) (w : W) :
  fst (fst (run h (Notebook2.benchmark_cell clx np tokenizer) w)) = Returned tt /\
  exists (input_ids : list Z) (vanilla_clx : ref)
         (answers1 answers2 : list (list Classification))
         (rounds1 rounds2 : list (Q * list Classification * Q)),
    benchmark_sizes answers1 answers2 rounds1 rounds2 /\
    snd (run h (Notebook2.benchmark_cell clx np tokenizer) w) =
    Called (tokenizer_input_ids tokenizer Notebook2.payload) input_ids ::
    Called (print [Py.Lit "Payload sequence length: ";
                   Py.Int (Z.of_nat (List.length input_ids))]) tt ::
    Called (pipeline "text-classification" (ModelName Notebook2.model_id) None None)
           vanilla_clx ::
    benchmark_trace np "Quantized model: " "Improvement through quantization: "
                    (text_call vanilla_clx Notebook2.payload)
                    (text_call clx Notebook2.payload)
                    answers1 answers2 rounds1 rounds2.
Proof.
  unfold Notebook2.benchmark_cell. cbn [bind trigger run].
  destruct (h (tokenizer_input_ids tokenizer Notebook2.payload) w) as [input_ids w01].
  destruct (h (print _) w01) as [[] w02].
  destruct (h (pipeline _ _ _ _) w02) as [vanilla_clx w0].
  rewrite run_bind, run_measure_latency_2.
  destruct (benchmark_run_shape h np (text_call vanilla_clx Notebook2.payload) w0)
    as (answers1 & rounds1 & La1 & Lr1 & Ht1 & Hres1).
  destruct (benchmark_run h np (text_call vanilla_clx Notebook2.payload) w0)
    as [[res1 w1] t1].
  cbn [fst snd] in Ht1, Hres1. subst res1 t1.
  rewrite run_bind, run_measure_latency_2.
  destruct (benchmark_run_shape h np (text_call clx Notebook2.payload) w1)
    as (answers2 & rounds2 & La2 & Lr2 & Ht2 & Hres2).
  destruct (benchmark_run h np (text_call clx Notebook2.payload) w1) as [[res2 w2] t2].
  cbn [fst snd] in Ht2, Hres2. subst res2 t2.
  cbn [bind trigger run].
  destruct (h (print _) w2) as [[] w3]. destruct (h (print _) w3) as [[] w4].
  destruct (h (print _) w4) as [[] w5]. cbn [fst snd].
  split; [ reflexivity | ].
  exists input_ids, vanilla_clx, answers1, answers2, rounds1, rounds2.
  split; [ repeat split; assumption | ].
  unfold benchmark_trace. rewrite <- !app_assoc. reflexivity.
Qed.

End Reports.

(** C2, amended.  On a dataset that is not empty, the first notebook
    computes two scores and prints the F1 of each (and nothing of their
    exact-match values), then the retention line; the second prints
    exact-match and F1 of each.  The latencies they print are not taken
    over the dataset: a benchmark cell runs [measure_latency] on each of
    two pipelines, which makes ten warm-up calls and three hundred timed
    calls on one fixed payload, and prints the P95, the average and the
    deviation of these three hundred latencies, and the ratio of the two
    P95 values. *)
Theorem notebooks_report_scores_and_latency :
  forall (W : Type) (h : handler W) (np : numpy),
    (forall (vanilla_qa optimized_qa metric : ref) (ds : Dataset) (w : W),
        ds <> [] ->
        let '(r, _, t) := run h (Notebook1.evaluation_cell vanilla_qa optimized_qa metric ds) w in
        evaluation_report r (reports t)) /\
    (forall (vanilla_qa optimized_qa : ref) (w : W),
        let '(r, _, t) := run h (Notebook1.benchmark_cell np vanilla_qa optimized_qa) w in
        r = Returned tt /\
        exists (answers1 answers2 : list Response) (rounds1 rounds2 : list (Q * Response * Q)),
          benchmark_sizes answers1 answers2 rounds1 rounds2 /\
          t = benchmark_trace np "Optimized model: " "Improvement through optimization: "
                              (qa_call vanilla_qa question context)
                              (qa_call optimized_qa question context)
                              answers1 answers2 rounds1 rounds2) /\
    (forall (quantized : MetricResult) (results_accuracy : Q) (metric : ref)
            (result : list EvalRecord) (w : W),
        result <> [] ->
        let '(r, _, t) :=
          run h (Notebook2.metrics_cell quantized results_accuracy metric result) w in
        metrics_report quantized results_accuracy r (reports t)) /\
    (forall (clx tokenizer : ref) (w : W),
        let '(r, _, t) := run h (Notebook2.benchmark_cell clx np tokenizer) w in
        r = Returned tt /\
        exists (input_ids : list Z) (vanilla_clx : ref)
               (answers1 answers2 : list (list Classification))
               (rounds1 rounds2 : list (Q * list Classification * Q)),
          benchmark_sizes answers1 answers2 rounds1 rounds2 /\
          t = Called (tokenizer_input_ids tokenizer Notebook2.payload) input_ids ::
              Called (print [Py.Lit "Payload sequence length: ";
                             Py.Int (Z.of_nat (List.length input_ids))]) tt ::
              Called (pipeline "text-classification" (ModelName Notebook2.model_id) None None)
                     vanilla_clx ::
              benchmark_trace np "Quantized model: " "Improvement through quantization: "
                              (text_call vanilla_clx Notebook2.payload)
                              (text_call clx Notebook2.payload)
                              answers1 answers2 rounds1 rounds2).
Proof.
  intros W h np. split; [ | split; [ | split ] ].
  - intros vanilla_qa optimized_qa metric ds w _.
    pose proof (report_evaluation_cell h vanilla_qa optimized_qa metric ds w) as H.
    destruct (run h _ w) as [[r w'] t]. exact H.
  - intros vanilla_qa optimized_qa w.
    pose proof (trace_benchmark_cell_1 h np vanilla_qa optimized_qa w) as H.
    destruct (run h _ w) as [[r w'] t]. exact H.
  - intros quantized results_accuracy metric result w _.
    pose proof (report_metrics_cell h quantized results_accuracy metric result w) as H.
    destruct (run h _ w) as [[r w'] t]. exact H.
  - intros clx tokenizer w.
    pose proof (trace_benchmark_cell_2 h np clx tokenizer w) as H.
    destruct (run h _ w) as [[r w'] t]. exact H.
Qed.

(** C2 as stated fails.  Two runs of the first notebook whose exact-match
    scores differ print the same lines, so the notebook does not report
    exact-match.  And the requests whose latency it takes are six hundred
    times the one fixed question, which is none of the questions of the
    dataset, so the latency is not one over the dataset. *)
Lemma exact_match_and_dataset_latency_not_reported :
  Qeq_bool (exact (Sim.scores Sim.gpu_machine)) (exact (Sim.scores other_exact_match)) = false /\
  fst (fst (run (Sim.handle Sim.gpu_machine) (Notebook1.notebook Sim.np_stub) 0%nat)) =
    Returned tt /\
  printed_lines (snd (run (Sim.handle Sim.gpu_machine) (Notebook1.notebook Sim.np_stub) 0%nat)) =
  printed_lines (snd (run (Sim.handle other_exact_match) (Notebook1.notebook Sim.np_stub) 0%nat)) /\
  timed_requests (snd (run (Sim.handle Sim.gpu_machine) (Notebook1.notebook Sim.np_stub) 0%nat)) =
    repeat (QARequest question context) 600 /\
  existsb (String.eqb question)
          (map ex_question (validation (Sim.splits Sim.gpu_machine))) = false.
Proof. split; [ | split; [ | split; [ | split ] ] ]; vm_compute; reflexivity. Qed.

(** ** Rounding *)

Lemma round_half_even_comp (x y : Q) :
  x == y -> Py.round_half_even x = Py.round_half_even y.
Proof.
  intros H. unfold Py.round_half_even.
  assert (Qfloor x = Qfloor y) as Hf by now rewrite H.
  rewrite Hf.
  assert ((x - inject_Z (Qfloor y) ?= 1 # 2) = (y - inject_Z (Qfloor y) ?= 1 # 2)) as Hc.
  { apply Qcompare_comp; [ | reflexivity ]. rewrite H. reflexivity. }
  now rewrite Hc.
Qed.

Lemma round_half_even_Z (k : Z) : Py.round_half_even (inject_Z k) = k.
Proof.
  unfold Py.round_half_even. rewrite Qfloor_Z.
  assert ((inject_Z k - inject_Z k ?= 1 # 2) = Lt) as H.
  { apply (proj1 (Qlt_alt _ _)).
    setoid_replace (inject_Z k - inject_Z k) with 0 by ring. reflexivity. }
  now rewrite H.
Qed.

Lemma round_half_even_near (x : Q) :
  x - (1 # 2) <= inject_Z (Py.round_half_even x) /\
  inject_Z (Py.round_half_even x) <= x + (1 # 2).
Proof.
  unfold Py.round_half_even.
  pose proof (Qfloor_le x) as Hlo. pose proof (Qlt_floor x) as Hhi.
  rewrite inject_Z_plus in Hhi. change (inject_Z 1) with 1 in Hhi.
  destruct (x - inject_Z (Qfloor x) ?= 1 # 2) eqn:Hc.
  - apply Qeq_alt in Hc.
    destruct (Z.even (Qfloor x)); [ | rewrite inject_Z_plus; change (inject_Z 1) with 1 ];
      split; lra.
  - apply (proj2 (Qlt_alt _ _)) in Hc. split; lra.
  - apply (proj2 (Qgt_alt _ _)) in Hc.
    rewrite inject_Z_plus. change (inject_Z 1) with 1. split; lra.
Qed.

Lemma round_half_even_floor (x : Q) :
  (Qfloor x <= Py.round_half_even x <= Qfloor x + 1)%Z.
Proof.
  unfold Py.round_half_even.
  destruct (x - inject_Z (Qfloor x) ?= 1 # 2); [ destruct (Z.even (Qfloor x)) | | ]; lia.
Qed.

(** Rounding keeps the order. *)
Lemma round_half_even_le (x y : Q) :
  x <= y -> (Py.round_half_even x <= Py.round_half_even y)%Z.
Proof.
  intros Hxy. pose proof (Qfloor_resp_le _ _ Hxy) as Hf.
  destruct (Z.eq_dec (Qfloor x) (Qfloor y)) as [Heq | Hne].
  - unfold Py.round_half_even. rewrite <- Heq.
    destruct (x - inject_Z (Qfloor x) ?= 1 # 2) eqn:Hx;
      destruct (y - inject_Z (Qfloor x) ?= 1 # 2) eqn:Hy;
      try (destruct (Z.even (Qfloor x))); try lia; exfalso.
    + apply Qeq_alt in Hx. apply (proj2 (Qlt_alt _ _)) in Hy. lra.
    + apply (proj2 (Qgt_alt _ _)) in Hx. apply Qeq_alt in Hy. lra.
    + apply (proj2 (Qgt_alt _ _)) in Hx. apply (proj2 (Qlt_alt _ _)) in Hy. lra.
    + apply (proj2 (Qgt_alt _ _)) in Hx. apply (proj2 (Qlt_alt _ _)) in Hy. lra.
  - pose proof (round_half_even_floor x). pose proof (round_half_even_floor y). lia.
Qed.

(** A number less than a half away from an integer rounds to it. *)
Lemma round_half_even_nearby (x : Q) (n : Z) :
  inject_Z n - (1 # 2) < x -> x < inject_Z n + (1 # 2) -> Py.round_half_even x = n.
Proof.
  intros Hlo Hhi. destruct (round_half_even_near x) as [Hr1 Hr2].
  assert (n - 1 < Py.round_half_even x)%Z as H1.
  { rewrite Zlt_Qlt. unfold Z.sub. rewrite inject_Z_plus.
    change (inject_Z (- (1))%Z) with (-1 # 1). lra. }
  assert (Py.round_half_even x < n + 1)%Z as H2.
  { rewrite Zlt_Qlt, inject_Z_plus. change (inject_Z 1) with 1. lra. }
  lia.
Qed.

(** Between 99.5 and 100.5, the upper bound left out, the nearest integer
    is 100; at 99.5 the tie goes to 100, the even neighbour. *)
Lemma round_half_even_100 (x : Q) :
  995 # 10 <= x -> x < 1005 # 10 -> Py.round_half_even x = 100%Z.
Proof.
  intros Hlo Hhi. unfold Py.round_half_even.
  pose proof (Qfloor_le x) as Hfl. pose proof (Qlt_floor x) as Hfu.
  assert (inject_Z (Qfloor x) < 1005 # 10) as H1 by (eapply Qle_lt_trans; eassumption).
  assert (995 # 10 < inject_Z (Qfloor x + 1)) as H2 by (eapply Qle_lt_trans; eassumption).
  unfold Qlt in H1, H2. cbn in H1, H2.
  assert (Qfloor x = 99 \/ Qfloor x = 100)%Z as [Hf | Hf] by lia; rewrite Hf in *.
  - destruct (x - inject_Z 99 ?= 1 # 2) eqn:Hc; [ reflexivity | | reflexivity ].
    apply (proj2 (Qlt_alt _ _)) in Hc. exfalso.
    apply (Qlt_not_le _ _ Hc). apply (Qplus_le_l _ _ (inject_Z 99)).
    setoid_replace (x - inject_Z 99 + inject_Z 99) with x by ring.
    setoid_replace ((1 # 2) + inject_Z 99) with (995 # 10) by reflexivity.
    exact Hlo.
  - assert ((x - inject_Z 100 ?= 1 # 2) = Lt) as Hc.
    { apply (proj1 (Qlt_alt _ _)). apply (Qplus_lt_l _ _ (inject_Z 100)).
      setoid_replace (x - inject_Z 100 + inject_Z 100) with x by ring.
      setoid_replace ((1 # 2) + inject_Z 100) with (1005 # 10) by reflexivity.
      exact Hhi. }
    now rewrite Hc.
Qed.

(** *** Powers of two *)

Lemma pow2_pos (e : Z) : 0 < 2 ^ e.
Proof. apply Qpower_0_lt. reflexivity. Qed.

Lemma pow2_plus (a b : Z) : 2 ^ (a + b) == 2 ^ a * 2 ^ b.
Proof. apply Qpower_plus. discriminate. Qed.

Lemma pow2_le (a b : Z) : (a <= b)%Z -> 2 ^ a <= 2 ^ b.
Proof. intros H. apply Qpower_le_compat_l; [ exact H | discriminate ]. Qed.

Lemma pow2_Z (n : Z) : (0 <= n)%Z -> 2 ^ n == inject_Z (2 ^ n).
Proof. intros H. symmetry. apply (Zpower_Qpower 2 n H). Qed.

Lemma pow2_lt_inv (a b : Z) : 2 ^ a < 2 ^ b -> (a < b)%Z.
Proof.
  intros H. destruct (Z_lt_le_dec a b) as [Hlt | Hle]; [ exact Hlt | ].
  exfalso. apply (Qlt_not_le _ _ H). now apply pow2_le.
Qed.

(** *** The leading bit *)

Lemma ilog2_spec (x : Q) : 0 < x -> 2 ^ Py.ilog2 x <= x /\ x < 2 ^ (Py.ilog2 x + 1).
Proof.
  intros Hx. unfold Py.ilog2. destruct (Qle_bool 1 x) eqn:H1.
  - apply Qle_bool_iff in H1.
    assert (1 <= Qfloor x)%Z as Hf.
    { change 1%Z with (Qfloor 1). now apply Qfloor_resp_le. }
    destruct (Z.log2_spec (Qfloor x)) as [Hlo Hhi]; [ lia | ].
    pose proof (Z.log2_nonneg (Qfloor x)) as Hl.
    rewrite !pow2_Z by lia. split.
    + apply Qle_trans with (inject_Z (Qfloor x)); [ now rewrite <- Zle_Qle | apply Qfloor_le ].
    + apply Qlt_le_trans with (inject_Z (Qfloor x + 1)); [ apply Qlt_floor | ].
      rewrite <- Zle_Qle.
      change (Z.succ (Z.log2 (Qfloor x))) with (Z.log2 (Qfloor x) + 1)%Z in Hhi. lia.
  - assert (x < 1) as Hx1.
    { apply Qnot_le_lt. intros H. apply Qle_bool_iff in H. congruence. }
    assert (0 < / x) as Hy by now apply Qinv_lt_0_compat.
    assert (x * / x == 1) as Hxy by (apply Qmult_inv_r; lra).
    assert (1 < / x) as Hy1.
    { apply Qnot_le_lt. intros H.
      assert (x * / x <= x * 1) as H' by (apply Qmult_le_l; assumption). lra. }
    pose proof (Qle_ceiling (/ x)) as Hc. pose proof (Qceiling_lt (/ x)) as Hc'.
    assert (1 < Qceiling (/ x))%Z as Hc1.
    { rewrite Zlt_Qlt. change (inject_Z 1) with 1. lra. }
    destruct (Z.log2_up_spec (Qceiling (/ x)) Hc1) as [Hlo Hhi].
    pose proof (Z.log2_up_pos (Qceiling (/ x)) Hc1) as Hm.
    set (m := Z.log2_up (Qceiling (/ x))) in *.
    assert (/ x <= 2 ^ m) as Hup.
    { rewrite pow2_Z by lia. apply Qle_trans with (1 := Hc). now rewrite <- Zle_Qle. }
    assert (2 ^ (m - 1) < / x) as Hdown.
    { rewrite pow2_Z by lia. apply Qle_lt_trans with (2 := Hc').
      rewrite <- Zle_Qle. change (Z.pred m) with (m - 1)%Z in Hlo. lia. }
    pose proof (pow2_pos m) as Hpm. pose proof (pow2_pos (m - 1)) as Hpm1.
    pose proof (pow2_pos (- m)) as Hnm. pose proof (pow2_pos (- m + 1)) as Hnm1.
    assert (2 ^ (- m) * 2 ^ m == 1) as Em.
    { rewrite <- pow2_plus. replace (- m + m)%Z with 0%Z by lia. reflexivity. }
    assert (2 ^ (- m + 1) * 2 ^ (m - 1) == 1) as Em1.
    { rewrite <- pow2_plus. replace (- m + 1 + (m - 1))%Z with 0%Z by lia. reflexivity. }
    split.
    + apply Qnot_lt_le. intros H.
      assert (/ x * x < 2 ^ m * 2 ^ (- m)) as H'.
      { apply Qmult_le_lt_compat_pos; split; lra. }
      lra.
    + apply Qnot_le_lt. intros H.
      assert (2 ^ (- m + 1) * 2 ^ (m - 1) < x * / x) as H'.
      { apply Qmult_le_lt_compat_pos; split; lra. }
      lra.
Qed.

Lemma ilog2_le (x y : Q) : 0 < x -> x <= y -> (Py.ilog2 x <= Py.ilog2 y)%Z.
Proof.
  intros Hx Hxy.
  destruct (ilog2_spec Hx) as [Hlo _].
  assert (0 < y) as Hy by lra.
  destruct (ilog2_spec Hy) as [_ Hhi].
  assert (Py.ilog2 x < Py.ilog2 y + 1)%Z; [ | lia ].
  apply pow2_lt_inv. lra.
Qed.

(** *** The nearest binary64 number *)

Lemma nearest_unfold (a : Q) :
  Py.nearest a = inject_Z (Py.round_half_even (a / 2 ^ Py.last_place a)) * 2 ^ Py.last_place a.
Proof. reflexivity. Qed.

Lemma last_place_above (a : Q) : 0 < a -> a < 2 ^ (Py.last_place a + 53).
Proof.
  intros Ha. destruct (ilog2_spec Ha) as [_ Hhi].
  apply Qlt_le_trans with (1 := Hhi). apply pow2_le. unfold Py.last_place. lia.
Qed.

Lemma last_place_below (a : Q) :
  0 < a -> (-1022 <= Py.ilog2 a)%Z -> 2 ^ (Py.last_place a + 52) <= a.
Proof.
  intros Ha Hl. destruct (ilog2_spec Ha) as [Hlo _].
  replace (Py.last_place a + 52)%Z with (Py.ilog2 a); [ exact Hlo | unfold Py.last_place; lia ].
Qed.

Lemma scaled_le (a b : Q) (e : Z) : a <= b * 2 ^ e -> a / 2 ^ e <= b.
Proof. intros H. apply Qle_shift_div_r; [ apply pow2_pos | exact H ]. Qed.

Lemma scaled_ge (a b : Q) (e : Z) : b * 2 ^ e <= a -> b <= a / 2 ^ e.
Proof. intros H. apply Qle_shift_div_l; [ apply pow2_pos | exact H ]. Qed.

Lemma nearest_nonneg (a : Q) : 0 <= a -> 0 <= Py.nearest a.
Proof.
  intros Ha. rewrite nearest_unfold. pose proof (pow2_pos (Py.last_place a)) as Hp.
  apply Qmult_le_0_compat; [ | lra ].
  change 0 with (inject_Z 0). rewrite <- Zle_Qle.
  rewrite <- (round_half_even_Z 0) at 1. apply round_half_even_le.
  apply scaled_ge. change (inject_Z 0) with 0. lra.
Qed.

Lemma nearest_zero (a : Q) : a == 0 -> Py.nearest a == 0.
Proof.
  intros Ha. rewrite nearest_unfold.
  assert (a / 2 ^ Py.last_place a == inject_Z 0) as H.
  { unfold Qdiv. apply Qeq_trans with (0 * / 2 ^ Py.last_place a); [ | ring ].
    apply Qmult_comp; [ exact Ha | reflexivity ]. }
  rewrite (round_half_even_comp H), round_half_even_Z. reflexivity.
Qed.

Lemma nearest_at_most (a : Q) : 0 < a -> Py.nearest a <= 2 ^ (Py.last_place a + 53).
Proof.
  intros Ha. rewrite nearest_unfold, pow2_plus.
  pose proof (pow2_pos (Py.last_place a)) as Hp.
  rewrite (Qmult_comm (2 ^ Py.last_place a)).
  apply Qmult_le_compat_r; [ | lra ].
  rewrite (@pow2_Z 53) by discriminate. rewrite <- Zle_Qle.
  rewrite <- (round_half_even_Z (2 ^ 53)) at 1. apply round_half_even_le.
  apply scaled_le. rewrite <- (@pow2_Z 53) by discriminate.
  rewrite (Qmult_comm (2 ^ 53)), <- pow2_plus.
  apply Qlt_le_weak. now apply last_place_above.
Qed.

Lemma nearest_at_least (a : Q) :
  0 < a -> (-1022 <= Py.ilog2 a)%Z -> 2 ^ (Py.last_place a + 52) <= Py.nearest a.
Proof.
  intros Ha Hl. rewrite nearest_unfold, pow2_plus.
  pose proof (pow2_pos (Py.last_place a)) as Hp.
  rewrite (Qmult_comm (2 ^ Py.last_place a)).
  apply Qmult_le_compat_r; [ | lra ].
  rewrite (@pow2_Z 52) by discriminate. rewrite <- Zle_Qle.
  rewrite <- (round_half_even_Z (2 ^ 52)) at 1. apply round_half_even_le.
  apply scaled_ge. rewrite <- (@pow2_Z 52) by discriminate.
  rewrite (Qmult_comm (2 ^ 52)), <- pow2_plus. now apply last_place_below.
Qed.

Lemma nearest_le (a b : Q) : 0 <= a -> a <= b -> Py.nearest a <= Py.nearest b.
Proof.
  intros Ha Hab.
  destruct (Qlt_le_dec 0 a) as [Hpos | Hzero].
  2: { rewrite (@nearest_zero a) by lra. apply nearest_nonneg. lra. }
  assert (0 < b) as Hb by lra.
  pose proof (ilog2_le Hpos Hab) as Hl.
  destruct (Z.eq_dec (Py.last_place a) (Py.last_place b)) as [He | He].
  - rewrite !nearest_unfold, He. pose proof (pow2_pos (Py.last_place b)) as Hp.
    apply Qmult_le_compat_r; [ | lra ].
    rewrite <- Zle_Qle. apply round_half_even_le.
    apply Qmult_le_compat_r; [ exact Hab | ].
    apply Qinv_le_0_compat. lra.
  - assert (Py.last_place a + 53 <= Py.last_place b + 52)%Z as Hlt by (unfold Py.last_place in *; lia).
    apply Qle_trans with (1 := nearest_at_most Hpos).
    apply Qle_trans with (2 := @nearest_at_least b Hb ltac:(unfold Py.last_place in *; lia)).
    now apply pow2_le.
Qed.

(** In the normal range the nearest binary64 number is within half a unit
    in the last place, which is at most [a * 2 ^ -53]. *)
Lemma nearest_error (a : Q) :
  2 ^ (-1022) <= a ->
  a - a * 2 ^ (-53) <= Py.nearest a /\ Py.nearest a <= a + a * 2 ^ (-53).
Proof.
  intros Hmin. pose proof (pow2_pos (-1022)) as Hp0.
  assert (0 < a) as Ha by lra.
  assert (-1022 <= Py.ilog2 a)%Z as Hl.
  { destruct (ilog2_spec Ha) as [_ Hhi].
    assert (-1022 < Py.ilog2 a + 1)%Z; [ apply pow2_lt_inv; lra | lia ]. }
  pose proof (last_place_below Ha Hl) as Hlow.
  rewrite nearest_unfold. set (e := Py.last_place a) in *.
  pose proof (pow2_pos e) as Hp.
  destruct (round_half_even_near (a / 2 ^ e)) as [Hlo Hhi].
  set (m := inject_Z (Py.round_half_even (a / 2 ^ e))) in *.
  assert (a / 2 ^ e * 2 ^ e == a) as Hscale by (field; lra).
  assert ((a / 2 ^ e - (1 # 2)) * 2 ^ e <= m * 2 ^ e) as H1
      by (apply Qmult_le_compat_r; lra).
  assert (m * 2 ^ e <= (a / 2 ^ e + (1 # 2)) * 2 ^ e) as H2
      by (apply Qmult_le_compat_r; lra).
  assert (2 ^ e * (1 # 2) <= a * 2 ^ (-53)) as Hulp.
  { assert (2 ^ e * (1 # 2) == 2 ^ (e + 52) * 2 ^ (-53)) as ->.
    { rewrite <- pow2_plus. replace (e + 52 + -53)%Z with (e + -1)%Z by lia.
      rewrite pow2_plus. reflexivity. }
    apply Qmult_le_compat_r; [ exact Hlow | ]. apply Qlt_le_weak, pow2_pos. }
  split; lra.
Qed.

Lemma float_nonneg (x : Q) : 0 <= x -> Py.float x = Py.nearest x.
Proof.
  intros H. unfold Py.float. apply Qle_bool_iff in H. now rewrite H.
Qed.

Lemma float_neg (x : Q) : x < 0 -> Py.float x = - Py.nearest (- x).
Proof.
  intros H. unfold Py.float. destruct (Qle_bool 0 x) eqn:Hb; [ | reflexivity ].
  apply Qle_bool_iff in Hb. lra.
Qed.

(** Rounding to the nearest binary64 number keeps the order. *)
Lemma float_le (x y : Q) : x <= y -> Py.float x <= Py.float y.
Proof.
  intros Hxy.
  destruct (Qlt_le_dec x 0) as [Hx | Hx]; destruct (Qlt_le_dec y 0) as [Hy | Hy].
  - rewrite (float_neg Hx), (float_neg Hy).
    apply Qopp_le_compat. apply nearest_le; lra.
  - rewrite (float_neg Hx), (float_nonneg Hy).
    pose proof (@nearest_nonneg (- x) ltac:(lra)). pose proof (nearest_nonneg Hy). lra.
  - lra.
  - rewrite (float_nonneg Hx), (float_nonneg Hy). now apply nearest_le.
Qed.

(** So do [round] and the multiplication by a float that is not negative. *)
Lemma pow10_pos (n : nat) : 0 < inject_Z (Py.pow10 n).
Proof.
  change 0 with (inject_Z 0). rewrite <- Zlt_Qlt. unfold Py.pow10.
  apply Z.pow_pos_nonneg; lia.
Qed.

Lemma round_le (x y : Q) (n : nat) : x <= y -> Py.round x n <= Py.round y n.
Proof.
  intros Hxy. unfold Py.round. apply float_le.
  pose proof (pow10_pos n) as Hp.
  apply Qmult_le_compat_r; [ | apply Qinv_le_0_compat; lra ].
  rewrite <- Zle_Qle. apply round_half_even_le.
  apply Qmult_le_compat_r; [ exact Hxy | lra ].
Qed.

Lemma fmul_le (a b c : Q) : 0 <= c -> a <= b -> Py.fmul a c <= Py.fmul b c.
Proof.
  intros Hc Hab. unfold Py.fmul. apply float_le. now apply Qmult_le_compat_r.
Qed.

(** *** Writing a float with two decimals *)

Lemma string_app_assoc (a b c : string) : ((a ++ b) ++ c = a ++ b ++ c)%string.
Proof. induction a as [| x a IH]; [ reflexivity | cbn; now rewrite IH ]. Qed.


(** A whole number written with two decimals ends in [.00]. *)
Lemma format_fixed_2_whole (v : Q) (k : Z) :
  v == inject_Z k ->
  Py.format_fixed 2 v =
  ((if (k <? 0)%Z then "-" else "") ++ Py.digits (Z.abs k) ++ ".00")%string.
Proof.
  intros Hv. unfold Py.format_fixed.
  change (inject_Z (Py.pow10 2)) with (inject_Z 100). change (Py.pow10 2) with 100%Z.
  assert (v * inject_Z 100 == inject_Z (k * 100)) as Hk
      by (rewrite Hv, inject_Z_mult; reflexivity).
  rewrite (round_half_even_comp Hk), round_half_even_Z.
  rewrite Z.abs_mul. change (Z.abs 100) with 100%Z.
  rewrite Z.div_mul by discriminate. rewrite Z.mod_mul by discriminate.
  assert ((if Qlt_le_dec v 0 then "-" else "") = (if (k <? 0)%Z then "-" else ""))%string
    as ->.
  { destruct (Qlt_le_dec v 0) as [Hneg | Hpos]; destruct (Z.ltb_spec k 0) as [Hk0 | Hk0];
      try reflexivity; exfalso.
    - rewrite Hv in Hneg. unfold Qlt in Hneg. cbn in Hneg. lia.
    - rewrite Hv in Hpos. unfold Qle in Hpos. cbn in Hpos. lia. }
  reflexivity.
Qed.

(** So does a float that is not negative and less than 0.005 away from a
    whole number. *)
Lemma format_fixed_2_near (v : Q) (k : Z) :
  (0 <= k)%Z -> 0 <= v ->
  inject_Z k - (1 # 200) < v -> v < inject_Z k + (1 # 200) ->
  Py.format_fixed 2 v = (Py.digits k ++ ".00")%string.
Proof.
  intros Hk Hv Hlo Hhi. unfold Py.format_fixed.
  change (inject_Z (Py.pow10 2)) with (inject_Z 100). change (Py.pow10 2) with 100%Z.
  assert (Py.round_half_even (v * inject_Z 100) = (k * 100)%Z) as ->.
  { apply round_half_even_nearby; rewrite inject_Z_mult;
      change (inject_Z 100) with 100; lra. }
  rewrite Z.abs_eq by lia.
  rewrite Z.div_mul by discriminate. rewrite Z.mod_mul by discriminate.
  destruct (Qlt_le_dec v 0) as [Hneg | _]; [ lra | ].
  reflexivity.
Qed.

(** *** The retention figure *)

(** For a quotient between 0 and a million, [round(quotient, 2) * 100] is
    written as the whole number nearest to a hundred times the quotient:
    the two roundings to binary64 move it by far less than 0.005. *)
Lemma figure_text (quotient : Q) :
  0 <= quotient -> quotient <= 1000000 ->
  (0 <= Py.round_half_even (quotient * 100))%Z /\
  Py.format_fixed 2 (Py.fmul (Py.round quotient 2) 100) =
  (Py.digits (Py.round_half_even (quotient * 100)) ++ ".00")%string.
Proof.
  intros Hq0 Hq1. unfold Py.fmul, Py.round.
  change (inject_Z (Py.pow10 2)) with 100.
  set (k := Py.round_half_even (quotient * 100)).
  assert (0 <= k)%Z as Hk0.
  { rewrite <- (round_half_even_Z 0). apply round_half_even_le.
    change (inject_Z 0) with 0. lra. }
  assert (k <= 100000000)%Z as Hk1.
  { rewrite <- (round_half_even_Z 100000000). apply round_half_even_le.
    change (inject_Z 100000000) with 100000000. lra. }
  split; [ exact Hk0 | ].
  assert (0 <= inject_Z k) as HK0 by (change 0 with (inject_Z 0); now rewrite <- Zle_Qle).
  assert (inject_Z k <= 100000000) as HK1
      by (change 100000000 with (inject_Z 100000000); now rewrite <- Zle_Qle).
  assert (inject_Z k / 100 == inject_Z k * (1 # 100)) as Hdiv by field.
  assert (2 ^ (-1022) <= 1 # 200) as Hmin.
  { apply Qle_trans with (2 ^ (-8)); [ apply pow2_le; lia | discriminate ]. }
  assert (2 ^ (-53) == 1 # 9007199254740992) as Heps by reflexivity.
  destruct (Z.eq_dec k 0) as [Hz | Hz].
  - rewrite Hz. apply format_fixed_2_near; [ lia | | | ];
      vm_compute; first [ discriminate | reflexivity ].
  - assert (1 <= inject_Z k) as HK
        by (change 1 with (inject_Z 1); rewrite <- Zle_Qle; lia).
    rewrite (@float_nonneg (inject_Z k / 100)) by lra.
    destruct (@nearest_error (inject_Z k / 100)) as [Hr1 Hr2]; [ lra | ].
    set (r := Py.nearest (inject_Z k / 100)) in *.
    rewrite (@float_nonneg (r * 100)) by lra.
    destruct (@nearest_error (r * 100)) as [Hp1 Hp2]; [ lra | ].
    apply format_fixed_2_near; [ exact Hk0 | lra | lra | lra ].
Qed.

(** C6, amended.  In the first notebook, on a dataset that is not empty,
    the retention figure is [round(optimized_f1 / vanilla_f1, 2) * 100],
    computed on floats and written with two decimals (the division raises
    when the vanilla F1 is zero).  For a quotient between 0 and a million
    the figure is written as a whole number of percent, and every quotient
    from 0.995 up to, not including, 1.005 is written 100.00; the quotient
    is the float the division gives, not the exact ratio of the scores. *)
Theorem retention_figure :
  (forall (W : Type) (h : handler W) (vanilla_qa optimized_qa metric : ref) (ds : Dataset) (w : W),
      ds <> [] ->
      let '(r, _, t) := run h (Notebook1.evaluation_cell vanilla_qa optimized_qa metric ds) w in
      exists vanilla optimised : MetricResult,
        computed_scores t = [vanilla; optimised] /\
        if Qeq_bool (f1 vanilla) 0 then r = Raised Py.ZeroDivisionError
        else r = Returned tt /\
             last (printed_lines t) [] =
               [Py.Lit "The optimized model achieves ";
                Py.Fixed 2 (Py.fmul (Py.round (Py.float (f1 optimised / f1 vanilla)) 2) 100);
                Py.Lit "% accuracy of the fp32 model"]) /\
  (forall quotient : Q,
      0 <= quotient -> quotient <= 1000000 ->
      exists k : Z,
        (0 <= k)%Z /\
        Py.format_fixed 2 (Py.fmul (Py.round quotient 2) 100) =
          (Py.digits k ++ ".00")%string) /\
  (forall quotient : Q,
      0.995 <= quotient -> quotient < 1.005 ->
      Py.format_fixed 2 (Py.fmul (Py.round quotient 2) 100) = "100.00"%string).
Proof.
  split; [ | split ].
  - intros W h vanilla_qa optimized_qa metric ds w _.
    pose proof (report_evaluation_cell h vanilla_qa optimized_qa metric ds w) as H.
    destruct (run h _ w) as [[r w'] t]. cbn [fst snd] in H.
    destruct H as (vanilla & optimised & [(Hz & Hr & Ho) | (Hz & Hr & Ho)]);
      exists vanilla, optimised; unfold computed_scores, printed_lines, reports;
      rewrite Ho, Hz; auto.
  - intros quotient Hlo Hhi. exists (Py.round_half_even (quotient * 100)).
    now apply figure_text.
  - intros quotient Hlo Hhi.
    assert (Py.round_half_even (quotient * inject_Z (Py.pow10 2)) = 100%Z) as Hr.
    { change (inject_Z (Py.pow10 2)) with 100. apply round_half_even_100; lra. }
    unfold Py.round. rewrite Hr. vm_compute. reflexivity.
Qed.

(** A quotient of exactly one is written 100.00. *)
Lemma retention_figure_witness :
  Py.format_fixed 2 (Py.fmul (Py.round 1 2) 100) = "100.00"%string.
Proof.
  refine (proj2 (proj2 retention_figure) 1 _ _).
  - discriminate.
  - reflexivity.
Defined.

(** C6 as stated fails at the lower end of its interval: for an optimized
    F1 of 99.5 and a vanilla F1 of 100.0 the ratio of the scores is 0.995,
    but the float the division gives lies just below it, and the cell
    writes 99.00. *)
Lemma exact_ratio_0_995_is_written_99 :
  0.995 <= 99.5 / 100 /\
  99.5 / 100 < 1.005 /\
  (let t := snd (run (Sim.scored_in_turn Sim.gpu_machine
                                          {| exact := 80; f1 := 100 |}
                                          {| exact := 80; f1 := 99.5 |})
                     (Notebook1.evaluation_cell 1%nat 2%nat 3%nat (Sim.examples 1))
                     0%nat) in
   map f1 (computed_scores t) = [100; 99.5] /\
   Py.text (last (printed_lines t) []) =
     Some "The optimized model achieves 99.00% accuracy of the fp32 model"%string).
Proof.
  split; [ discriminate | split; [ reflexivity | ] ].
  cbv zeta. split; vm_compute; reflexivity.
Qed.

(** The first notebook's recorded scores give the line its output shows. *)
Lemma retention_recorded_first_notebook :
  Py.text (retention_line_1 {| exact := 0; f1 := 86.84859514665654 |}
                            {| exact := 0; f1 := 86.8536859246896 |}) =
  Some "The optimized model achieves 100.00% accuracy of the fp32 model"%string.
Proof. vm_compute. reflexivity. Qed.

(** ** Files *)

(** Cells whose calls can be followed one by one. *)
Create HintDb cells.
#[local] Hint Unfold
  Notebook1.install_cell Notebook1.export_cell Notebook1.pipeline_cell
  Notebook1.optimize_cell Notebook1.reload_cell Notebook1.trfs_cell
  Notebook1.dataset_cell Notebook1.evaluate
  Notebook2.install_cell Notebook2.export_cell Notebook2.payload_cell
  Notebook2.pipeline_cell Notebook2.optimize_cell Notebook2.reload_cell
  Notebook2.quantize_cell Notebook2.size_cell Notebook2.reload_again_cell
  Notebook2.dataset_cell Notebook2.evaluate : cells.

Ltac straight :=
  autounfold with cells; cbn [bind trigger];
  repeat (apply yields_vis; intros ?);
  apply yields_ret; cbn;
  split; [ eexists; reflexivity | reflexivity ].

(** One more cell of a notebook: what is observed of it is computed. *)
Tactic Notation "next_cell" "as" simple_intropattern(p) :=
  eapply yields_after; [ straight | intros p ].

Section Files.

Variable W : Type.
Variable h : handler W.
Variable np : numpy.

Lemma files_measure_latency_1 (pipe : ref) :
  returns h file_event_of (Notebook1.measure_latency np pipe) [].
Proof.
  intros w. rewrite run_measure_latency_1.
  destruct (benchmark_run_shape h np (qa_call pipe question context) w)
    as (answers & rounds & _ & _ & Ht & Hres).
  rewrite Ht, Hres. split; [ eexists; reflexivity | ].
  apply quiet_benchmark_trace; reflexivity.
Qed.

Lemma files_measure_latency_2 (pipe : ref) :
  returns h file_event_of (Notebook2.measure_latency np pipe) [].
Proof.
  intros w. rewrite run_measure_latency_2.
  destruct (benchmark_run_shape h np (text_call pipe Notebook2.payload) w)
    as (answers & rounds & _ & _ & Ht & Hres).
  rewrite Ht, Hres. split; [ eexists; reflexivity | ].
  apply quiet_benchmark_trace; reflexivity.
Qed.

Lemma files_setup_cell :
  yields h file_event_of Notebook1.setup_cell
         (fun r o => o = [] /\ (r = Returned tt \/ exists msg, r = Raised (Py.AssertionError msg))).
Proof.
  unfold Notebook1.setup_cell. cbn [bind trigger].
  apply yields_vis. intros providers.
  destruct (Py.str_in "CUDAExecutionProvider" providers); cbn [py_assert bind];
    [ | apply yields_raise; cbn; eauto ].
  apply yields_vis. intros device.
  destruct (String.eqb "GPU" device); cbn [py_assert bind];
    [ | apply yields_raise; cbn; eauto ].
  apply yields_vis. intros version.
  destruct (Py.str_gt version "1.11.1"); cbn [py_assert];
    [ apply yields_ret | apply yields_raise ]; cbn; eauto.
Qed.

Lemma files_evaluation_cell (vanilla_qa optimized_qa metric : ref) (ds : Dataset) :
  yields h file_event_of (Notebook1.evaluation_cell vanilla_qa optimized_qa metric ds)
         (fun r o => o = [] /\ (r = Returned tt \/ r = Raised Py.ZeroDivisionError)).
Proof.
  unfold Notebook1.evaluation_cell.
  apply yields_after with (obs := @nil FileEvent).
  - rewrite <- (repeat_list_nil FileEvent (List.length ds)). apply returns_Dataset_map.
    intros example. straight.
  - intros result. cbn [bind trigger].
    apply yields_vis. intros vanilla. apply yields_vis. intros optimised.
    apply yields_vis. intros []. apply yields_vis. intros [].
    unfold Py.truediv. destruct (Qeq_bool (f1 vanilla) 0); cbn [lift bind].
    + apply yields_raise. cbn. auto.
    + apply yields_vis. intros []. apply yields_ret. cbn. auto.
Qed.

Lemma files_notebook_1 : yields h file_event_of (Notebook1.notebook np) first_notebook_files.
Proof.
  unfold Notebook1.notebook.
  next_cell as _.
  apply yields_bind with (1 := files_setup_cell).
  2: { intros e o1 [-> [Hr | [msg Hr]]]; [ discriminate Hr | ].
       injection Hr as ->. reflexivity. }
  intros _ o1 [-> _].
  next_cell as [model tokenizer].
  next_cell as vanilla_qa.
  next_cell as _.
  next_cell as optimized_qa.
  next_cell as trfs_qa.
  next_cell as [metric eval_dataset].
  apply yields_bind
    with (1 := files_evaluation_cell vanilla_qa optimized_qa metric eval_dataset).
  2: { intros e o1 [-> [Hr | Hr]]; [ discriminate Hr | ].
       injection Hr as ->. reflexivity. }
  intros _ o1 [-> _].
  unfold Notebook1.benchmark_cell.
  apply yields_after with (1 := files_measure_latency_1 vanilla_qa). intros vanilla_model.
  apply yields_after with (1 := files_measure_latency_1 optimized_qa). intros optimized_model.
  cbn [bind trigger]. repeat (apply yields_vis; intros ?). apply yields_ret.
  reflexivity.
Qed.

End Files.

Section Files2.

Variable W : Type.
Variable h : handler W.
Variable np : numpy.
Variables (text task : string) (optimum_qa opt_optimum_qa clx : ref).
Variable quantized : MetricResult.
Variable results_accuracy : Q.

Lemma files_metrics_cell (metric : ref) (result : list EvalRecord) :
  returns h file_event_of (Notebook2.metrics_cell quantized results_accuracy metric result) [].
Proof.
  unfold Notebook2.metrics_cell. cbn [bind trigger].
  do 7 (apply yields_vis; intros ?).
  rewrite truediv_by_literal.
  cbn [lift bind]. follow_calls.
Qed.

Lemma files_notebook_2 :
  returns h file_event_of
          (Notebook2.notebook text task optimum_qa opt_optimum_qa clx quantized results_accuracy np)
          [LibraryWrites "onnx"; LibraryWrites "onnx";
           LibraryWrites "onnx/model-optimized.onnx";
           LibraryWrites "onnx/model-quantized.onnx";
           ReadsSize "onnx/model-optimized.onnx";
           ReadsSize "onnx/model-quantized.onnx"].
Proof.
  unfold Notebook2.notebook.
  next_cell as _.
  next_cell as [model tokenizer].
  next_cell as inputs.
  next_cell as vanilla_qa.
  next_cell as _.
  next_cell as [model' optimized_qa].
  next_cell as model_quantized_path.
  next_cell as _.
  next_cell as [tokenizer' optimized_qa'].
  next_cell as [metric eval_dataset].
  apply yields_after with (obs := @nil FileEvent).
  { unfold Notebook2.evaluate_cell.
    rewrite <- (repeat_list_nil FileEvent (List.length eval_dataset)).
    apply returns_Dataset_map. intros example. straight. }
  intros result.
  apply yields_after with (1 := files_metrics_cell metric result). intros _.
  unfold Notebook2.benchmark_cell. cbn [bind trigger].
  apply yields_vis. intros input_ids. apply yields_vis. intros [].
  apply yields_vis. intros vanilla_clx.
  apply yields_after with (1 := files_measure_latency_2 h np vanilla_clx). intros vanilla_model.
  apply yields_after with (1 := files_measure_latency_2 h np clx). intros quantized_model.
  cbn [bind trigger]. repeat (apply yields_vis; intros ?). apply yields_ret.
  split; [ eexists; reflexivity | reflexivity ].
Qed.

End Files2.

(** C10. In every run, the files on disk are written inside library calls
    only ([save_pretrained], [optimizer.export], [dynamic_quantizer.export]):
    the first notebook's run has no file access of its own, and the second
    notebook's only own accesses are the two [os.path.getsize] reads of the
    optimised and the quantised model. *)
Theorem files_written_by_libraries_only :
  forall (W : Type) (h : handler W) (np : numpy)
         (text task : string) (optimum_qa opt_optimum_qa clx : ref)
         (quantized : MetricResult) (results_accuracy : Q) (w : W),
    (let '(r, _, t) := run h (Notebook1.notebook np) w in
     match r with
     | Raised (Py.AssertionError _) => file_events t = []
     | _ => file_events t = [LibraryWrites "onnx"; LibraryWrites "onnx";
                             LibraryWrites "onnx/model-optimized.onnx"]
     end) /\
    (let '(r, _, t) :=
       run h (Notebook2.notebook text task optimum_qa opt_optimum_qa clx
                                 quantized results_accuracy np) w in
     file_events t = [LibraryWrites "onnx"; LibraryWrites "onnx";
                      LibraryWrites "onnx/model-optimized.onnx";
                      LibraryWrites "onnx/model-quantized.onnx";
                      ReadsSize "onnx/model-optimized.onnx";
                      ReadsSize "onnx/model-quantized.onnx"]).
Proof.
  intros W h np text task optimum_qa opt_optimum_qa clx quantized results_accuracy w. split.
  - pose proof (files_notebook_1 h np w) as H.
    destruct (run h (Notebook1.notebook np) w) as [[r w'] t]. exact H.
  - pose proof (files_notebook_2 h np text task optimum_qa opt_optimum_qa clx
                                 quantized results_accuracy w) as H.
    destruct (run h _ w) as [[r w'] t]. apply H.
Qed.

(** ** Requests *)

Section Always.

Variable W : Type.
Variable h : handler W.
Variable O : Type.
Variable f : entry -> option O.
Variable Inv : O -> Prop.

Lemma always_ret (A : Type) (a : A) : always h f Inv (Ret a).
Proof. apply yields_ret. constructor. Qed.

Lemma always_raise (A : Type) (e : Py.exn) : always h f Inv (@Raise A e).
Proof. apply yields_raise. constructor. Qed.

Lemma always_vis (A X : Type) (c : extE X) (k : X -> Prog A) :
  (forall x, Forall Inv (filter_map f [Called c x])) ->
  (forall x, always h f Inv (k x)) ->
  always h f Inv (Vis c k).
Proof.
  intros Hc Hk. apply yields_vis. intros x. apply yields_weaken with (1 := Hk x).
  intros r o Ho. apply Forall_app. split; [ apply Hc | exact Ho ].
Qed.

Lemma always_bind (A B : Type) (m : Prog A) (k : A -> Prog B) :
  always h f Inv m -> (forall a, always h f Inv (k a)) -> always h f Inv (bind m k).
Proof.
  intros Hm Hk. apply yields_bind with (1 := Hm).
  - intros a o1 Ho1. apply yields_weaken with (1 := Hk a).
    intros r o2 Ho2. apply Forall_app. now split.
  - intros e o1 Ho1. exact Ho1.
Qed.

Lemma always_for_range (St : Type) (body : St -> Prog St) (n : nat) (s : St) :
  (forall s', always h f Inv (body s')) -> always h f Inv (for_range n body s).
Proof.
  intros Hb. revert s. induction n as [| n IH]; intros s; cbn [for_range].
  - apply always_ret.
  - apply always_bind; [ apply Hb | apply IH ].
Qed.

Lemma always_Dataset_map (A B : Type) (g : A -> Prog B) (ds : list A) :
  (forall a, always h f Inv (g a)) -> always h f Inv (Dataset_map g ds).
Proof.
  intros Hg. induction ds as [| a ds IH]; cbn [Dataset_map].
  - apply always_ret.
  - apply always_bind; [ apply Hg | ]. intros y.
    apply always_bind; [ exact IH | ]. intros ys. apply always_ret.
Qed.

End Always.

Ltac always_step :=
  match goal with
  | |- always _ _ _ (Ret _) => apply always_ret
  | |- always _ _ _ (Raise _) => apply always_raise
  | |- always _ _ _ (Vis _ _) =>
      apply always_vis;
      [ intros ?; cbn; repeat (first [ apply Forall_nil | apply Forall_cons ]);
        unfold qa_only; cbn; auto
      | intros ? ]
  | |- always _ _ _ (bind (py_assert ?b _) _) => destruct b; cbn [py_assert bind]
  | |- always _ _ _ (py_assert ?b _) => destruct b; cbn [py_assert]
  | |- always _ _ _ (bind (lift (Py.truediv _ ?b)) _) =>
      unfold Py.truediv; destruct (Qeq_bool b 0); cbn [lift bind]
  end.

Ltac always_straight :=
  autounfold with cells; unfold trigger; cbn [bind]; repeat always_step.

Section Requests.

Variable W : Type.
Variable h : handler W.
Variable np : numpy.

Lemma requests_measure_latency_1 (pipe : ref) :
  always h request_of qa_only (Notebook1.measure_latency np pipe).
Proof.
  unfold Notebook1.measure_latency.
  apply always_bind.
  - apply always_for_range. intros []. always_straight.
  - intros _. apply always_bind.
    + apply always_for_range. intros latencies. always_straight.
    + intros latencies. apply always_ret.
Qed.

Lemma requests_notebook_1 : always h request_of qa_only (Notebook1.notebook np).
Proof.
  unfold Notebook1.notebook.
  apply always_bind; [ always_straight | intros _ ].
  apply always_bind; [ unfold Notebook1.setup_cell; always_straight | intros _ ].
  apply always_bind; [ always_straight | intros [model tokenizer] ].
  apply always_bind; [ always_straight | intros vanilla_qa ].
  apply always_bind; [ always_straight | intros _ ].
  apply always_bind; [ always_straight | intros optimized_qa ].
  apply always_bind; [ always_straight | intros trfs_qa ].
  apply always_bind; [ always_straight | intros [metric eval_dataset] ].
  apply always_bind.
  { unfold Notebook1.evaluation_cell. apply always_bind.
    - apply always_Dataset_map. intros example. always_straight.
    - intros result. always_straight. }
  intros _. unfold Notebook1.benchmark_cell.
  apply always_bind; [ apply requests_measure_latency_1 | intros vanilla_model ].
  apply always_bind; [ apply requests_measure_latency_1 | intros optimized_model ].
  always_straight.
Qed.

Lemma requests_measure_latency_2 (pipe : ref) :
  returns h request_of (Notebook2.measure_latency np pipe)
          (repeat_list 310 [TextRequest Notebook2.payload]).
Proof.
  unfold Notebook2.measure_latency.
  change (repeat_list 310 [TextRequest Notebook2.payload])
    with (repeat_list 10 [TextRequest Notebook2.payload] ++
          (repeat_list 300 [TextRequest Notebook2.payload] ++ [])).
  apply returns_bind.
  - apply returns_for_range. intros []. cbn [bind trigger]. follow_calls.
  - intros _. apply returns_bind.
    + apply returns_for_range. intros latencies. cbn [bind trigger]. follow_calls.
    + intros latencies. apply returns_ret.
Qed.

Lemma requests_benchmark_cell_2 (clx tokenizer : ref) :
  returns h request_of (Notebook2.benchmark_cell clx np tokenizer)
          (repeat_list 620 [TextRequest Notebook2.payload]).
Proof.
  unfold Notebook2.benchmark_cell. cbn [bind trigger].
  apply yields_vis. intros input_ids. apply yields_vis. intros [].
  apply yields_vis. intros vanilla_clx.
  apply yields_after with (1 := requests_measure_latency_2 vanilla_clx). intros vanilla_model.
  apply yields_after with (1 := requests_measure_latency_2 clx). intros quantized_model.
  cbn [bind trigger]. repeat (apply yields_vis; intros ?). apply yields_ret.
  split; [ eexists; reflexivity | ].
  change (repeat_list 620 [TextRequest Notebook2.payload])
    with (repeat_list 310 [TextRequest Notebook2.payload] ++
          repeat_list 310 [TextRequest Notebook2.payload]).
  cbn [filter_map request_of app]. now rewrite !app_nil_r.
Qed.

Lemma example_requests_qa_only (ds : Dataset) :
  Forall qa_only (flat_map example_requests ds).
Proof.
  induction ds as [| example ds IH]; cbn [flat_map example_requests app].
  - constructor.
  - constructor; [ reflexivity | ]. constructor; [ reflexivity | exact IH ].
Qed.

(** The requests of the second notebook, cell by cell. *)
Lemma requests_notebook_2_split (text task : string) (optimum_qa opt_optimum_qa clx : ref)
      (quantized : MetricResult) (results_accuracy : Q) :
  yields h request_of
         (Notebook2.notebook text task optimum_qa opt_optimum_qa clx quantized
                             results_accuracy np)
         (fun _ o => exists ds : Dataset,
                       o = QARequest question context :: QARequest question context ::
                           QARequest question context :: flat_map example_requests ds ++
                           repeat_list 620 [TextRequest Notebook2.payload]).
Proof.
  unfold Notebook2.notebook.
  next_cell as _.
  next_cell as [model tokenizer].
  next_cell as inputs.
  next_cell as vanilla_qa.
  next_cell as _.
  next_cell as [model' optimized_qa].
  next_cell as model_quantized_path.
  next_cell as _.
  next_cell as [tokenizer' optimized_qa'].
  next_cell as [metric eval_dataset].
  apply yields_after with (obs := flat_map example_requests eval_dataset).
  { unfold Notebook2.evaluate_cell. apply returns_Dataset_map_each. intros example. straight. }
  intros result.
  apply yields_after with (obs := @nil Request).
  { unfold Notebook2.metrics_cell. cbn [bind trigger].
    do 7 (apply yields_vis; intros ?).
    rewrite truediv_by_literal.
    cbn [lift bind]. follow_calls. }
  intros _.
  apply yields_weaken with (1 := requests_benchmark_cell_2 clx tokenizer').
  intros r o [_ ->]. exists eval_dataset. reflexivity.
Qed.

End Requests.

(** A machine whose validation splits have 1001 examples. *)
Lemma long_validation_at_least (name : string) :
  validation_at_least (Sim.handle long_validation) name 1000.
Proof. intros w. vm_compute. lia. Qed.

(** C8, amended.  Every request of the first notebook carries a question
    and a context.  So does, on a machine whose validation split of
    [squad_v2] has at least 1000 examples, every request of the second
    notebook before its benchmark cell: three sanity calls on the fixed
    question and context,
    and then the calls of [evaluate], in pairs on one question and context
    each.  Its benchmark cell sends one text and no question or context:
    each run of [measure_latency] sends the payload 310 times, and the cell
    runs it twice.  A question-answering response is a record of score,
    start, end and answer, and [evaluate] uses nothing of it but the
    answer: its record is a function of the example and the two answer
    strings. *)
Theorem requests_carry_question_and_context :
  (forall (W : Type) (h : handler W) (np : numpy) (w : W),
      Forall qa_only (requests (snd (run h (Notebook1.notebook np) w)))) /\
  (forall (W : Type) (h : handler W) (np : numpy)
          (text task : string) (optimum_qa opt_optimum_qa clx : ref)
          (quantized : MetricResult) (results_accuracy : Q) (w : W),
      validation_at_least h "squad_v2" 1000 ->
      exists before : list Request,
        requests (snd (run h (Notebook2.notebook text task optimum_qa opt_optimum_qa clx
                                                 quantized results_accuracy np) w)) =
          before ++ repeat_list 620 [TextRequest Notebook2.payload] /\
        Forall qa_only before /\
        exists ds : Dataset,
          before = QARequest question context :: QARequest question context ::
                   QARequest question context :: flat_map example_requests ds) /\
  (forall (W : Type) (h : handler W) (np : numpy) (pipe : ref) (w : W),
      requests (snd (run h (Notebook2.measure_latency np pipe) w)) =
      repeat_list 310 [TextRequest Notebook2.payload]) /\
  (forall (W : Type) (h : handler W) (np : numpy) (clx tokenizer : ref) (w : W),
      requests (snd (run h (Notebook2.benchmark_cell clx np tokenizer) w)) =
      repeat_list 620 [TextRequest Notebook2.payload]) /\
  (exists build : Example -> string -> string -> EvalRecord,
      forall (first second : ref) (example : Example),
        Notebook1.evaluate first second example =
        (d <- trigger (qa_call first (ex_question example) (ex_context example)) ;;
         o <- trigger (qa_call second (ex_question example) (ex_context example)) ;;
         Ret (build example (answer d) (answer o)))%prog) /\
  (exists build : Example -> string -> string -> EvalRecord,
      forall (first second : ref) (example : Example),
        Notebook2.evaluate first second example =
        (d <- trigger (qa_call first (ex_question example) (ex_context example)) ;;
         o <- trigger (qa_call second (ex_question example) (ex_context example)) ;;
         Ret (build example (answer d) (answer o)))%prog).
Proof.
  split; [ | split; [ | split; [ | split; [ | split ] ] ] ].
  - intros W h np w. exact (requests_notebook_1 h np w).
  - intros W h np text task optimum_qa opt_optimum_qa clx quantized results_accuracy w _.
    destruct (requests_notebook_2_split h np text task optimum_qa opt_optimum_qa clx
                                        quantized results_accuracy w) as [ds Hds].
    exists (QARequest question context :: QARequest question context ::
            QARequest question context :: flat_map example_requests ds).
    split; [ exact Hds | split; [ | now exists ds ] ].
    repeat (constructor; [ reflexivity | ]). apply example_requests_qa_only.
  - intros W h np pipe w.
    exact (proj2 (requests_measure_latency_2 h np pipe w)).
  - intros W h np clx tokenizer w.
    exact (proj2 (requests_benchmark_cell_2 h np clx tokenizer w)).
  - exists (fun example a b => eval_record None (example, {| score := 0; start := 0; end_ := 0; answer := a |},
                                                {| score := 0; start := 0; end_ := 0; answer := b |})).
    intros first second example. reflexivity.
  - exists (fun example a b => eval_record (Some 0) (example, {| score := 0; start := 0; end_ := 0; answer := a |},
                                                    {| score := 0; start := 0; end_ := 0; answer := b |})).
    intros first second example. reflexivity.
Qed.

Lemma requests_carry_question_and_context_witness :
  exists before : list Request,
    requests (snd (run (Sim.handle long_validation)
                       (Notebook2.notebook "text" "question-answering" 100%nat 101%nat 102%nat
                                           (Sim.scores Sim.gpu_machine) 0.9224025974025974
                                           Sim.np_stub) 0%nat)) =
      before ++ repeat_list 620 [TextRequest Notebook2.payload] /\
    Forall qa_only before /\
    exists ds : Dataset,
      before = QARequest question context :: QARequest question context ::
               QARequest question context :: flat_map example_requests ds.
Proof.
  apply (proj1 (proj2 requests_carry_question_and_context)).
  apply long_validation_at_least.
Defined.

(** C8 as stated fails: the second notebook's benchmark sends requests
    that carry one text and no question or context. *)
Lemma second_notebook_sends_text_requests :
  filter (fun r => negb (is_qa_request r))
         (requests (snd (run (Sim.handle long_validation) second_notebook_example 0%nat))) =
  repeat (TextRequest Notebook2.payload) 620.
Proof. vm_compute. reflexivity. Qed.

(** C4, amended.  The evaluation step applies [evaluate] to every example
    of [eval_dataset], in order, through [map]: that is the whole validation
    split in the first notebook and its first 1000 examples in the second.
    Each example gives one record with its reference, default and optimized
    entries, and the metric is then computed by two [metric.compute] calls,
    one per model, over the collected predictions and references. *)
Theorem evaluation_maps_and_aggregates :
  forall (W : Type) (h : handler W) (w : W),
    (exists (metric : ref) (splits : DatasetDict),
        fst (fst (run h Notebook1.dataset_cell w)) = Returned (metric, validation splits) /\
        In (Called (load_dataset "squad") splits) (snd (run h Notebook1.dataset_cell w))) /\
    (forall (vanilla_qa optimized_qa metric : ref) (ds : Dataset),
        exists (rounds : list eval_round) (m_default m_optimized : MetricResult) (prints : trace),
          map round_example rounds = ds /\
          snd (run h (Notebook1.evaluation_cell vanilla_qa optimized_qa metric ds) w) =
            flat_map (eval_round_trace vanilla_qa optimized_qa) rounds ++
            Called (metric_compute metric
                      (map default (map (eval_record None) rounds))
                      (map reference (map (eval_record None) rounds))) m_default ::
            Called (metric_compute metric
                      (map optimized (map (eval_record None) rounds))
                      (map reference (map (eval_record None) rounds))) m_optimized ::
            prints /\
          computed_scores prints = []) /\
    (exists (metric : ref) (splits : DatasetDict),
        fst (fst (run h Notebook2.dataset_cell w)) =
          Returned (metric, firstn 1000 (validation splits)) /\
        In (Called (load_dataset "squad_v2") splits) (snd (run h Notebook2.dataset_cell w))) /\
    (forall (optimum_qa opt_optimum_qa : ref) (ds : Dataset),
        exists rounds : list eval_round,
          map round_example rounds = ds /\
          fst (fst (run h (Notebook2.evaluate_cell optimum_qa opt_optimum_qa ds) w)) =
            Returned (map (eval_record (Some 0)) rounds) /\
          snd (run h (Notebook2.evaluate_cell optimum_qa opt_optimum_qa ds) w) =
            flat_map (eval_round_trace optimum_qa opt_optimum_qa) rounds) /\
    (forall (quantized : MetricResult) (results_accuracy : Q) (metric : ref)
            (result : list EvalRecord),
        exists (m_default m_optimized : MetricResult) (prints : trace),
          snd (run h (Notebook2.metrics_cell quantized results_accuracy metric result) w) =
            Called (metric_compute metric (map default result) (map reference result))
                   m_default ::
            Called (metric_compute metric (map optimized result) (map reference result))
                   m_optimized ::
            prints /\
          computed_scores prints = []).
Proof.
  intros W h w. split; [ | split; [ | split; [ | split ] ] ].
  - unfold Notebook1.dataset_cell. cbn [bind trigger run].
    destruct (h _ (load_metric "squad_v2") w) as [m0 w1].
    destruct (h _ (load_metric "squad") w1) as [metric w2].
    destruct (h _ (load_dataset "squad") w2) as [splits w3].
    exists metric, splits. split; [ reflexivity | ]. cbn. auto.
  - intros vanilla_qa optimized_qa metric ds.
    unfold Notebook1.evaluation_cell. rewrite run_bind, run_map_evaluate_1.
    pose proof (evaluation_rounds_examples h vanilla_qa optimized_qa ds w) as Hex.
    destruct (evaluation_rounds h vanilla_qa optimized_qa ds w) as [rounds w1].
    cbn [fst snd] in Hex |- *. cbn [bind trigger run].
    destruct (h _ (metric_compute metric _ _) w1) as [m_default w2].
    destruct (h _ (metric_compute metric _ _) w2) as [m_optimized w3].
    destruct (h _ (print _) w3) as [[] w4].
    destruct (h _ (print _) w4) as [[] w5].
    exists rounds, m_default, m_optimized.
    unfold Py.truediv. destruct (Qeq_bool (f1 m_default) 0); cbn [lift bind trigger run].
    + eexists. split; [ exact Hex | split; reflexivity ].
    + destruct (h _ (print _) w5) as [[] w6].
      eexists. split; [ exact Hex | split; reflexivity ].
  - unfold Notebook2.dataset_cell, Dataset_select_range. cbn [bind trigger run].
    destruct (h _ (load_metric "squad_v2") w) as [metric w1].
    destruct (h _ (load_dataset "squad_v2") w1) as [splits w2].
    exists metric, splits. split; [ reflexivity | ]. cbn. auto.
  - intros optimum_qa opt_optimum_qa ds.
    unfold Notebook2.evaluate_cell. rewrite run_map_evaluate_2.
    pose proof (evaluation_rounds_examples h optimum_qa opt_optimum_qa ds w) as Hex.
    destruct (evaluation_rounds h optimum_qa opt_optimum_qa ds w) as [rounds w1].
    exists rounds. cbn [fst snd] in *. auto.
  - intros quantized results_accuracy metric result.
    unfold Notebook2.metrics_cell. cbn [bind trigger run].
    destruct (h _ (metric_compute metric _ _) w) as [m_default w1].
    destruct (h _ (metric_compute metric _ _) w1) as [m_optimized w2].
    exists m_default, m_optimized.
    destruct (h _ (print _) w2) as [[] w3].
    destruct (h _ (print _) w3) as [[] w4].
    destruct (h _ (print _) w4) as [[] w5].
    destruct (h _ (print _) w5) as [[] w6].
    destruct (h _ (print _) w6) as [[] w7].
    rewrite truediv_by_literal.
    cbn [lift bind trigger run].
    destruct (h _ (print _) w7) as [[] w8].
    eexists. split; reflexivity.
Qed.

(** C4 as stated fails: of a validation split of 1001 examples, the second
    notebook evaluates 1000, and the last one is never put to the
    pipeline. *)
Lemma last_example_not_evaluated :
  List.length (validation (Sim.splits long_validation)) = 1001%nat /\
  List.length (questions_put_to 100%nat
                 (snd (run (Sim.handle long_validation) second_notebook_example 0%nat))) =
    1000%nat /\
  existsb (String.eqb (ex_question (Sim.example_number 1000)))
          (questions_put_to 100%nat
             (snd (run (Sim.handle long_validation) second_notebook_example 0%nat))) = false.
Proof. split; [ | split ]; vm_compute; reflexivity. Qed.

(** * Further properties of the cells *)

(** ** The setup cell, call by call *)

(** X1. The setup cell asks for the providers, the device and the version
    in that order and stops at the first assertion that fails: without the
    CUDA provider it raises with the provider message and asks for nothing
    more; with a device other than "GPU" it raises with no message and does
    not read the version; with a version not above "1.11.1" it raises with
    the version message.  A cell that returns has made the three calls and
    nothing else. *)
Theorem setup_cell_stops_at_first_failure :
  forall (W : Type) (h : handler W) (w : W),
    let (providers, w1) := h _ get_available_providers w in
    let (device, w2) := h _ get_device w1 in
    let (version, w3) := h _ onnxruntime_version w2 in
    run h Notebook1.setup_cell w =
    if Py.str_in "CUDAExecutionProvider" providers then
      if String.eqb "GPU" device then
        (if Py.str_gt version "1.11.1" then Returned tt
         else Raised (Py.AssertionError
                        (Some "you need a newer version of ONNX Runtime"%string)),
         w3,
         [Called get_available_providers providers; Called get_device device;
          Called onnxruntime_version version])
      else (Raised (Py.AssertionError None), w2,
            [Called get_available_providers providers; Called get_device device])
    else (Raised (Py.AssertionError
                    (Some "ONNX Runtime GPU provider not found. Make sure onnxruntime-gpu is installed and onnxruntime is uninstalled."%string)),
          w1, [Called get_available_providers providers]).
Proof.
  intros W h w. unfold Notebook1.setup_cell. cbn [bind trigger run].
  destruct (h _ get_available_providers w) as [providers w1].
  destruct (h _ get_device w1) as [device w2] eqn:Hdev.
  destruct (h _ onnxruntime_version w2) as [version w3] eqn:Hver.
  destruct (Py.str_in "CUDAExecutionProvider" providers); cbn [py_assert bind run];
    [ | reflexivity ].
  rewrite Hdev.
  destruct (String.eqb "GPU" device); cbn [py_assert bind run]; [ | reflexivity ].
  rewrite Hver.
  destruct (Py.str_gt version "1.11.1"); reflexivity.
Qed.

(** The version test, character by character. *)
Lemma str_gt_extension (s : string) :
  Py.str_gt ("1.11.1" ++ s) "1.11.1" = negb (String.eqb s "").
Proof. destruct s; reflexivity. Qed.

Lemma str_gt_one_digit_minor (d : ascii) (s : string) :
  In d ["2"; "3"; "4"; "5"; "6"; "7"; "8"; "9"]%char ->
  Py.str_gt ("1." ++ String d s) "1.11.1" = true.
Proof.
  intros Hd. cbn in Hd.
  repeat (destruct Hd as [<- | Hd]; [ reflexivity | ]). contradiction.
Qed.

Lemma str_gt_1_10 (s : string) : Py.str_gt ("1.10" ++ s) "1.11.1" = false.
Proof. reflexivity. Qed.

(** X2. On a machine with the CUDA provider and the device "GPU", the
    setup cell decides on the characters of the version string: it returns
    for every string that extends "1.11.1" and for every string "1.d..."
    with a single digit d from 2 to 9 before the rest (1.2 to 1.9, all
    older than 1.11.1); it raises for "1.11.1" itself and for every string
    that begins with "1.10", which includes 1.100 and later. *)
Theorem setup_cell_reads_version_as_text :
  forall (W : Type) (h : handler W) (w : W) (s : string),
    In "CUDAExecutionProvider"%string (fst (h _ get_available_providers w)) ->
    fst (h _ get_device (snd (h _ get_available_providers w))) = "GPU"%string ->
    let version :=
      fst (h _ onnxruntime_version
             (snd (h _ get_device (snd (h _ get_available_providers w))))) in
    let r := fst (fst (run h Notebook1.setup_cell w)) in
    (s <> ""%string -> version = ("1.11.1" ++ s)%string -> r = Returned tt) /\
    (forall d : ascii,
        In d ["2"; "3"; "4"; "5"; "6"; "7"; "8"; "9"]%char ->
        version = ("1." ++ String d s)%string -> r = Returned tt) /\
    (version = "1.11.1"%string \/ version = ("1.10" ++ s)%string ->
     r = Raised (Py.AssertionError (Some "you need a newer version of ONNX Runtime"%string))).
Proof.
  intros W h w s Hprov Hdev. cbv zeta. rewrite run_setup_cell.
  destruct (h _ get_available_providers w) as [providers w1]. cbn [fst snd] in *.
  destruct (h _ get_device w1) as [device w2]. cbn [fst snd] in *. subst device.
  destruct (h _ onnxruntime_version w2) as [version w3]. cbn [fst snd].
  apply str_in_In in Hprov. rewrite Hprov. cbn [String.eqb].
  change (String.eqb "GPU" "GPU") with true. cbv iota.
  split; [ | split ].
  - intros Hs ->. rewrite str_gt_extension.
    destruct s; [ contradiction | reflexivity ].
  - intros d Hd ->. now rewrite str_gt_one_digit_minor.
  - intros [-> | ->]; reflexivity.
Qed.

(** A machine whose ONNX Runtime reports "1.100.0": the cell asks for a
    newer version. *)
Lemma setup_cell_reads_version_as_text_witness :
  fst (fst (run (Sim.handle (Sim.with_version Sim.gpu_machine "1.100.0"))
                Notebook1.setup_cell 0%nat)) =
  Raised (Py.AssertionError (Some "you need a newer version of ONNX Runtime"%string)).
Proof.
  refine (proj2 (proj2 (setup_cell_reads_version_as_text
                          (Sim.handle (Sim.with_version Sim.gpu_machine "1.100.0"))
                          0%nat "0.0" _ _)) _).
  - cbn. auto.
  - reflexivity.
  - right. reflexivity.
Defined.

(** ** Latencies under a clock that never goes back *)

Lemma in_order_from_earlier (lo lo' hi : Q) (l : list Q) :
  lo <= lo' -> in_order lo' l hi -> in_order lo l hi.
Proof.
  intros Hlo. destruct l as [| a l]; cbn [in_order].
  - now apply Qle_trans.
  - intros [Ha Hl]. split; [ now apply Qle_trans with (2 := Ha) | exact Hl ].
Qed.

(** Differences of readings taken in order are not negative. *)
Lemma pair_differences_in_order (l : list Q) :
  (forall lo hi, in_order lo l hi -> Forall (fun d => 0 <= d) (pair_differences l)) /\
  (forall a lo hi, in_order lo (a :: l) hi ->
                   Forall (fun d => 0 <= d) (pair_differences (a :: l))).
Proof.
  induction l as [| b l [IH1 IH2]].
  - split; intros; constructor.
  - split; [ exact (IH2 b) | ].
    intros a lo hi [Ha [Hb Hl]]. cbn [pair_differences].
    constructor; [ | exact (IH1 b hi Hl) ].
    apply (proj1 (Qle_minus_iff a b)). exact Hb.
Qed.

(** Under such a clock the readings of any run are in order, between the
    time it starts and the time it ends. *)
Lemma perf_readings_in_order (W : Type) (h : handler W) (clock : W -> Q) :
  monotone_clock h clock ->
  forall (A : Type) (p : Prog A) (w : W),
    in_order (clock w) (perf_readings (snd (run h p w))) (clock (snd (fst (run h p w)))).
Proof.
  intros [Hstep Hread] A p. induction p as [a | e | X c k IH]; intros w.
  - cbn. apply Qle_refl.
  - cbn. apply Qle_refl.
  - cbn [run]. pose proof (Hstep X c w) as Hc. pose proof (Hread w) as Hr.
    specialize (IH (fst (h X c w)) (snd (h X c w))).
    destruct (h X c w) as [x w1] eqn:Hx. cbn [fst snd] in *.
    destruct (run h (k x) w1) as [[r w2] t]. cbn [fst snd] in *.
    unfold perf_readings in *. cbn [filter_map].
    destruct (perf_reading (Called c x)) as [reading | ] eqn:Hp.
    + assert (clock w <= reading /\ reading <= clock w1) as [Hlo Hhi].
      { destruct c; try discriminate Hp. cbn in Hp. injection Hp as <-.
        rewrite Hx in Hr. exact Hr. }
      cbn [in_order]. split; [ exact Hlo | ].
      now apply in_order_from_earlier with (lo' := clock w1).
    + now apply in_order_from_earlier with (lo' := clock w1).
Qed.

(** The simulated environment's counter is such a clock. *)
Lemma sim_clock_monotone (s : Sim.Scenario) :
  monotone_clock (Sim.handle s) (fun w => inject_Z (Z.of_nat w)).
Proof.
  split.
  - intros X c w. destruct c; cbn [Sim.handle snd];
      rewrite <- Zle_Qle; lia.
  - intros w. cbn [Sim.handle fst snd]. split; rewrite <- Zle_Qle; lia.
Qed.

(** X3. When the clock never goes back, as [perf_counter] promises, the
    sample [measure_latency] records and takes its statistics over, the
    three hundred differences of its paired clock readings, holds no
    negative latency (both notebooks). *)
Theorem latencies_not_negative :
  forall (W : Type) (h : handler W) (clock : W -> Q) (np : numpy) (pipe : ref) (w : W),
    monotone_clock h clock ->
    (let '(r, _, t) := run h (Notebook1.measure_latency np pipe) w in
     r = Returned (run_statistics np (timed_latencies t)) /\
     List.length (timed_latencies t) = 300%nat /\
     Forall (fun latency => 0 <= latency) (timed_latencies t)) /\
    (let '(r, _, t) := run h (Notebook2.measure_latency np pipe) w in
     r = Returned (run_statistics np (timed_latencies t)) /\
     List.length (timed_latencies t) = 300%nat /\
     Forall (fun latency => 0 <= latency) (timed_latencies t)).
Proof.
  intros W h clock np pipe w Hclock. split.
  - pose proof (perf_readings_in_order Hclock (Notebook1.measure_latency np pipe) w) as Hord.
    rewrite run_measure_latency_1 with (np := np) in *.
    pose proof (benchmark_run_statistics h np (qa_call pipe question context) w
                                         (fun _ => eq_refl)) as Hstat.
    destruct (benchmark_run_shape h np (qa_call pipe question context) w)
      as (answers & rounds & _ & Hrounds & Ht & _).
    destruct (benchmark_run h np (qa_call pipe question context) w) as [[r w'] t].
    cbn [fst snd] in *. split; [ exact Hstat | split ].
    + rewrite Ht, timed_latencies_benchmark by reflexivity. now rewrite length_map.
    + exact (proj1 (pair_differences_in_order _) _ _ Hord).
  - pose proof (perf_readings_in_order Hclock (Notebook2.measure_latency np pipe) w) as Hord.
    rewrite run_measure_latency_2 with (np := np) in *.
    pose proof (benchmark_run_statistics h np (text_call pipe Notebook2.payload) w
                                         (fun _ => eq_refl)) as Hstat.
    destruct (benchmark_run_shape h np (text_call pipe Notebook2.payload) w)
      as (answers & rounds & _ & Hrounds & Ht & _).
    destruct (benchmark_run h np (text_call pipe Notebook2.payload) w) as [[r w'] t].
    cbn [fst snd] in *. split; [ exact Hstat | split ].
    + rewrite Ht, timed_latencies_benchmark by reflexivity. now rewrite length_map.
    + exact (proj1 (pair_differences_in_order _) _ _ Hord).
Qed.

Lemma latencies_not_negative_witness :
  (let '(r, _, t) := run (Sim.handle Sim.gpu_machine)
                         (Notebook1.measure_latency Sim.np_stub 7%nat) 0%nat in
   r = Returned (run_statistics Sim.np_stub (timed_latencies t)) /\
   List.length (timed_latencies t) = 300%nat /\
   Forall (fun latency => 0 <= latency) (timed_latencies t)) /\
  (let '(r, _, t) := run (Sim.handle Sim.gpu_machine)
                         (Notebook2.measure_latency Sim.np_stub 7%nat) 0%nat in
   r = Returned (run_statistics Sim.np_stub (timed_latencies t)) /\
   List.length (timed_latencies t) = 300%nat /\
   Forall (fun latency => 0 <= latency) (timed_latencies t)).
Proof.
  apply latencies_not_negative with (clock := fun w => inject_Z (Z.of_nat w)).
  apply sim_clock_monotone.
Defined.

(** ** How far, and which way, the retention figures round *)

(** X6. For a positive vanilla F1, an optimized F1 that is not negative
    and a quotient of at most a million, the first notebook's retention
    line shows a whole number of percent that is within half a point of a
    hundred times the quotient the float division gives; that quotient is
    the exact ratio of the two scores up to one part in 2^53 (for a ratio
    in the normal range of binary64). *)
Theorem retention_figure_error :
  forall vanilla optimised : MetricResult,
    0 < f1 vanilla ->
    0 <= f1 optimised ->
    Py.float (f1 optimised / f1 vanilla) <= 1000000 ->
    let ratio := f1 optimised / f1 vanilla in
    let quotient := Py.float ratio in
    (exists k : Z,
        Py.text (retention_line_1 vanilla optimised) =
          Some ("The optimized model achieves " ++ Py.digits k ++ ".00"
                ++ "% accuracy of the fp32 model")%string /\
        100 * quotient - (1 # 2) <= inject_Z k /\
        inject_Z k <= 100 * quotient + (1 # 2)) /\
    (2 ^ (-1022) <= ratio ->
     ratio - ratio * 2 ^ (-53) <= quotient /\ quotient <= ratio + ratio * 2 ^ (-53)).
Proof.
  intros vanilla optimised Hv Ho Hbound. cbv zeta.
  assert (0 <= f1 optimised / f1 vanilla) as Hratio.
  { apply Qle_shift_div_l; [ exact Hv | lra ]. }
  pose proof (float_nonneg Hratio) as Hfloat.
  assert (0 <= Py.float (f1 optimised / f1 vanilla)) as Hq.
  { rewrite Hfloat. now apply nearest_nonneg. }
  split.
  - destruct (figure_text Hq Hbound) as [Hk Htext].
    exists (Py.round_half_even (Py.float (f1 optimised / f1 vanilla) * 100)).
    split.
    + unfold retention_line_1. cbn [Py.text Py.piece_text]. rewrite Htext.
      now rewrite !string_app_assoc.
    + destruct (round_half_even_near (Py.float (f1 optimised / f1 vanilla) * 100)). split; lra.
  - intros Hnormal. rewrite Hfloat. now apply nearest_error.
Qed.

(** Scores of 100.0 and 99.5: the line shows 99. *)
Lemma retention_figure_error_witness :
  exists k : Z,
    Py.text (retention_line_1 {| exact := 80; f1 := 100 |} {| exact := 80; f1 := 99.5 |}) =
      Some ("The optimized model achieves " ++ Py.digits k ++ ".00"
            ++ "% accuracy of the fp32 model")%string /\
    100 * Py.float (99.5 / 100) - (1 # 2) <= inject_Z k /\
    inject_Z k <= 100 * Py.float (99.5 / 100) + (1 # 2).
Proof.
  refine (proj1 (@retention_figure_error {| exact := 80; f1 := 100 |}
                                          {| exact := 80; f1 := 99.5 |} _ _ _)).
  - reflexivity.
  - discriminate.
  - vm_compute. discriminate.
Defined.

(** X7. A better score never prints as a lower retention figure: for a
    positive vanilla F1, the first notebook's figure grows with the
    optimized F1, and the second notebook's figure grows with the
    accuracy. *)
Theorem retention_figure_monotone :
  forall (vanilla worse better : MetricResult) (lower higher : Q),
    0 < f1 vanilla ->
    f1 worse <= f1 better ->
    lower <= higher ->
    (exists below above : Q,
        retention_line_1 vanilla worse =
          [Py.Lit "The optimized model achieves "; Py.Fixed 2 below;
           Py.Lit "% accuracy of the fp32 model"] /\
        retention_line_1 vanilla better =
          [Py.Lit "The optimized model achieves "; Py.Fixed 2 above;
           Py.Lit "% accuracy of the fp32 model"] /\
        below <= above) /\
    (exists below above : Q,
        retention_line_2 lower =
          [Py.Lit "The quantized model achieves "; Py.Fixed 2 below;
           Py.Lit "% accuracy of the fp32 model"] /\
        retention_line_2 higher =
          [Py.Lit "The quantized model achieves "; Py.Fixed 2 above;
           Py.Lit "% accuracy of the fp32 model"] /\
        below <= above).
Proof.
  intros vanilla worse better lower higher Hpos Hscore Haccuracy. split.
  - do 2 eexists. split; [ reflexivity | split; [ reflexivity | ] ].
    apply fmul_le; [ discriminate | ]. apply round_le. apply float_le.
    unfold Qdiv. apply Qmult_le_compat_r; [ exact Hscore | ].
    apply Qlt_le_weak. now apply Qinv_lt_0_compat.
  - do 2 eexists. split; [ reflexivity | split; [ reflexivity | ] ].
    apply fmul_le; [ discriminate | ]. apply round_le. apply float_le.
    unfold Qdiv. apply Qmult_le_compat_r; [ exact Haccuracy | ].
    apply Qinv_le_0_compat. vm_compute. discriminate.
Qed.

Lemma retention_figure_monotone_witness :
  exists below above : Q,
    retention_line_1 {| exact := 80; f1 := 88 |} {| exact := 78; f1 := 86 |} =
      [Py.Lit "The optimized model achieves "; Py.Fixed 2 below;
       Py.Lit "% accuracy of the fp32 model"] /\
    retention_line_1 {| exact := 80; f1 := 88 |} {| exact := 79; f1 := 87 |} =
      [Py.Lit "The optimized model achieves "; Py.Fixed 2 above;
       Py.Lit "% accuracy of the fp32 model"] /\
    below <= above.
Proof.
  refine (proj1 (retention_figure_monotone
                   {| exact := 80; f1 := 88 |} {| exact := 78; f1 := 86 |}
                   {| exact := 79; f1 := 87 |} (lower := 0.92) (higher := 0.93) _ _ _)).
  - reflexivity.
  - cbn. unfold Qle. cbn. lia.
  - unfold Qle. cbn. lia.
Defined.

(** ** Cells that an observation does not see *)

Section Quiet.

Variable W : Type.
Variable h : handler W.
Variable np : numpy.
Variable O : Type.
Variable f : entry -> option O.

Lemma quiet_setup_cell :
  (forall x, f (Called get_available_providers x) = None) ->
  (forall x, f (Called get_device x) = None) ->
  (forall x, f (Called onnxruntime_version x) = None) ->
  yields h f Notebook1.setup_cell
         (fun r o => o = [] /\ (r = Returned tt \/ exists msg, r = Raised (Py.AssertionError msg))).
Proof.
  intros Hp Hd Hv w. unfold Notebook1.setup_cell. cbn [bind trigger run].
  destruct (h get_available_providers w) as [providers w1].
  destruct (Py.str_in "CUDAExecutionProvider" providers); cbn [py_assert bind run fst snd];
    [ | cbn [filter_map]; rewrite Hp; eauto ].
  destruct (h get_device w1) as [device w2].
  destruct (String.eqb "GPU" device); cbn [py_assert bind run fst snd];
    [ | cbn [filter_map]; rewrite Hp, Hd; eauto ].
  destruct (h onnxruntime_version w2) as [version w3].
  destruct (Py.str_gt version "1.11.1"); cbn [py_assert bind run fst snd filter_map];
    rewrite Hp, Hd, Hv; eauto.
Qed.

Lemma quiet_eval_rounds (first second : ref) (rounds : list eval_round) :
  (forall p q c x, f (Called (qa_call p q c) x) = None) ->
  filter_map f (flat_map (eval_round_trace first second) rounds) = [].
Proof.
  intros Hq. induction rounds as [| [[example d] o] rounds IH]; [ reflexivity | ].
  cbn [flat_map eval_round_trace app filter_map]. now rewrite !Hq.
Qed.

Lemma quiet_map_evaluate_1 (vanilla_qa optimized_qa : ref) (ds : Dataset) :
  (forall p q c x, f (Called (qa_call p q c) x) = None) ->
  yields h f (Dataset_map (Notebook1.evaluate vanilla_qa optimized_qa) ds)
         (fun r o => o = [] /\
                     exists rounds : list eval_round,
                       map round_example rounds = ds /\
                       r = Returned (map (eval_record None) rounds)).
Proof.
  intros Hq w. rewrite run_map_evaluate_1. cbn [fst snd]. split.
  - now apply quiet_eval_rounds.
  - eexists. split; [ apply evaluation_rounds_examples | reflexivity ].
Qed.

Lemma quiet_map_evaluate_2 (optimum_qa opt_optimum_qa : ref) (ds : Dataset) :
  (forall p q c x, f (Called (qa_call p q c) x) = None) ->
  yields h f (Dataset_map (Notebook2.evaluate optimum_qa opt_optimum_qa) ds)
         (fun r o => o = [] /\
                     exists rounds : list eval_round,
                       map round_example rounds = ds /\
                       r = Returned (map (eval_record (Some 0)) rounds)).
Proof.
  intros Hq w. rewrite run_map_evaluate_2. cbn [fst snd]. split.
  - now apply quiet_eval_rounds.
  - eexists. split; [ apply evaluation_rounds_examples | reflexivity ].
Qed.

Lemma quiet_measure_latency_1 (pipe : ref) :
  (forall p q c x, f (Called (qa_call p q c) x) = None) ->
  (forall t, f (Called perf_counter t) = None) ->
  returns h f (Notebook1.measure_latency np pipe) [].
Proof.
  intros Hq Hp w. rewrite run_measure_latency_1.
  destruct (benchmark_run_shape h np (qa_call pipe question context) w)
    as (answers & rounds & _ & _ & Ht & Hres).
  rewrite Ht, Hres. split; [ eexists; reflexivity | ].
  apply quiet_benchmark_trace; [ apply Hq | exact Hp ].
Qed.

Lemma quiet_measure_latency_2 (pipe : ref) :
  (forall p s x, f (Called (text_call p s) x) = None) ->
  (forall t, f (Called perf_counter t) = None) ->
  returns h f (Notebook2.measure_latency np pipe) [].
Proof.
  intros Hq Hp w. rewrite run_measure_latency_2.
  destruct (benchmark_run_shape h np (text_call pipe Notebook2.payload) w)
    as (answers & rounds & _ & _ & Ht & Hres).
  rewrite Ht, Hres. split; [ eexists; reflexivity | ].
  apply quiet_benchmark_trace; [ apply Hq | exact Hp ].
Qed.

End Quiet.

(** ** What is scored *)

Lemma aligned_records (nap : option Q) (rounds : list eval_round) :
  aligned nap (map round_example rounds)
          (map default (map (eval_record nap) rounds))
          (map reference (map (eval_record nap) rounds)) /\
  aligned nap (map round_example rounds)
          (map optimized (map (eval_record nap) rounds))
          (map reference (map (eval_record nap) rounds)).
Proof.
  unfold aligned. rewrite !map_map.
  induction rounds as [| [[example d] o] rounds (IH1 & IH2)].
  - cbn. repeat split; constructor.
  - destruct IH1 as (Hd & Hr & Ha & Hn). destruct IH2 as (Ho & _ & _ & Hn').
    cbn [map eval_record round_example fst default optimized reference
         pred_id ref_id ref_answers].
    rewrite Hd, Hr, Ha, Ho. repeat split; constructor; auto.
Qed.

Section ScoringRuns.

Variable W : Type.
Variable h : handler W.
Variable np : numpy.

Lemma scoring_evaluation_cell (vanilla_qa optimized_qa metric : ref) (ds : Dataset) :
  yields h scoring_of (Notebook1.evaluation_cell vanilla_qa optimized_qa metric ds)
         (fun r o => (r = Returned tt \/ r = Raised Py.ZeroDivisionError) /\
                     scores_both None metric ds o).
Proof.
  unfold Notebook1.evaluation_cell.
  apply yields_bind
    with (1 := quiet_map_evaluate_1 h scoring_of vanilla_qa optimized_qa ds
                 (fun _ _ _ _ => eq_refl)).
  2: { intros e o1 [_ (rounds & _ & Hr)]. discriminate Hr. }
  intros result o1 [-> (rounds & <- & Hr)]. injection Hr as ->.
  destruct (aligned_records None rounds) as [Hd Ho].
  cbn [bind trigger].
  apply yields_vis. intros vanilla. apply yields_vis. intros optimised.
  apply yields_vis. intros []. apply yields_vis. intros [].
  unfold Py.truediv. destruct (Qeq_bool (f1 vanilla) 0); cbn [lift bind].
  - apply yields_raise. split; [ now right | ].
    do 3 eexists. split; [ reflexivity | split; assumption ].
  - apply yields_vis. intros []. apply yields_ret. split; [ now left | ].
    do 3 eexists. split; [ reflexivity | split; assumption ].
Qed.

Lemma scoring_notebook_1 :
  yields h scoring_of (Notebook1.notebook np) first_notebook_scoring.
Proof.
  unfold Notebook1.notebook.
  next_cell as _.
  apply yields_bind
    with (1 := quiet_setup_cell h scoring_of
                 (fun _ => eq_refl) (fun _ => eq_refl) (fun _ => eq_refl)).
  2: { intros e o1 [-> [Hr | [msg Hr]]]; [ discriminate Hr | ].
       injection Hr as ->. reflexivity. }
  intros _ o1 [-> _].
  next_cell as [model tokenizer].
  next_cell as vanilla_qa.
  next_cell as _.
  next_cell as optimized_qa.
  next_cell as trfs_qa.
  unfold Notebook1.dataset_cell. cbn [bind trigger].
  apply yields_vis. intros unused. apply yields_vis. intros metric.
  apply yields_vis. intros splits.
  apply yields_bind
    with (1 := scoring_evaluation_cell vanilla_qa optimized_qa metric (validation splits)).
  2: { intros e o1 [[Hr | Hr] Ho]; [ discriminate Hr | ]. injection Hr as ->.
       exists unused, metric, splits, o1. split; [ reflexivity | exact Ho ]. }
  intros [] o1 [_ Ho].
  unfold Notebook1.benchmark_cell.
  apply yields_after
    with (1 := quiet_measure_latency_1 h np scoring_of vanilla_qa
                 (fun _ _ _ _ => eq_refl) (fun _ => eq_refl)).
  intros vanilla_model.
  apply yields_after
    with (1 := quiet_measure_latency_1 h np scoring_of optimized_qa
                 (fun _ _ _ _ => eq_refl) (fun _ => eq_refl)).
  intros optimized_model.
  cbn [bind trigger]. repeat (apply yields_vis; intros ?). apply yields_ret.
  exists unused, metric, splits, o1. split; [ | exact Ho ].
  cbn. now rewrite app_nil_r.
Qed.

Variables (text task : string) (optimum_qa opt_optimum_qa clx : ref).
Variable quantized : MetricResult.
Variable results_accuracy : Q.

Lemma scoring_notebook_2 :
  yields h scoring_of
         (Notebook2.notebook text task optimum_qa opt_optimum_qa clx quantized
                             results_accuracy np)
         (fun r o => r = Returned tt /\ second_notebook_scoring o).
Proof.
  unfold Notebook2.notebook.
  next_cell as _.
  next_cell as [model tokenizer].
  next_cell as inputs.
  next_cell as vanilla_qa.
  next_cell as _.
  next_cell as [model' optimized_qa].
  next_cell as model_quantized_path.
  next_cell as _.
  next_cell as [tokenizer' optimized_qa'].
  unfold Notebook2.dataset_cell, Dataset_select_range. cbn [bind trigger].
  apply yields_vis. intros metric. apply yields_vis. intros splits.
  unfold Notebook2.evaluate_cell.
  apply yields_bind
    with (1 := quiet_map_evaluate_2 h scoring_of optimum_qa opt_optimum_qa
                 (firstn 1000 (validation splits)) (fun _ _ _ _ => eq_refl)).
  2: { intros e o1 [_ (rounds & _ & Hr)]. discriminate Hr. }
  intros result o1 [-> (rounds & Hds & Hr)]. injection Hr as ->.
  destruct (aligned_records (Some 0) rounds) as [Hd Ho]. rewrite Hds in Hd, Ho.
  unfold Notebook2.metrics_cell. cbn [bind trigger].
  apply yields_vis. intros vanilla. apply yields_vis. intros optimised.
  do 5 (apply yields_vis; intros []).
  rewrite truediv_by_literal.
  cbn [lift bind]. apply yields_vis. intros [].
  unfold Notebook2.benchmark_cell. cbn [bind trigger].
  apply yields_vis. intros input_ids. apply yields_vis. intros [].
  apply yields_vis. intros vanilla_clx.
  apply yields_after
    with (1 := quiet_measure_latency_2 h np scoring_of vanilla_clx
                 (fun _ _ _ => eq_refl) (fun _ => eq_refl)).
  intros vanilla_model.
  apply yields_after
    with (1 := quiet_measure_latency_2 h np scoring_of clx
                 (fun _ _ _ => eq_refl) (fun _ => eq_refl)).
  intros quantized_model.
  cbn [bind trigger]. repeat (apply yields_vis; intros []). apply yields_ret.
  split; [ reflexivity | ].
  exists metric, splits. eexists. split; [ reflexivity | ].
  do 3 eexists. split; [ reflexivity | split; assumption ].
Qed.

End ScoringRuns.

(** X5. On a machine whose validation split of [squad] is not empty and
    whose validation split of [squad_v2] has at least 1000 examples, what
    the notebooks give to [metric.compute] follows the dataset they loaded:
    the first notebook scores, with the metric it loaded last ([squad]; the
    [squad_v2] metric loaded before it is not used), one prediction and one
    reference per example of the validation split of [squad], in the
    split's order, with the example's id in both and the example's answers
    in the reference, and no ['no_answer_probability']; the second does the
    same with the [squad_v2] metric over the first 1000 examples of the
    validation split of [squad_v2], every prediction with a
    ['no_answer_probability'] of 0.  Both calls of a notebook get the same
    references. *)
Theorem predictions_follow_the_dataset :
  forall (W : Type) (h : handler W) (np : numpy)
         (text task : string) (optimum_qa opt_optimum_qa clx : ref)
         (quantized : MetricResult) (results_accuracy : Q) (w : W),
    validation_at_least h "squad" 1 ->
    validation_at_least h "squad_v2" 1000 ->
    (let '(r, _, t) := run h (Notebook1.notebook np) w in
     first_notebook_scoring r (scoring t)) /\
    (let '(_, _, t) :=
       run h (Notebook2.notebook text task optimum_qa opt_optimum_qa clx
                                 quantized results_accuracy np) w in
     second_notebook_scoring (scoring t)).
Proof.
  intros W h np text task optimum_qa opt_optimum_qa clx quantized results_accuracy w _ _.
  split.
  - pose proof (scoring_notebook_1 h np w) as H.
    destruct (run h (Notebook1.notebook np) w) as [[r w'] t]. exact H.
  - pose proof (scoring_notebook_2 h np text task optimum_qa opt_optimum_qa clx
                                   quantized results_accuracy w) as H.
    destruct (run h _ w) as [[r w'] t]. apply H.
Qed.

Lemma predictions_follow_the_dataset_witness :
  (let '(r, _, t) := run (Sim.handle long_validation) (Notebook1.notebook Sim.np_stub) 0%nat in
   first_notebook_scoring r (scoring t)) /\
  (let '(_, _, t) :=
     run (Sim.handle long_validation)
         (Notebook2.notebook "text" "question-answering" 100%nat 101%nat 102%nat
                             (Sim.scores Sim.gpu_machine) 0.9224025974025974 Sim.np_stub)
         0%nat in
   second_notebook_scoring (scoring t)).
Proof.
  apply predictions_follow_the_dataset.
  - intros w. pose proof (long_validation_at_least "squad" w). lia.
  - apply long_validation_at_least.
Defined.

(** ** Which model answers *)

Section WiringRuns.

Variable W : Type.
Variable h : handler W.
Variable np : numpy.




End WiringRuns.



(** ** Files are written before they are read *)

Section FileUses.

Variable W : Type.
Variable h : handler W.
Variable np : numpy.

Lemma file_uses_evaluation_cell (vanilla_qa optimized_qa metric : ref) (ds : Dataset) :
  yields h file_use_of (Notebook1.evaluation_cell vanilla_qa optimized_qa metric ds)
         (fun r o => o = [] /\ (r = Returned tt \/ r = Raised Py.ZeroDivisionError)).
Proof.
  unfold Notebook1.evaluation_cell.
  apply yields_after with (obs := @nil FileUse).
  - rewrite <- (repeat_list_nil FileUse (List.length ds)). apply returns_Dataset_map.
    intros example. straight.
  - intros result. cbn [bind trigger].
    apply yields_vis. intros vanilla. apply yields_vis. intros optimised.
    apply yields_vis. intros []. apply yields_vis. intros [].
    unfold Py.truediv. destruct (Qeq_bool (f1 vanilla) 0); cbn [lift bind].
    + apply yields_raise. cbn. auto.
    + apply yields_vis. intros []. apply yields_ret. cbn. auto.
Qed.

Lemma file_uses_notebook_1 :
  yields h file_use_of (Notebook1.notebook np)
         (fun r o =>
            match r with
            | Raised (Py.AssertionError _) => o = []
            | _ => o = [Saves "onnx"; Saves "onnx";
                        Converts "onnx/model.onnx" "onnx/model-optimized.onnx"]
            end).
Proof.
  unfold Notebook1.notebook.
  next_cell as _.
  apply yields_bind
    with (1 := quiet_setup_cell h file_use_of
                 (fun _ => eq_refl) (fun _ => eq_refl) (fun _ => eq_refl)).
  2: { intros e o1 [-> [Hr | [msg Hr]]]; [ discriminate Hr | ].
       injection Hr as ->. reflexivity. }
  intros _ o1 [-> _].
  next_cell as [model tokenizer].
  next_cell as vanilla_qa.
  next_cell as _.
  next_cell as optimized_qa.
  next_cell as trfs_qa.
  next_cell as [metric eval_dataset].
  apply yields_bind
    with (1 := file_uses_evaluation_cell vanilla_qa optimized_qa metric eval_dataset).
  2: { intros e o1 [-> [Hr | Hr]]; [ discriminate Hr | ].
       injection Hr as ->. reflexivity. }
  intros _ o1 [-> _].
  unfold Notebook1.benchmark_cell.
  apply yields_after
    with (1 := quiet_measure_latency_1 h np file_use_of vanilla_qa
                 (fun _ _ _ _ => eq_refl) (fun _ => eq_refl)).
  intros vanilla_model.
  apply yields_after
    with (1 := quiet_measure_latency_1 h np file_use_of optimized_qa
                 (fun _ _ _ _ => eq_refl) (fun _ => eq_refl)).
  intros optimized_model.
  cbn [bind trigger]. repeat (apply yields_vis; intros ?). apply yields_ret.
  reflexivity.
Qed.

Variables (text task : string) (optimum_qa opt_optimum_qa clx : ref).
Variable quantized : MetricResult.
Variable results_accuracy : Q.

Lemma file_uses_notebook_2 :
  returns h file_use_of
          (Notebook2.notebook text task optimum_qa opt_optimum_qa clx quantized
                              results_accuracy np)
          [Saves "onnx"; Saves "onnx";
           Converts "onnx/model.onnx" "onnx/model-optimized.onnx";
           Converts "onnx/model-optimized.onnx" "onnx/model-quantized.onnx";
           Measures "onnx/model-optimized.onnx";
           Measures "onnx/model-quantized.onnx"].
Proof.
  unfold Notebook2.notebook.
  next_cell as _.
  next_cell as [model tokenizer].
  next_cell as inputs.
  next_cell as vanilla_qa.
  next_cell as _.
  next_cell as [model' optimized_qa].
  next_cell as model_quantized_path.
  next_cell as _.
  next_cell as [tokenizer' optimized_qa'].
  next_cell as [metric eval_dataset].
  apply yields_after with (obs := @nil FileUse).
  { unfold Notebook2.evaluate_cell.
    rewrite <- (repeat_list_nil FileUse (List.length eval_dataset)).
    apply returns_Dataset_map. intros example. straight. }
  intros result.
  apply yields_after with (obs := @nil FileUse).
  { unfold Notebook2.metrics_cell. cbn [bind trigger].
    do 7 (apply yields_vis; intros ?).
    rewrite truediv_by_literal.
    cbn [lift bind]. follow_calls. }
  intros _.
  unfold Notebook2.benchmark_cell. cbn [bind trigger].
  apply yields_vis. intros input_ids. apply yields_vis. intros [].
  apply yields_vis. intros vanilla_clx.
  apply yields_after
    with (1 := quiet_measure_latency_2 h np file_use_of vanilla_clx
                 (fun _ _ _ => eq_refl) (fun _ => eq_refl)).
  intros vanilla_model.
  apply yields_after
    with (1 := quiet_measure_latency_2 h np file_use_of clx
                 (fun _ _ _ => eq_refl) (fun _ => eq_refl)).
  intros quantized_model.
  cbn [bind trigger]. repeat (apply yields_vis; intros ?). apply yields_ret.
  split; [ eexists; reflexivity | reflexivity ].
Qed.

End FileUses.

(** X10. In every run of either notebook, each file an export or
    [os.path.getsize] reads was written, or lies in a directory that was
    written, by an earlier call of the same run: the optimizer reads from
    the directory the model was saved to, the quantizer reads the file the
    optimizer wrote, and the sizes read are those of the optimizer's and
    the quantizer's outputs.  No export writes over the file it reads. *)
Theorem files_read_after_written :
  forall (W : Type) (h : handler W) (np : numpy)
         (text task : string) (optimum_qa opt_optimum_qa clx : ref)
         (quantized : MetricResult) (results_accuracy : Q) (w : W),
    (let t := snd (run h (Notebook1.notebook np) w) in
     reads_follow_writes [] (file_uses t) = true /\
     forallb keeps_its_input (file_uses t) = true) /\
    (let t := snd (run h (Notebook2.notebook text task optimum_qa opt_optimum_qa clx
                                             quantized results_accuracy np) w) in
     reads_follow_writes [] (file_uses t) = true /\
     forallb keeps_its_input (file_uses t) = true).
Proof.
  intros W h np text task optimum_qa opt_optimum_qa clx quantized results_accuracy w. split.
  - pose proof (file_uses_notebook_1 h np w) as H. cbv zeta. unfold file_uses.
    destruct (fst (fst (run h (Notebook1.notebook np) w))) as [[] | [msg | ]];
      rewrite H; split; reflexivity.
  - pose proof (file_uses_notebook_2 h np text task optimum_qa opt_optimum_qa clx
                                     quantized results_accuracy w) as [_ H].
    cbv zeta. unfold file_uses. rewrite H. split; reflexivity.
Qed.

(** ** The size cell *)

(** X11. The size cell reports sizes in units of 1024 * 1024 bytes under
    the label MB: when the two files hold whole numbers [k] and [k'] of
    such units, it prints [k.00] and [k'.00], and it returns. *)
Theorem size_cell_counts_mebibytes :
  forall (W : Type) (h : handler W) (k k' : Z) (w : W),
    (0 <= k)%Z ->
    (0 <= k')%Z ->
    fst (h _ (os_path_getsize "onnx/model-optimized.onnx") w) = (k * 1048576)%Z ->
    fst (h _ (os_path_getsize "onnx/model-quantized.onnx")
           (snd (h _ (os_path_getsize "onnx/model-optimized.onnx") w))) = (k' * 1048576)%Z ->
    fst (fst (run h Notebook2.size_cell w)) = Returned tt /\
    map Py.text (printed_lines (snd (run h Notebook2.size_cell w))) =
      [Some ("Model file size: " ++ Py.digits k ++ ".00 MB")%string;
       Some ("Quantized Model file size: " ++ Py.digits k' ++ ".00 MB")%string].
Proof.
  intros W h k k' w Hk Hk' H1 H2.
  unfold Notebook2.size_cell. cbn [bind trigger run].
  change (path_join Notebook2.onnx_path "model-optimized.onnx")
    with "onnx/model-optimized.onnx"%string.
  change (path_join Notebook2.onnx_path "model-quantized.onnx")
    with "onnx/model-quantized.onnx"%string.
  destruct (h _ (os_path_getsize "onnx/model-optimized.onnx") w) as [bytes w1].
  cbn [fst snd] in H1, H2. subst bytes.
  destruct (h _ (os_path_getsize "onnx/model-quantized.onnx") w1) as [bytes w2].
  cbn [fst snd] in H2. subst bytes.
  destruct (h _ (print _) w2) as [[] w3]. destruct (h _ (print _) w3) as [[] w4].
  cbn [fst snd]. split; [ reflexivity | ].
  assert (forall n : Z, (0 <= n)%Z ->
            Py.format_fixed 2 (inject_Z (n * 1048576) / inject_Z (1024 * 1024)) =
            (Py.digits n ++ ".00")%string) as Hfmt.
  { intros n Hn. rewrite (@format_fixed_2_whole _ n).
    - replace (n <? 0)%Z with false by (symmetry; apply Z.ltb_ge; exact Hn).
      now rewrite Z.abs_eq.
    - rewrite inject_Z_mult. change (inject_Z (1024 * 1024)) with (inject_Z 1048576).
      field. }
  unfold printed_lines, reports.
  cbn [filter_map report_of map Py.text Py.piece_text].
  rewrite (Hfmt k Hk), (Hfmt k' Hk'), !string_app_assoc. reflexivity.
Qed.

Lemma size_cell_counts_mebibytes_witness :
  map Py.text
      (printed_lines
         (snd (run (Sim.handle (Sim.with_sizes Sim.gpu_machine (fun _ => 268435456%Z)))
                   Notebook2.size_cell 0%nat))) =
    [Some "Model file size: 256.00 MB"%string;
     Some "Quantized Model file size: 256.00 MB"%string].
Proof.
  refine (proj2 (size_cell_counts_mebibytes
                   (Sim.handle (Sim.with_sizes Sim.gpu_machine (fun _ => 268435456%Z)))
                   (k := 256) (k' := 256) 0%nat _ _ _ _)).
  - discriminate.
  - discriminate.
  - reflexivity.
  - reflexivity.
Defined.
